(** * nano_pybridge: the document-to-HDF5 serializer

    A shallow embedding of [suitcase/nano_pybridge/__init__.py]:
    - [PyStr]: the Python string operations the module relies on;
    - [clean_filename], [sort_by_list], [get_param_dict];
    - [FileManager]: the resource allocator ([FileManager.reserve_name]), and
      [Files]: its files ([FileManager.open], [FileManager.close]);
    - [Mapper]: the generic recursive mapper ([recourse_entry_dict]);
    - [Serializer]: the stream/channel router ([descriptor], [event_page],
      [_add_data_to_stream_group]) and the cross-stream stitcher ([stop]);
    - [Plots]: the axes and the signals that [stop] makes of the plots;
    - [Start]: the hierarchy builder ([start]).

    Python exceptions are values of [exn]; a call either returns or raises.
    Mutable objects become explicit state: the manager, the group a mapping is
    written to, the serializer with the objects of its HDF5 entry.

    What lies outside the module is taken as follows.
    - The file system and [pathlib]: [reserve_name] gets the resolution of a
      path and [os.path.isfile] as parameters.
    - h5py: a group refuses a name that is taken; whether a Python value can be
      stored as it is, is a parameter of the mapper; what happens to rows that
      do not fit a dataset is a parameter of the router; a virtual layout wants
      as many rows on both sides of an assignment, and rows of one shape.
      Names of HDF5 objects are single path components.
    - numpy: a column of a batch comes as the array that [np.asarray] makes of
      it; numbers and time stamps are integers (no floating point).
    - [start] is embedded on the trees of the mapper ([Start]); for the router,
      whose store is flat, [after_start] gives the state that [start] leaves,
      as far as the later calls read it.  [stop] is embedded without the NeXus
      output, and the plots of [Plots] without live fits. *)

From Stdlib Require Import ZArith List String Ascii Bool Lia DecimalString DecimalNat Sorted.
From stdpp Require Import base option list strings gmap.

Set Warnings "-register-all".

(** ** Exceptions and results *)

Inductive exn :=
| SuitcaseUtilsValueError   (* raised by reserve_name *)
| ValueError                (* raised by descriptor *)
| KeyError
| IndexError
| AttributeError
| TypeError
| H5Error.                  (* raised by the HDF5 store: a name that exists
                               already, selections that do not match *)

Inductive result (A : Type) :=
| Ok (a : A)
| Raise (e : exn).
Arguments Ok {A} a.
Arguments Raise {A} e.

Definition rbind {A B} (r : result A) (k : A -> result B) : result B :=
  match r with
  | Ok a => k a
  | Raise e => Raise e
  end.

#[export] Instance result_ret : MRet result := fun A a => Ok a.
#[export] Instance result_bind : MBind result := fun A B k r => rbind r k.

Definition is_ok {A} (r : result A) : bool :=
  match r with Ok _ => true | Raise _ => false end.

(** ** Python string operations *)

Module PyStr.

(** [s.startswith(t)] *)
Definition startswith (s t : string) : bool := String.prefix t s.

(** [s.endswith(t)] *)
Definition endswith (s t : string) : bool :=
  let n := String.length s in
  let m := String.length t in
  (m <=? n)%nat && String.eqb (String.substring (n - m) m s) t.

(** [t in s] for strings *)
Fixpoint contains (s t : string) : bool :=
  String.prefix t s ||
  match s with
  | EmptyString => false
  | String _ r => contains r t
  end.

(** [s.replace(old, new)]: every non-overlapping occurrence, left to right.
    [skip] counts the characters of a matched occurrence still to drop. *)
Fixpoint replace_from (old new s : string) (skip : nat) : string :=
  match s with
  | EmptyString => EmptyString
  | String c r =>
      match skip with
      | S k => replace_from old new r k
      | O =>
          if String.prefix old s
          then new +:+ replace_from old new r (String.length old - 1)
          else String c (replace_from old new r 0)
      end
  end.

Fixpoint intersperse (new s : string) : string :=
  match s with
  | EmptyString => EmptyString
  | String c r => String c (new +:+ intersperse new r)
  end.

Definition replace (s old new : string) : string :=
  match old with
  | EmptyString => new +:+ intersperse new s
  | _ => replace_from old new s 0
  end.

(** [s.rfind(c)] for a one-character [c]: the last index, if any. *)
Fixpoint rfind_from (c : ascii) (s : string) (i : nat) (acc : option nat)
  : option nat :=
  match s with
  | EmptyString => acc
  | String d r =>
      rfind_from c r (S i) (if Ascii.eqb c d then Some i else acc)
  end.

Definition rfind (c : ascii) (s : string) : option nat := rfind_from c s 0 None.

(** Is some character of [s[lo:hi]] different from [c]? *)
Definition some_other (c : ascii) (s : string) (lo hi : nat) : bool :=
  existsb (fun d => negb (Ascii.eqb c d))
          (list_ascii_of_string (String.substring lo (hi - lo) s)).

(** [os.path.splitext(p)[0]] (posixpath): the extension starts at the last
    dot, when that dot comes after the last slash and after a character of the
    file name that is not a dot. *)
Definition splitext_root (p : string) : string :=
  match rfind "." p with
  | None => p
  | Some dot =>
      let name_start := match rfind "/" p with Some sep => S sep | None => 0%nat end in
      if (name_start <=? dot)%nat && some_other "." p name_start dot
      then String.substring 0 dot p
      else p
  end.

(** [str(n)] for a non-negative integer *)
Definition of_nat (n : nat) : string := NilZero.string_of_uint (Nat.to_uint n).

End PyStr.

(** [clean_filename] *)
Definition clean_filename (filename : string) : string :=
  let filename := PyStr.replace filename " " "_" in
  let filename := PyStr.replace filename "." "_" in
  let filename := PyStr.replace filename ":" "-" in
  let filename := PyStr.replace filename "/" "-" in
  let filename := PyStr.replace filename "\" "-" in
  let filename := PyStr.replace filename "?" "_" in
  let filename := PyStr.replace filename "*" "_" in
  let filename := PyStr.replace filename "<" "_smaller_" in
  let filename := PyStr.replace filename ">" "_greater_" in
  let filename := PyStr.replace filename "|" "-" in
  let filename := PyStr.replace filename (String (ascii_of_nat 34) EmptyString) "_quote_" in
  filename.

(** The characters that [clean_filename] replaces. *)
Definition forbidden (c : ascii) : bool :=
  existsb (Ascii.eqb c)
          (list_ascii_of_string " .:/\?*<>|" ++ [ascii_of_nat 34]).


(** ** Insertion-ordered dicts with string keys *)

Fixpoint get_key {A} (k : string) (l : list (string * A)) : option A :=
  match l with
  | [] => None
  | (k', v) :: r => if String.eqb k k' then Some v else get_key k r
  end.

(** [k in d] *)
Definition has_key {A} (k : string) (l : list (string * A)) : bool :=
  match get_key k l with Some _ => true | None => false end.

(** [d[k] = v] *)
Fixpoint set_key {A} (k : string) (v : A) (l : list (string * A))
  : list (string * A) :=
  match l with
  | [] => [(k, v)]
  | (k', v') :: r =>
      if String.eqb k k' then (k, v) :: r else (k', v') :: set_key k v r
  end.

(** A loop whose body may raise. *)
Fixpoint foldM {A B} (f : B -> A -> result B) (l : list A) (b : B) : result B :=
  match l with
  | [] => Ok b
  | a :: l' => b' ← f b a; foldM f l' b'
  end.

(** [d[k]] on an insertion-ordered dict and on a map *)
Definition getitem {A} (k : string) (l : list (string * A)) : result A :=
  match get_key k l with Some v => Ok v | None => Raise KeyError end.

Definition getmap {A} (k : string) (m : gmap string A) : result A :=
  match m !! k with Some v => Ok v | None => Raise KeyError end.

(** ** [sort_by_list] and [get_param_dict]

    The keys that [sort_by_list] sorts by are numbers (time stamps); the
    elements of the other lists are of any one type [A].  A parameter set of
    [get_param_dict] comes as its items, each parameter as its [.value]. *)

Section sort_by_list.

Context {A : Type}.

(** [zip(sort_list, *other_lists)]: a row for every index that all the lists
    have; the row of a key holds the elements of the other lists. *)
Fixpoint zip_rows (sort_list : list Z) (other_lists : list (list A))
  : list (Z * list A) :=
  match sort_list with
  | [] => []
  | k :: sort_list' =>
      match mapM head other_lists with
      | None => []
      | Some row => (k, row) :: zip_rows sort_list' (map tail other_lists)
      end
  end.

(** [sorted(rows, key=lambda x: x[0])]: ascending, and stable. *)
Fixpoint insert_row (x : Z * list A) (l : list (Z * list A)) : list (Z * list A) :=
  match l with
  | [] => [x]
  | y :: l' => if (fst x <=? fst y)%Z then x :: l else y :: insert_row x l'
  end.

Definition sorted (rows : list (Z * list A)) : list (Z * list A) :=
  foldr insert_row [] rows.

(** [zip] of the rows, each an argument: a column for every index that all
    the rows have. *)
Fixpoint columns (n : nat) (rows : list (list A)) : list (list A) :=
  match n with
  | O => []
  | S n' =>
      match mapM head rows with
      | None => []
      | Some col => col :: columns n' (map tail rows)
      end
  end.

(** [sort_by_list(sort_list, other_lists)]: the sorted keys and the other
    lists in the order of the keys; [None] is the iterator that yields nothing
    ([zip()] of no row). *)
Definition sort_by_list (sort_list : list Z) (other_lists : list (list A))
  : option (list Z * list (list A)) :=
  let s_list := sorted (zip_rows sort_list other_lists) in
  match s_list with
  | [] => None
  | (_, row0) :: _ => Some (map fst s_list, columns (length row0) (map snd s_list))
  end.

End sort_by_list.

(** [get_param_dict(param_values)] *)
Definition get_param_dict (param_values : list (list (string * Z)))
  : list (string * list Z) :=
  fold_left
    (fun p_s vals =>
       fold_left
         (fun p_s kv =>
            match get_key (fst kv) p_s with
            | Some l => set_key (fst kv) (l ++ [snd kv]) p_s
            | None => p_s ++ [(fst kv, [snd kv])]
            end)
         vals p_s)
    param_values [].

(** The values that the parameter sets hold for [k], in order. *)
Definition values_of (k : string) (param_values : list (list (string * Z)))
  : list Z :=
  flat_map (fun vals => map snd (List.filter (fun kv => String.eqb k (fst kv)) vals))
           param_values.

(** ** The resource allocator: [FileManager] *)

Module FileManager.

(** [reserve_name] handles two kinds of Python objects as path names:
    [pathlib.Path] objects and [str] objects.  They never compare equal (and so
    a [str] is never found in a set that holds the [Path] of the same file). *)
Inductive pathname :=
| PPath (s : string)   (* a resolved [Path]; [s] is its [as_posix()] *)
| PStr (s : string).   (* a [str] *)

#[export] Instance pathname_eq_dec : EqDecision pathname.
Proof. solve_decision. Defined.

Definition pathname_to_sum (p : pathname) : string + string :=
  match p with PPath s => inl s | PStr s => inr s end.
Definition pathname_of_sum (p : string + string) : pathname :=
  match p with inl s => PPath s | inr s => PStr s end.

#[export] Instance pathname_countable : Countable pathname.
Proof.
  apply (inj_countable' pathname_to_sum pathname_of_sum).
  intros []; reflexivity.
Defined.

(** The file the name denotes. *)
Definition as_posix (p : pathname) : string :=
  match p with PPath s => s | PStr s => s end.

Record t := mk {
  directory : string;
  reserved_names : gset pathname;                (* [_reserved_names] *)
  artifacts : gmap string (list pathname);       (* [_artifacts] *)
  new_file_each : bool
}.

(** [FileManager(directory, new_file_each)] *)
Definition init (directory : string) (new_file_each : bool) : t :=
  mk directory ∅ ∅ new_file_each.

Section reserve.

(** The environment: [resolve d r] is the [as_posix()] of
    [(d / Path(r)).expanduser().resolve()], and [isfile] is [os.path.isfile]
    on the storage as it is during the call. *)
Variable resolve : string -> string -> string.
Variable isfile : string -> bool.

(** [Path(p).is_absolute()] (POSIX) *)
Definition is_absolute (p : string) : bool := PyStr.startswith p "/".

(** The condition shared by the [if] and the [while]:
    [(abs_file_path in self._reserved_names)
     or os.path.isfile(abs_file_path) and self._new_file_each] *)
Definition taken (fm : t) (p : pathname) : bool :=
  bool_decide (p ∈ reserved_names fm) || (isfile (as_posix p) && new_file_each fm).

Definition nxs_suffix (i : nat) : string := "_" +:+ PyStr.of_nat i +:+ ".nxs".

(** The [while] loop; [i] is the loop counter, [fuel] bounds the iterations
    and [None] means that the bound was reached. *)
Fixpoint disambiguate (fuel : nat) (fm : t) (p : pathname) (i : nat)
  : option (result pathname) :=
  if taken fm p then
    match fuel with
    | O => None
    | S fuel' =>
        match p with
        | PPath _ => Some (Raise AttributeError)  (* a Path has no endswith *)
        | PStr s =>
            let s' :=
              if PyStr.endswith s (nxs_suffix (i - 1))
              then PyStr.replace s (nxs_suffix (i - 1)) (nxs_suffix i)
              else PyStr.splitext_root s +:+ nxs_suffix i in
            disambiguate fuel' fm (PStr s') (i + 1)
        end
    end
  else Some (Ok p).

(** [self._artifacts[entry_name].append(p)] on a [defaultdict(list)] *)
Definition artifacts_append (m : gmap string (list pathname))
    (entry_name : string) (p : pathname) : gmap string (list pathname) :=
  <[entry_name := default [] (m !! entry_name) ++ [p]]> m.

(** [reserve_name(entry_name, relative_file_path)]: the manager after the call
    and what the call returned or raised. *)
Definition reserve_name (fuel : nat) (fm : t)
    (entry_name relative_file_path : string) : option (t * result pathname) :=
  if is_absolute relative_file_path then
    Some (fm, Raise SuitcaseUtilsValueError)
  else
    let abs_file_path := PPath (resolve (directory fm) relative_file_path) in
    let abs_file_path :=
      if taken fm abs_file_path then
        let entry_name_non_iso := clean_filename entry_name in
        let s := as_posix abs_file_path in
        if negb (PyStr.endswith s (entry_name_non_iso +:+ ".nxs"))
        then PStr (PyStr.splitext_root s +:+ "_" +:+ entry_name_non_iso +:+ ".nxs")
        else PStr s
      else abs_file_path in
    match disambiguate fuel fm abs_file_path 1 with
    | None => None
    | Some (Raise e) => Some (fm, Raise e)
    | Some (Ok p) =>
        Some (mk (directory fm) ({[p]} ∪ reserved_names fm)
                 (artifacts_append (artifacts fm) entry_name p)
                 (new_file_each fm),
              Ok p)
    end.

End reserve.

(** For a directory that is absolute and normal and a relative path of plain
    components (no [~], [.], [..] or links), resolving joins the two. *)
Definition join (d r : string) : string := d +:+ "/" +:+ r.

(** A storage that holds no file. *)
Definition no_files (_ : string) : bool := false.

End FileManager.

(** ** The files of the manager: [FileManager.open] and [FileManager.close]

    The storage and the HDF5 library are an environment: a [world] with
    [os.path.isfile], [os.makedirs(..., exist_ok=True)], [h5py.File] and the
    [close] of a file, which does not raise. *)

Module Files.
Import FileManager.

Fixpoint dropwhile_sep (l : list ascii) : list ascii :=
  match l with
  | c :: l' => if Ascii.eqb c "/" then dropwhile_sep l' else l
  | [] => []
  end.

(** [s.rstrip("/")] *)
Definition rstrip_sep (s : string) : string :=
  string_of_list_ascii
    (rev (dropwhile_sep (rev (list_ascii_of_string s)))).

(** [os.path.dirname(p)] (posixpath) *)
Definition dirname (p : string) : string :=
  let i := match PyStr.rfind "/" p with Some k => S k | None => 0%nat end in
  let head := String.substring 0 i p in
  if forallb (Ascii.eqb "/") (list_ascii_of_string head) then head
  else rstrip_sep head.

Section files.

Variable world : Type.
Variable handle : Type.                                   (* an [h5py.File] *)
Variable resolve : string -> string -> string.
Variable isfile : world -> string -> bool.
Variable makedirs : world -> string -> world * option exn.
Variable h5_file : world -> string -> string -> world * result handle.
Variable h5_close : world -> handle -> world.

(** The manager: its names, and [_files]. *)
Record manager := mkmanager {
  names : FileManager.t;
  files : list (pathname * handle)
}.

(** [FileManager(directory, new_file_each)] *)
Definition init (directory : string) (new_file_each : bool) : manager :=
  mkmanager (FileManager.init directory new_file_each) [].

(** [self._files[p] = f] *)
Fixpoint set_file (p : pathname) (f : handle) (l : list (pathname * handle))
  : list (pathname * handle) :=
  match l with
  | [] => [(p, f)]
  | (q, g) :: r =>
      if decide (p = q) then (q, f) :: r else (q, g) :: set_file p f r
  end.

(** [open(relative_file_path, entry_name, mode)]: the world and the manager
    after the call, and what the call returned or raised. *)
Definition open (fuel : nat) (w : world) (m : manager)
    (relative_file_path entry_name mode : string)
  : option (world * manager * result handle) :=
  match reserve_name resolve (isfile w) fuel (names m) entry_name
                     relative_file_path with
  | None => None
  | Some (fm, Raise e) => Some (w, mkmanager fm (files m), Raise e)
  | Some (fm, Ok abs_file_path) =>
      match makedirs w (dirname (as_posix abs_file_path)) with
      | (w, Some e) => Some (w, mkmanager fm (files m), Raise e)
      | (w, None) =>
          match h5_file w (as_posix abs_file_path) mode with
          | (w, Raise e) => Some (w, mkmanager fm (files m), Raise e)
          | (w, Ok f) =>
              Some (w, mkmanager fm (set_file abs_file_path f (files m)), Ok f)
          end
      end
  end.

(** [close()] *)
Definition close (w : world) (m : manager) : world :=
  fold_left h5_close (map snd (files m)) w.

(** A call of [open]: the relative path, the label and the mode. *)
Record request := mkrequest {
  rq_path : string;
  rq_entry : string;
  rq_mode : string
}.

(** Calls of [open] one after the other, each with what it returned or
    raised; a call that raises does not stop the caller. *)
Fixpoint open_each (fuel : nat) (w : world) (m : manager) (calls : list request)
  : option (world * manager * list (result handle)) :=
  match calls with
  | [] => Some (w, m, [])
  | c :: calls' =>
      match open fuel w m (rq_path c) (rq_entry c) (rq_mode c) with
      | None => None
      | Some (w, m, r) =>
          match open_each fuel w m calls' with
          | None => None
          | Some (w, m, rs) => Some (w, m, r :: rs)
          end
      end
  end.

End files.

Arguments mkmanager {handle} names files.
Arguments names {handle} m.
Arguments files {handle} m.
Arguments set_file {handle} p f l.
Arguments open {world handle} resolve isfile makedirs h5_file fuel w m
  relative_file_path entry_name mode.
Arguments close {world handle} h5_close w m.
Arguments open_each {world handle} resolve isfile makedirs h5_file fuel w m calls.

(** The files a list of outcomes returned. *)
Definition returned {A} (outcomes : list (result A)) : list A :=
  omap (fun r => match r with Ok a => Some a | Raise _ => None end) outcomes.

(** A world for examples: the names of the files that exist, with a library
    that numbers the files it opens and refuses the mode [x] on a file that
    exists. *)
Record toy_world := mktoy {
  on_disk : list string;
  opened : nat;
  closed : list nat
}.

Definition toy_isfile (w : toy_world) (p : string) : bool :=
  existsb (String.eqb p) (on_disk w).

Definition toy_makedirs (w : toy_world) (_ : string) : toy_world * option exn :=
  (w, None).

Definition toy_file (w : toy_world) (p mode : string)
  : toy_world * result nat :=
  if String.eqb mode "x" && toy_isfile w p then (w, Raise H5Error)
  else (mktoy (if toy_isfile w p then on_disk w else on_disk w ++ [p])
              (S (opened w)) (closed w),
        Ok (opened w)).

Definition toy_close (w : toy_world) (f : nat) : toy_world :=
  mktoy (on_disk w) (opened w) (closed w ++ [f]).

End Files.

(** ** The generic recursive mapper: [recourse_entry_dict] *)

Module Mapper.

(** The metadata values of a start document. *)
Inductive pyval :=
| VNone
| VBool (b : bool)
| VNum (z : Z)
| VStr (s : string)
| VList (l : list pyval)                 (* [type(val) is list] *)
| VTuple (l : list pyval)                (* a sequence that is not a [list] *)
| VDict (d : list (string * pyval))      (* [type(val) is dict] *)
| VRunDoc (d : list (string * pyval)).   (* [databroker.core.Start] or [Stop]:
                                            a mapping that is not a plain dict *)

(** What a leaf of the hierarchy holds. *)
Inductive leaf :=
| LNative (v : pyval)               (* [entry[key] = val] *)
| LFixedBytes (l : list pyval)      (* [np.array(val).astype("S")] *)
| LRepr (v : pyval).                (* [str(val)] *)

(** An HDF5 object: a group with its attributes and members, or a leaf. *)
Inductive node :=
| NGroup (attrs : list (string * pyval)) (members : list (string * node))
| NLeaf (l : leaf).

Record group := mkgroup {
  attrs : list (string * pyval);
  members : list (string * node)
}.

Definition empty_group : group := mkgroup [] [].
Definition node_of_group (g : group) : node := NGroup (attrs g) (members g).

(** [hasattr(v, "items")] *)
Definition has_items (v : pyval) : bool :=
  match v with VDict _ | VRunDoc _ => true | _ => false end.

(** [isinstance(v, dict)]: the run documents are dict subclasses. *)
Definition is_mapping (v : pyval) : bool := has_items v.

(** [isinstance(v, str)] *)
Definition is_str (v : pyval) : bool :=
  match v with VStr _ => true | _ => false end.

Section mapper.

(** The environment: [storable v] says that h5py stores the Python value [v]
    as it is (otherwise it raises [TypeError]); [iso8601] is
    [timestamp_to_ISO8601], which depends on the local time zone. *)
Variable storable : pyval -> bool.
Variable iso8601 : pyval -> string.

(** [entry.attrs[k] = v] *)
Definition set_attr (entry : group) (k : string) (v : pyval) : result group :=
  if storable v then Ok (mkgroup (set_key k v (attrs entry)) (members entry))
  else Raise TypeError.

(** Linking a new object under a name of the group; the name must be free. *)
Definition link (entry : group) (k : string) (n : node) : result group :=
  if has_key k (members entry) then Raise H5Error
  else Ok (mkgroup (attrs entry) (members entry ++ [(k, n)])).

(** [entry[key] = val] for a value stored as it is *)
Definition set_native (entry : group) (k : string) (v : pyval) : result group :=
  if storable v then link entry k (NLeaf (LNative v)) else Raise TypeError.

(** The [if no_dict:] block: the whole sequence becomes one leaf. *)
Definition store_sequence (entry : group) (key : string) (val : list pyval)
  : result group :=
  if existsb is_str val then link entry key (NLeaf (LFixedBytes val))
  else if storable (VList val) then link entry key (NLeaf (LNative (VList val)))
  else link entry key (NLeaf (LRepr (VList val))).

(** The group a nested mapping is written to: the entry itself for the key
    [start], a new group otherwise.  [fill] writes the mapping. *)
Definition into_sub_entry (entry : group) (key : string)
    (fill : group -> result group) : result group :=
  if String.eqb key "start" then fill entry
  else
    if has_key key (members entry) then Raise H5Error
    else sub ← fill empty_group; link entry key (node_of_group sub).

(** The bodies of the two loops, over the recursive call [rec]. *)
Section loops.

Variable rec : bool -> group -> pyval -> result group.

(** [for i, value in enumerate(val)]: the group after the loop and [no_dict]. *)
Fixpoint each_element (key : string) (entry : group) (l : list pyval) (i : nat)
  {struct l} : result (group * bool) :=
  match l with
  | [] => Ok (entry, false)
  | value :: l' =>
      if is_mapping value then
        let name := key +:+ "_" +:+ PyStr.of_nat i in
        if has_key name (members entry) then Raise H5Error
        else
          sub ← rec false empty_group value;
          entry' ← link entry name (node_of_group sub);
          each_element key entry' l' (S i)
      else Ok (entry, true)
  end.

(** The body of [for key, val in metadata.items()].  [tconv] is set when the
    items are those of a run document that the caller has turned into a dict
    with its [time] as an ISO 8601 string. *)
Definition item (tconv : bool) (entry : group) (key : string) (val : pyval)
  : result group :=
  if tconv && String.eqb key "time"
  then set_native entry key (VStr (iso8601 val))
  else
    match val with
    | VRunDoc d =>
        if has_key "time" d
        then into_sub_entry entry key (fun sub => rec true sub val)
        else Raise KeyError
    | VDict _ => into_sub_entry entry key (fun sub => rec true sub val)
    | VList l =>
        '(entry', no_dict) ← each_element key entry l 0%nat;
        if no_dict : bool then store_sequence entry' key l else Ok entry'
    | VNone => Ok entry
    | _ => set_native entry key val
    end.

Fixpoint each_item (tconv : bool) (entry : group) (items : list (string * pyval))
  {struct items} : result group :=
  match items with
  | [] => Ok entry
  | (key, val) :: rest =>
      entry' ← item tconv entry key val;
      each_item tconv entry' rest
  end.

End loops.

(** [recourse_entry_dict(entry, metadata)].  [conv] is set when [metadata] is a
    run document met as a value under a key: the caller has then replaced it by
    [dict(val)] with [val["time"]] turned into an ISO 8601 string. *)
Fixpoint recourse (conv : bool) (entry : group) (metadata : pyval) {struct metadata}
  : result group :=
  match metadata with
  | VDict d => each_item recourse false entry d
  | VRunDoc d => each_item recourse conv entry d
  | _ => set_attr entry "value" metadata
  end.

Definition recourse_entry_dict (entry : group) (metadata : pyval) : result group :=
  recourse false entry metadata.

(** The leaf the [if no_dict:] block makes of a sequence. *)
Definition sequence_leaf (val : list pyval) : leaf :=
  if existsb is_str val then LFixedBytes val
  else if storable (VList val) then LNative (VList val)
  else LRepr (VList val).

End mapper.

(** The elements of a sequence before its first element that is no mapping. *)
Fixpoint mapping_prefix (l : list pyval) : list pyval :=
  match l with
  | [] => []
  | v :: l' => if is_mapping v then v :: mapping_prefix l' else []
  end.

(** The name of the child node of element [i] under [key]: [f"{key}_{i}"]. *)
Definition child_name (key : string) (i : nat) : string :=
  key +:+ "_" +:+ PyStr.of_nat i.

(** The child nodes [key_i0], [key_(i0+1)], ... holding the groups [subs]. *)
Fixpoint indexed_children (key : string) (subs : list group) (i0 : nat)
  : list (string * node) :=
  match subs with
  | [] => []
  | sub :: subs' =>
      (child_name key i0, node_of_group sub) :: indexed_children key subs' (S i0)
  end.

(** An h5py that stores numbers, truth values, strings and lists of numbers. *)
Definition plain_storable (v : pyval) : bool :=
  match v with
  | VNum _ | VBool _ | VStr _ => true
  | VList l => forallb (fun x => match x with VNum _ => true | _ => false end) l
  | _ => false
  end.

(** A clock that prints every time stamp alike. *)
Definition fixed_iso8601 (_ : pyval) : string := "1970-01-01T00:00:00+00:00".

End Mapper.

(** ** The stream/channel router and the cross-stream stitcher: [Serializer] *)

Module Serializer.

(** *** Arrays *)

Inductive cell :=
| CNum (z : Z)          (* a number; time stamps are numbers too *)
| CText (s : string)    (* an element of a [<U] array *)
| CBytes (s : string).  (* an element of an [S] array *)

Inductive dtype := DNum | DUnicode | DBytes.

#[export] Instance cell_eq_dec : EqDecision cell.
Proof. solve_decision. Defined.
#[export] Instance dtype_eq_dec : EqDecision dtype.
Proof. solve_decision. Defined.

(** One element of a column as numpy sees it: a scalar has shape [[]]. *)
Record value := mkvalue {
  vflat : list cell;
  vshape : list Z;
  vdtype : dtype
}.

(** An array whose first axis counts rows; [rowshape] are the other axes. *)
Record ndarray := mkarray {
  rows : list (list cell);
  rowshape : list Z;
  adtype : dtype
}.

(** [a.shape] *)
Definition shape (a : ndarray) : list Z :=
  Z.of_nat (length (rows a)) :: rowshape a.

(** [np.asarray([v])] *)
Definition asarray1 (v : value) : ndarray :=
  mkarray [vflat v] (vshape v) (vdtype v).

Definition cell_to_bytes (c : cell) : cell :=
  match c with CText s => CBytes s | _ => c end.

(** [if str(a.dtype).startswith("<U"): a = a.astype(bytes)] *)
Definition unicode_to_bytes (a : ndarray) : ndarray :=
  match adtype a with
  | DUnicode => mkarray (map (map cell_to_bytes) (rows a)) (rowshape a) DBytes
  | _ => a
  end.

(** [any(dim <= 0 for dim in a.shape)] *)
Definition has_nonpositive_dim (a : ndarray) : bool :=
  existsb (fun dim => (dim <=? 0)%Z) (shape a).

Definition chunk_size (shp : list Z) : nat := Z.to_nat (fold_right Z.mul 1%Z shp).

(** [v[i]] for a row [v] that is an array of numbers; a scalar row is not
    subscriptable. *)
Definition index_value (v : value) (i : nat) : result value :=
  match vshape v with
  | [] => Raise TypeError
  | d :: rest =>
      if (Z.of_nat i <? d)%Z
      then Ok (mkvalue (take (chunk_size rest) (drop (i * chunk_size rest) (vflat v)))
                       rest (vdtype v))
      else Raise IndexError
  end.

(** *** Documents *)

Inductive attr :=
| AText (s : string)
| ANames (l : list string).

(** The metadata of a channel: [data_keys[key]], a dict. *)
Abbreviation metadata := (list (string * attr)).

(** [doc["data"][key]]: a list of rows that numpy turns into one array, or a
    list of named tuples (each a list of fields). *)
Inductive column :=
| ColValues (a : ndarray)
| ColTuples (l : list (list (string * value))).

Record descriptor_doc := mkdescriptor {
  d_uid : string;
  d_name : string;
  d_data_keys : list (string * metadata)
}.

Record event_page_doc := mkpage {
  p_descriptor : string;
  p_time : list Z;
  p_data : list (string * column)
}.

Inductive document :=
| Descriptor (doc : descriptor_doc)
| EventPage (doc : event_page_doc)
| Stop (time : Z).

(** *** The HDF5 store *)

(** The path of an object from the entry group. *)
Abbreviation path := (list string).

Record dataset := mkdataset {
  ds_rows : list (list cell);
  ds_rowshape : list Z;
  ds_dtype : dtype;
  ds_attrs : list (string * attr)
}.

(** One assignment [layout[a:b] = source[c:d]] of a virtual layout. *)
Record vmap := mkvmap {
  dst_start : nat;
  src : path;
  src_start : nat;
  count : nat
}.

Record layout := mklayout {
  l_len : nat;
  l_rowshape : list Z;
  l_maps : list vmap
}.

Inductive h5obj :=
| HGroup (attrs : list (string * attr))
| HDataset (d : dataset)
| HField (v : value)          (* a scalar dataset made by [group[name] = v] *)
| HTime (iso_of : Z)          (* the ISO 8601 string of a time stamp *)
| HVirtual (l : layout).

Definition data_entry : path := ["data"].
Definition measurement_details : path := ["measurement_details"].

(** [name in group.keys()] *)
Definition has_member (st : gmap path h5obj) (g : path) (name : string) : bool :=
  bool_decide (is_Some (st !! (g ++ [name]))).

(** [group[name]] *)
Definition get_member (st : gmap path h5obj) (g : path) (name : string)
  : result h5obj :=
  match st !! (g ++ [name]) with
  | Some o => Ok o
  | None => Raise KeyError
  end.

(** Creating an object under a name of a group; h5py raises when the name is
    taken. *)
Definition create (st : gmap path h5obj) (g : path) (name : string) (o : h5obj)
  : result (gmap path h5obj) :=
  if has_member st g name then Raise H5Error
  else Ok (<[g ++ [name] := o]> st).

(** An object used as a dataset ([resize], [VirtualSource]). *)
Definition as_dataset (o : h5obj) : result dataset :=
  match o with
  | HDataset d => Ok d
  | _ => Raise AttributeError
  end.

(** *** The serializer's state *)

(** A value of [_stream_groups]: an h5py group, or the name of the live
    metadata stream. *)
Inductive handle :=
| Live
| GroupAt (g : path).

(** What [print] wrote. *)
Inductive diagnostic :=
| Skipping (key : string) (shp : list Z).

Record state := mkstate {
  store : gmap path h5obj;                            (* the entry's objects *)
  stream_groups : gmap string handle;                 (* [_stream_groups] *)
  stream_names : gmap string string;                  (* [_stream_names] *)
  stream_metadata : gmap string (list (string * metadata));
  start_time : Z;                                     (* [_start_time] *)
  channel_links : gmap string path;                   (* [_channel_links] *)
  channel_metadata : gmap string metadata;            (* [_channel_metadata] *)
  channels_in_streams : list (string * list string);  (* [_channels_in_streams] *)
  stream_counter : list (string * nat);               (* [_stream_counter] *)
  current_stream : option string;                     (* [_current_stream] *)
  printed : list diagnostic
}.

Definition with_store (s : state) (st : gmap path h5obj) : state :=
  mkstate st (stream_groups s) (stream_names s) (stream_metadata s)
          (start_time s) (channel_links s) (channel_metadata s)
          (channels_in_streams s) (stream_counter s) (current_stream s)
          (printed s).

Definition with_printed (s : state) (p : list diagnostic) : state :=
  mkstate (store s) (stream_groups s) (stream_names s) (stream_metadata s)
          (start_time s) (channel_links s) (channel_metadata s)
          (channels_in_streams s) (stream_counter s) (current_stream s) p.

Definition with_channels_in_streams (s : state)
    (c : list (string * list string)) : state :=
  mkstate (store s) (stream_groups s) (stream_names s) (stream_metadata s)
          (start_time s) (channel_links s) (channel_metadata s)
          c (stream_counter s) (current_stream s) (printed s).

Definition with_counter (s : state) (cur : option string)
    (c : list (string * nat)) : state :=
  mkstate (store s) (stream_groups s) (stream_names s) (stream_metadata s)
          (start_time s) (channel_links s) (channel_metadata s)
          (channels_in_streams s) c cur (printed s).

Definition with_streams (s : state) (st : gmap path h5obj)
    (groups : gmap string handle) (names : gmap string string)
    (mds : gmap string (list (string * metadata))) : state :=
  mkstate st groups names mds
          (start_time s) (channel_links s) (channel_metadata s)
          (channels_in_streams s) (stream_counter s) (current_stream s)
          (printed s).

(** The state [start] leaves behind, as far as [descriptor], [event_page] and
    [stop] read it: the start time, the groups [measurement_details] and
    [data], and for every instrument channel its sensor or output group and
    its metadata. *)
Definition after_start (time : Z) (channels : list (string * (path * metadata)))
  : state :=
  mkstate
    (foldr (fun c st => <[fst (snd c) := HGroup []]> st)
           (<[measurement_details := HGroup []]>
              (<[data_entry := HGroup [("NX_class", AText "NXdata")]]> ∅))
           channels)
    ∅ ∅ ∅ time
    (list_to_map (map (fun c => (fst c, fst (snd c))) channels))
    (list_to_map (map (fun c => (fst c, snd (snd c))) channels))
    [] [] None [].

(** *** [descriptor] *)

Definition descriptor (s : state) (doc : descriptor_doc) : result state :=
  let stream_name := d_name doc in
  if PyStr.contains stream_name "_fits_readying_" then Ok s
  else if bool_decide (is_Some (stream_groups s !! stream_name)) then Raise ValueError
  else
    let register (st : gmap path h5obj) (stream_group : path) :=
      with_streams s st
        (<[d_uid doc := GroupAt stream_group]> (stream_groups s))
        (<[stream_name := d_uid doc]> (stream_names s))
        (<[d_uid doc := d_data_keys doc]> (stream_metadata s)) in
    if String.eqb stream_name "primary" then Ok (register (store s) data_entry)
    else if String.eqb stream_name "_live_metadata_reading_" then
      Ok (with_streams s (store s) (<[d_uid doc := Live]> (stream_groups s))
                       (stream_names s) (stream_metadata s))
    else
      st ← create (store s) data_entry stream_name
                  (HGroup [("NX_class", AText "NXdata")]);
      Ok (register st (data_entry ++ [stream_name])).

(** *** [_add_data_to_stream_group] and [event_page] *)

Section router.

(** The environment: what h5py does when rows are written to a dataset whose
    row shape or element type differs from theirs, or when no row is written
    (it broadcasts, converts or raises). *)
Variable write_mismatch : dataset -> ndarray -> result dataset.

(** [ds.resize(ds.shape[0] + a.shape[0], axis=0); ds[-a.shape[0]:] = a] *)
Definition append_rows (d : dataset) (a : ndarray) : result dataset :=
  if decide (rowshape a = ds_rowshape d ∧ adtype a = ds_dtype d ∧ rows a ≠ [])
  then Ok (mkdataset (ds_rows d ++ rows a) (ds_rowshape d) (ds_dtype d) (ds_attrs d))
  else write_mismatch d a.

(** The attributes of a new dataset: the items of the descriptor's metadata,
    then those of the instrument channel's metadata. *)
Definition new_attrs (s : state) (md : metadata) (key : string)
  : list (string * attr) :=
  let set_all (items : metadata) (acc : list (string * attr)) :=
    fold_left (fun acc kv => set_key (fst kv) (snd kv) acc) items acc in
  set_all (default [] (channel_metadata s !! key)) (set_all md []).

Definition add_data_to_stream_group (s : state) (md : metadata)
    (stream_group : path) (ep_data_array : ndarray) (ep_data_key : string)
  : result state :=
  if negb (has_member (store s) stream_group ep_data_key) then
    if has_nonpositive_dim ep_data_array then
      Ok (with_printed s (printed s ++ [Skipping ep_data_key (shape ep_data_array)]))
    else
      let a := unicode_to_bytes ep_data_array in
      Ok (with_store s
            (<[stream_group ++ [ep_data_key] :=
                 HDataset (mkdataset (rows a) (rowshape a) (adtype a)
                                     (new_attrs s md ep_data_key))]> (store s)))
  else
    o ← get_member (store s) stream_group ep_data_key;
    ds ← as_dataset o;
    ds' ← append_rows ds ep_data_array;
    Ok (with_store s (<[stream_group ++ [ep_data_key] := HDataset ds']> (store s))).

(** The ledger: [_stream_counter] and [_current_stream]. *)
Fixpoint bump_last (l : list (string * nat)) : result (list (string * nat)) :=
  match l with
  | [] => Raise IndexError
  | [(stream, n)] => Ok [(stream, S n)]
  | e :: l' => l'' ← bump_last l'; Ok (e :: l'')
  end.

Definition count_visit (s : state) (uid : string) : result state :=
  if bool_decide (current_stream s ≠ Some uid)
  then Ok (with_counter s (Some uid) (stream_counter s ++ [(uid, 1%nat)]))
  else c ← bump_last (stream_counter s); Ok (with_counter s (current_stream s) c).

(** The [time] and [ElapsedTime] arrays of the stream's group. *)
Definition time_array (t : Z) : ndarray := mkarray [[CNum t]] [] DNum.

Definition append_time (st : gmap path h5obj) (g : path) (name : string) (t : Z)
  : result (gmap path h5obj) :=
  o ← get_member st g name;
  ds ← as_dataset o;
  ds' ← append_rows ds (time_array t);
  Ok (<[g ++ [name] := HDataset ds']> st).

Definition record_time (s : state) (g : path) (t : Z) : result state :=
  let since := (t - start_time s)%Z in
  if negb (has_member (store s) g "time") then
    let st := <[g ++ ["time"] := HDataset (mkdataset [[CNum t]] [] DNum [])]> (store s) in
    st ← create st g "ElapsedTime" (HDataset (mkdataset [[CNum since]] [] DNum []));
    Ok (with_store s st)
  else
    st ← append_time (store s) g "time" t;
    st ← append_time st g "ElapsedTime" since;
    Ok (with_store s st).

(** [if key not in self._channels_in_streams: ...[key] = [doc["descriptor"]]] *)
Definition record_channel (c : list (string * list string)) (key uid : string)
  : list (string * list string) :=
  if has_key key c then c else c ++ [(key, [uid])].

(** The group of a fanned-out channel: made on first use, and used through
    [keys()] by every write, which a dataset does not have. *)
Definition open_sub_group (s : state) (g : path) (key : string) : state :=
  if negb (has_member (store s) g key)
  then with_store s (<[g ++ [key] := HGroup []]> (store s))
  else s.

Definition add_data_to_sub_group (s : state) (md : metadata) (sub : path)
    (a : ndarray) (key : string) : result state :=
  match store s !! sub with
  | Some (HGroup _) => add_data_to_stream_group s md sub a key
  | _ => Raise AttributeError
  end.

(** [enumerate(metadata["variables"])]: a string is walked by characters. *)
Definition variable_names (a : attr) : list string :=
  match a with
  | ANames l => l
  | AText t => map (fun c => String c EmptyString) (list_ascii_of_string t)
  end.

Definition enumerate {A} (l : list A) : list (nat * A) :=
  combine (seq 0 (length l)) l.

(** One turn of [for ep_data_key, ep_data_list in doc["data"].items()]. *)
Definition channel_step (uid : string) (stream_group : path) (s : state)
    (item : string * column) : result state :=
  let '(ep_data_key, ep_data_list) := item in
  mds ← getmap uid (stream_metadata s);
  md ← getitem ep_data_key mds;
  let s := with_channels_in_streams s
             (record_channel (channels_in_streams s) ep_data_key uid) in
  let sub := stream_group ++ [ep_data_key] in
  match ep_data_list with
  | ColTuples [] => Raise IndexError
  | ColTuples (first :: _) =>
      foldM (fun s field => add_data_to_sub_group s md sub
                              (asarray1 (snd field)) (fst field))
            first (open_sub_group s stream_group ep_data_key)
  | ColValues a =>
      match rows a with
      | [] => Raise IndexError
      | row0 :: _ =>
          if PyStr.endswith ep_data_key "_variable_signal" && has_key "variables" md
          then
            vars ← getitem "variables" md;
            foldM (fun s iv =>
                     v ← index_value (mkvalue row0 (rowshape a) (adtype a)) (fst iv);
                     add_data_to_sub_group s md sub (asarray1 v) (snd iv))
                  (enumerate (variable_names vars))
                  (open_sub_group s stream_group ep_data_key)
          else
            add_data_to_stream_group s md stream_group (unicode_to_bytes a)
                                     ep_data_key
      end
  end.

(** A batch of the live metadata stream: the fields of its first record become
    fields of [measurement_details]. *)
Definition live_metadata (s : state) (doc : event_page_doc) : result state :=
  match store s !! measurement_details with
  | None => Raise KeyError
  | Some _ =>
      col ← getitem "live_metadata" (p_data doc);
      match col with
      | ColTuples [] => Raise IndexError
      | ColTuples (first :: _) =>
          foldM (fun s field =>
                   st ← create (store s) measurement_details (fst field)
                               (HField (snd field));
                   Ok (with_store s st))
                first s
      | ColValues a =>
          match rows a with
          | [] => Raise IndexError
          | _ => Raise AttributeError
          end
      end
  end.

Definition event_page (s : state) (doc : event_page_doc) : result state :=
  match stream_groups s !! p_descriptor doc with
  | None => Ok s
  | Some Live => live_metadata s doc
  | Some (GroupAt stream_group) =>
      s ← count_visit s (p_descriptor doc);
      match p_time doc with
      | [] => Raise IndexError
      | t :: _ =>
          s ← record_time s stream_group t;
          foldM (channel_step (p_descriptor doc) stream_group) (p_data doc) s
      end
  end.

(** *** [stop]: the cross-stream stitcher *)

(** [h5py.VirtualSource(obj)] takes a dataset; the datasets of a stream's
    group are arrays. *)
Definition virtual_source (o : h5obj) : result dataset :=
  match o with
  | HDataset d => Ok d
  | _ => Raise TypeError
  end.

(** [len(group["time"])] *)
Definition len_of (o : h5obj) : result nat :=
  match o with
  | HDataset d => Ok (length (ds_rows d))
  | HVirtual l => Ok (l_len l)
  | HGroup _ => Ok 0%nat     (* the number of members; [VirtualSource] raises next *)
  | HField _ | HTime _ => Raise TypeError
  end.

(** What the first loop of [stop] gathers for one channel. *)
Record gathered := mkgathered {
  total_length : nat;
  dataset_of : option dataset;                         (* [dataset] *)
  sources : list (string * (path * dataset));          (* [sources] *)
  sources_time : list (string * (path * dataset))      (* [sources_time] *)
}.

Definition gather_stream (s : state) (ch : string) (acc : gathered)
    (stream : string) : result gathered :=
  h ← getmap stream (stream_groups s);
  match h with
  | Live => Raise TypeError          (* a [str] is not indexed by a name *)
  | GroupAt g =>
      tobj ← get_member (store s) g "time";
      n ← len_of tobj;
      cobj ← get_member (store s) g ch;
      cds ← virtual_source cobj;
      tds ← virtual_source tobj;
      Ok (mkgathered (total_length acc + n) (Some cds)
                     (set_key stream (g ++ [ch], cds) (sources acc))
                     (set_key stream (g ++ ["time"], tds) (sources_time acc)))
  end.

(** [layout[n : n + count] = source[n_stream : n_stream + count]]: both slices
    are cut to the arrays' lengths, and the store wants as many rows on either
    side, of the same shape. *)
Definition clamp (lo hi len : nat) : nat := Nat.min hi len - Nat.min lo len.

Definition assign (l : layout) (n : nat) (source : path * dataset)
    (n_stream cnt : nat) : result layout :=
  let dst_len := clamp n (n + cnt) (l_len l) in
  let src_len := clamp n_stream (n_stream + cnt) (length (ds_rows (snd source))) in
  if bool_decide (dst_len = src_len ∧ ds_rowshape (snd source) = l_rowshape l)
  then Ok (mklayout (l_len l) (l_rowshape l)
                    (l_maps l ++ [mkvmap n (fst source) n_stream dst_len]))
  else Raise H5Error.

(** The state of the replay loop over [_stream_counter]. *)
Record replay := mkreplay {
  r_layout : layout;
  r_layout_time : layout;
  r_n : nat;
  counts_per_stream : list (string * nat)
}.

Definition replay_step (stream_docs : list string) (g : gathered) (r : replay)
    (entry : string * nat) : result replay :=
  let '(stream, cnt) := entry in
  if negb (bool_decide (stream ∈ stream_docs)) then Ok r
  else
    let n_stream := default 0%nat (get_key stream (counts_per_stream r)) in
    source ← getitem stream (sources g);
    source_time ← getitem stream (sources_time g);
    l ← assign (r_layout r) (r_n r) source n_stream cnt;
    lt ← assign (r_layout_time r) (r_n r) source_time n_stream cnt;
    Ok (mkreplay l lt (r_n r + cnt)
                 (set_key stream (n_stream + cnt)%nat (counts_per_stream r))).

(** One turn of [for ch, stream_docs in self._channels_in_streams.items()]. *)
Definition stitch_channel (s : state) (item : string * list string)
  : result state :=
  let '(ch, stream_docs) := item in
  match channel_links s !! ch with
  | None => Ok s
  | Some link =>
      g ← foldM (gather_stream s ch) stream_docs (mkgathered 0 None [] []);
      match dataset_of g with
      | None => Ok s
      | Some dataset =>
          let layout0 := mklayout (total_length g) (ds_rowshape dataset) [] in
          let layout_time0 := mklayout (total_length g) [] [] in
          r ← foldM (replay_step stream_docs g) (stream_counter s)
                    (mkreplay layout0 layout_time0 0 []);
          st ← create (store s) link "value_log" (HVirtual (r_layout r));
          st ← create st link "timestamps" (HVirtual (r_layout_time r));
          Ok (with_store s st)
      end
  end.

(** [stop(doc)] for a serializer without plot data and without the NeXus
    output (the defaults). *)
Definition stop (s : state) (time : Z) : result state :=
  match store s !! measurement_details with
  | None => Raise KeyError
  | Some _ =>
      st ← create (store s) measurement_details "end_time" (HTime time);
      foldM stitch_channel (channels_in_streams s) (with_store s st)
  end.

(** *** Reading a virtual dataset *)

Definition covers (j : nat) (m : vmap) : bool :=
  (dst_start m <=? j)%nat && (j <? dst_start m + count m)%nat.

(** Row [j] of the view: the row of the source it is mapped to; [None] stands
    for the fill value of an unmapped row. *)
Definition read_row (st : gmap path h5obj) (l : layout) (j : nat)
  : option (list cell) :=
  m ← List.find (covers j) (l_maps l);
  match st !! src m with
  | Some (HDataset d) => ds_rows d !! (src_start m + (j - dst_start m))%nat
  | _ => None
  end.

Definition read_virtual (st : gmap path h5obj) (l : layout)
  : list (option (list cell)) :=
  map (read_row st l) (seq 0 (l_len l)).

(** The rows of the virtual dataset [name] of the group [link]. *)
Definition view (s : state) (link : path) (name : string)
  : option (list (option (list cell))) :=
  match store s !! (link ++ [name]) with
  | Some (HVirtual l) => Some (read_virtual (store s) l)
  | _ => None
  end.

(** The rows of the dataset [name] of the group [g]. *)
Definition rows_of (s : state) (g : path) (name : string)
  : option (list (list cell)) :=
  match store s !! (g ++ [name]) with
  | Some (HDataset d) => Some (ds_rows d)
  | _ => None
  end.

(** *** Runs *)

Definition handle_document (s : state) (d : document) : result state :=
  match d with
  | Descriptor doc => descriptor s doc
  | EventPage doc => event_page s doc
  | Stop time => stop s time
  end.

Definition run (s : state) (docs : list document) : result state :=
  foldM handle_document docs s.

End router.

(** An h5py that raises whenever the rows do not fit the dataset. *)
Definition strict_write (_ : dataset) (_ : ndarray) : result dataset :=
  Raise TypeError.

(** *** Vocabulary of the statements *)




(** The fields that neither the store nor [print] nor the channel registry
    make up: those that [descriptor] writes, and the ledger. *)
Definition same_control (s s' : state) : Prop :=
  stream_groups s' = stream_groups s /\
  stream_names s' = stream_names s /\
  stream_metadata s' = stream_metadata s /\
  start_time s' = start_time s /\
  channel_links s' = channel_links s /\
  channel_metadata s' = channel_metadata s /\
  stream_counter s' = stream_counter s /\
  current_stream s' = current_stream s.

(** The fields that only [descriptor] writes. *)
Definition same_streams (s s' : state) : Prop :=
  stream_groups s' = stream_groups s /\
  stream_names s' = stream_names s /\
  stream_metadata s' = stream_metadata s /\
  start_time s' = start_time s /\
  channel_links s' = channel_links s /\
  channel_metadata s' = channel_metadata s.

(** [s'] is [s] but for the store and for what was printed. *)
Definition only_store_printed (s s' : state) : Prop :=
  s' = with_printed (with_store s (store s')) (printed s').

(** The rows a ledger counts for one stream. *)
Definition ledger_rows (stream : string) (l : list (string * nat)) : nat :=
  foldr (fun e acc => if String.eqb (fst e) stream then (snd e + acc)%nat else acc)
        0%nat l.

(** Every channel of the registry has exactly one stream. *)
Definition one_stream_each (c : list (string * list string)) : Prop :=
  Forall (fun e => exists u, snd e = [u]) c.

(** The assignments [maps] send every row below [k] to the row of the same
    index of the dataset at [p], and no other row anywhere. *)
Definition maps_identity (maps : list vmap) (p : path) (k : nat) : Prop :=
  forall j,
    match List.find (covers j) maps with
    | Some m => (j < k)%nat /\ src m = p /\
                (src_start m + (j - dst_start m))%nat = j
    | None => (k <= j)%nat
    end.

(** The state of the replay loop of [stop] after it has replayed [k] rows of
    the one stream [stream] of a channel: the cursors stand at [k], and both
    layouts, of [n] rows, are filled below [k] from the stream's array of the
    channel (at [pa], of row shape [rs]) and from its [time] array (at [pt]). *)
Definition replayed (stream : string) (pa pt : path) (rs : list Z) (n : nat)
    (r : replay) (k : nat) : Prop :=
  r_n r = k /\
  default 0%nat (get_key stream (counts_per_stream r)) = k /\
  l_len (r_layout r) = n /\ l_rowshape (r_layout r) = rs /\
  l_len (r_layout_time r) = n /\ l_rowshape (r_layout_time r) = [] /\
  maps_identity (l_maps (r_layout r)) pa k /\
  maps_identity (l_maps (r_layout_time r)) pt k.

(** What a step leaves alone: the object at [p]. *)
Definition keeps (p : path) (s s' : state) : Prop := store s' !! p = store s !! p.

(** The document declares the stream identifier [u]. *)
Definition declares (u : string) (d : document) : bool :=
  match d with
  | Descriptor doc => String.eqb (d_uid doc) u
  | _ => false
  end.

(** The sum of the counts of a ledger. *)
Definition ledger_total (l : list (string * nat)) : nat :=
  foldr (fun e acc => (snd e + acc)%nat) 0%nat l.

(** No two neighbours of a list are equal. *)
Fixpoint distinct_neighbours (l : list string) : Prop :=
  match l with
  | a :: ((b :: _) as l') => a <> b /\ distinct_neighbours l'
  | _ => True
  end.

(** No two consecutive entries of a ledger name the same stream. *)
Definition no_adjacent (l : list (string * nat)) : Prop :=
  distinct_neighbours (map fst l).

(** The ledger and [_current_stream] agree: the current stream is the stream
    of the last entry. *)
Definition ledger_wf (s : state) : Prop :=
  no_adjacent (stream_counter s) /\
  current_stream s = fst <$> last (stream_counter s).

(** The batches of a run that reach the ledger from state [s] on: those of a
    stream that has a group.  Descriptors in between register streams. *)
Definition counted (s : state) (doc : event_page_doc) : bool :=
  match stream_groups s !! p_descriptor doc with
  | Some (GroupAt _) => true
  | _ => false
  end.

(** The number of rows of a batch: the length of its [time] column. *)
Definition batch_rows (doc : event_page_doc) : nat := length (p_time doc).

End Serializer.

(** ** [stop] with plot data: the axes and the signals of the streams

    The plots of [plot_data] come with the attributes that [stop] asks for;
    plots with live fits are not embedded. *)

Module Plots.
Import Serializer.

Record plot := mkplot {
  stream_name : string;
  x_name : option string;            (* [None]: the plot has no [x_name] *)
  y_name : option string;
  z_name : option string;
  y_names : option (list string)
}.

(** [if x not in l: l.append(x)] *)
Definition add_new (l : list string) (x : string) : list string :=
  if bool_decide (x ∈ l) then l else l ++ [x].

(** [stream_axes] and [stream_signals] *)
Record tables := mktables {
  stream_axes : list (string * list string);
  stream_signals : list (string * list string)
}.

(** One turn of [for plot in self._plot_data]. *)
Definition plot_step (s : state) (acc : tables) (p : plot) : result tables :=
  match stream_names s !! stream_name p, x_name p with
  | Some uid, Some x =>
      let axes := default [] (get_key (stream_name p) (stream_axes acc)) in
      let signals := default [] (get_key (stream_name p) (stream_signals acc)) in
      _ ← getmap uid (stream_groups s);
      let axes := add_new axes x in
      '(axes, signals) ←
        match z_name p with
        | Some z =>
            match y_name p with
            | Some y => Ok (add_new axes y, add_new signals z)
            | None => Raise AttributeError
            end
        | None =>
            match y_names p with
            | Some ys => Ok (axes, fold_left add_new ys signals)
            | None => Raise AttributeError
            end
        end;
      Ok (mktables (set_key (stream_name p) axes (stream_axes acc))
                   (set_key (stream_name p) signals (stream_signals acc)))
  | _, _ => Ok acc
  end.

(** [group.attrs[k] = v] for each of [new], on the group at [g]. *)
Definition set_group_attrs (st : gmap path h5obj) (g : path)
    (new : list (string * attr)) : result (gmap path h5obj) :=
  match st !! g with
  | Some (HGroup a) =>
      Ok (<[g := HGroup (fold_left (fun a kv => set_key (fst kv) (snd kv) a) new a)]> st)
  | _ => Raise AttributeError
  end.

(** The attributes of a stream's group: its axes, its signal and the
    auxiliary signals. *)
Definition plot_attrs (axes signals : list string) : list (string * attr) :=
  ("axes", ANames axes) ::
  match signals with
  | [] => []
  | first :: rest =>
      ("signal", AText first) ::
      match rest with
      | [] => []
      | _ => [("auxiliary_signals", ANames rest)]
      end
  end.

(** One turn of [for stream, axes in stream_axes.items()]. *)
Definition annotate (acc : tables) (s : state) (item : string * list string)
  : result state :=
  let '(stream, axes) := item in
  signals ← getitem stream (stream_signals acc);
  uid ← getmap stream (stream_names s);
  h ← getmap uid (stream_groups s);
  match h with
  | Live => Raise AttributeError       (* a [str] has no [attrs] *)
  | GroupAt g =>
      st ← set_group_attrs (store s) g (plot_attrs axes signals);
      Ok (with_store s st)
  end.

(** The two loops of [stop] over the plots. *)
Definition plots (s : state) (plot_data : list plot) : result state :=
  acc ← foldM (plot_step s) plot_data (mktables [] []);
  foldM (annotate acc) (stream_axes acc) s.

(** [stop(doc)] for a serializer with the plots [plot_data] and without the
    NeXus output. *)
Definition stop (s : state) (plot_data : list plot) (time : Z) : result state :=
  s ← Serializer.stop s time;
  plots s plot_data.

End Plots.

(** ** The hierarchy builder: [start]

    [start] writes the groups of the entry with h5py and keeps what the later
    calls read.  The entry is a tree of the mapper's groups.  What lies
    outside the module:
    - the storage and h5py's files, as for [FileManager.open]; [root_of] is
      the root group of a file as it is when the file is opened;
    - [str.format] of the file prefix with the document, the version of
      Python and the installed distributions (name and version, both [str]);
    - what [pop] does on a run document of databroker;
    - [timestamp_to_ISO8601], as for the mapper.
    h5py stores the [str] constants of the code; every other value goes
    through [storable].  The values of the document share no mutable object,
    and the names of HDF5 objects are single path components. *)

Module Start.
Import Mapper.

(** *** Python values as containers *)

(** [bool(v)] *)
Definition truthy (v : pyval) : bool :=
  match v with
  | VNone => false
  | VBool b => b
  | VNum z => negb (z =? 0)%Z
  | VStr s => negb (String.eqb s "")
  | VList l | VTuple l => match l with [] => false | _ => true end
  | VDict d | VRunDoc d => match d with [] => false | _ => true end
  end.

(** [del d[k]] *)
Fixpoint remove_key {A} (k : string) (l : list (string * A)) : list (string * A) :=
  match l with
  | [] => []
  | (k', v) :: r => if String.eqb k k' then r else (k', v) :: remove_key k r
  end.

(** [k in v] for a [str] [k] *)
Definition contains_key (v : pyval) (k : string) : result bool :=
  match v with
  | VDict d | VRunDoc d => Ok (has_key k d)
  | VStr s => Ok (PyStr.contains s k)
  | VList l | VTuple l =>
      Ok (existsb (fun x => match x with VStr s => String.eqb s k | _ => false end) l)
  | VNone | VBool _ | VNum _ => Raise TypeError
  end.

(** [v[k]] for a [str] [k] *)
Definition get_item (v : pyval) (k : string) : result pyval :=
  match v with
  | VDict d | VRunDoc d => getitem k d
  | _ => Raise TypeError
  end.

(** [v.items()] *)
Definition items_of (v : pyval) : result (list (string * pyval)) :=
  match v with
  | VDict d | VRunDoc d => Ok d
  | _ => Raise AttributeError
  end.

(** [dict(v)] for a mapping *)
Definition as_dict (v : pyval) : result pyval :=
  match v with
  | VDict d | VRunDoc d => Ok (VDict d)
  | _ => Raise TypeError
  end.

(** [s.split(".")[-1]] *)
Definition last_component (v : pyval) : result string :=
  match v with
  | VStr s =>
      Ok (match PyStr.rfind "." s with
          | Some i => String.substring (S i) (String.length s - S i) s
          | None => s
          end)
  | _ => Raise AttributeError
  end.

(** *** Groups *)

(** [g.attrs[k] = v] for a [str] constant [v] *)
Definition put_attr (g : group) (k v : string) : group :=
  mkgroup (set_key k (VStr v) (attrs g)) (members g).

(** [g[k] = v] for a [str] constant [v] *)
Definition put_str (g : group) (k v : string) : result group :=
  link g k (NLeaf (LNative (VStr v))).

(** [g.create_group(name)] for a group that is written in full before [g]
    gets anything else; [fill] writes it and may hand on a value. *)
Definition create_group {S} (g : group) (name : string)
    (fill : group -> result (group * S)) : result (group * S) :=
  if has_key name (members g) then Raise H5Error
  else
    '(sub, s) ← fill empty_group;
    g ← link g name (node_of_group sub);
    Ok (g, s).

(** Writing to a group that [g] has as its member [name]: the code keeps the
    member in a variable and writes to it after [g] has got other members. *)
Definition in_member {S} (g : group) (name : string)
    (f : group -> result (group * S)) : result (group * S) :=
  match get_key name (members g) with
  | Some (NGroup a m) =>
      '(sub, s) ← f (mkgroup a m);
      Ok (mkgroup (attrs g) (set_key name (node_of_group sub) (members g)), s)
  | _ => Raise KeyError
  end.

Section start.

Variable storable : pyval -> bool.
Variable iso8601 : pyval -> string.
Variable pop_rundoc : list (string * pyval) -> string -> result (pyval * pyval).
Variable format_prefix : list (string * pyval) -> result string.
Variable sys_version : string.
Variable distributions : list (string * string).

(** [v.pop(k)]: the value, and [v] afterwards. *)
Definition pop_key (v : pyval) (k : string) : result (pyval * pyval) :=
  match v with
  | VDict d =>
      match get_key k d with
      | Some x => Ok (x, VDict (remove_key k d))
      | None => Raise KeyError
      end
  | VRunDoc d => pop_rundoc d k
  | VList _ => Raise TypeError          (* [list.pop] wants an index *)
  | _ => Raise AttributeError
  end.

Abbreviation start_doc := (list (string * pyval)).

(** [if key in doc: measurement[target] = doc.pop(key)] *)
Definition move_field (key target : string) (acc : group * start_doc)
  : result (group * start_doc) :=
  let '(measurement, doc) := acc in
  match get_key key doc with
  | Some v =>
      measurement ← set_native storable measurement target v;
      Ok (measurement, remove_key key doc)
  | None => Ok (measurement, doc)
  end.

(** The group [measurement_details]. *)
Definition measurement_details (start_time : string) (doc : start_doc)
    (measurement : group) : result (group * start_doc) :=
  measurement ← set_native storable measurement "start_time" (VStr start_time);
  acc ← move_field "description" "protocol_description" (measurement, doc);
  acc ← move_field "identifier" "measurement_identifier" acc;
  acc ← move_field "protocol_json" "protocol_json" acc;
  acc ← move_field "plan_name" "plan_name" acc;
  acc ← move_field "plan_type" "plan_type" acc;
  acc ← move_field "protocol_overview" "protocol_overview" acc;
  acc ← move_field "python_script" "python_script" acc;
  acc ← move_field "scan_id" "scan_id" acc;
  acc ← move_field "session_name" "session_name" acc;
  acc ← move_field "uid" "uid" acc;
  acc ←
    (let '(measurement, doc) := acc in
     match get_key "variables" doc with
     | Some v =>
         create_group measurement "protocol_variables"
           (fun sub =>
              sub ← recourse_entry_dict storable iso8601 sub v;
              Ok (sub, remove_key "variables" doc))
     | None => Ok (measurement, doc)
     end);
  acc ← move_field "measurement_tags" "measurement_tags" acc;
  move_field "measurement_description" "measurement_description" acc.

(** One turn of [for x in importlib.metadata.distributions()]. *)
Definition distribution (program : group) (x : string * string) : result group :=
  let '(name, version) := x in
  '(program, known) ←
    in_member program "python_environment"
      (fun py_environment => Ok (py_environment, has_key name (members py_environment)));
  if known : bool then Ok program
  else
    program ←
      (if String.eqb name "nano_pybridge"
       then set_native storable program "version" (VStr version)
       else Ok program);
    '(program, _) ←
      in_member program "python_environment"
        (fun py_environment =>
           py_environment ← set_native storable py_environment name (VStr version);
           Ok (py_environment, tt));
    Ok program.

(** The group [program]. *)
Definition program_group (program : group) : result (group * unit) :=
  program ← put_str program "program_name" "Nano Pybridge";
  '(program, _) ←
    create_group program "python_environment"
      (fun py_environment =>
         py_environment ←
           set_attr storable py_environment "python_version" (VStr sys_version);
         Ok (py_environment, tt));
  program ← foldM distribution distributions program;
  Ok (program, tt).

(** The child [identifier] of a user, a sample or a device: the identity
    under [id_key] of [owner], the full identifier when the code asks for it,
    and the service, [unknown] when [owner] names none. *)
Definition identifier_group (owner : pyval) (id_key : string) (with_full : bool)
    (id_group : group) : result (group * pyval) :=
  let id_group := put_attr id_group "NX_class" "NXidentifier" in
  '(v, owner) ← pop_key owner id_key;
  id_group ← set_native storable id_group "identifier" v;
  '(id_group, owner) ←
    (if with_full then
       has_full ← contains_key owner "full_identifier";
       if has_full : bool then
         '(v, owner) ← pop_key owner "full_identifier";
         id_group ← set_native storable id_group "full_identifier" v;
         Ok (id_group, owner)
       else Ok (id_group, owner)
     else Ok (id_group, owner));
  has_service ← contains_key owner "ELN-service";
  if has_service : bool then
    '(v, owner) ← pop_key owner "ELN-service";
    id_group ← set_native storable id_group "service" v;
    Ok (id_group, owner)
  else
    id_group ← put_str id_group "service" "unknown";
    Ok (id_group, owner).

(** The group [user]. *)
Definition user_group (user_data : pyval) (user : group) : result (group * unit) :=
  let user := put_attr user "NX_class" "NXuser" in
  has_user_id ← contains_key user_data "user_id";
  '(user, user_data) ←
    (if has_user_id : bool then
       create_group user "identifier" (identifier_group user_data "user_id" false)
     else
       has_identifier ← contains_key user_data "identifier";
       if has_identifier : bool then
         create_group user "identifier"
                      (identifier_group user_data "identifier" false)
       else Ok (user, user_data));
  user ← recourse_entry_dict storable iso8601 user user_data;
  Ok (user, tt).

(** The group [sample]. *)
Definition sample_group (sample_data : pyval) (sample : group)
  : result (group * unit) :=
  let sample := put_attr sample "NX_class" "NXsample" in
  has_identifier ← contains_key sample_data "identifier";
  '(sample, sample_data) ←
    (if has_identifier : bool then
       create_group sample "identifier"
                    (identifier_group sample_data "identifier" true)
     else Ok (sample, sample_data));
  sample ← recourse_entry_dict storable iso8601 sample sample_data;
  Ok (sample, tt).

(** What the loops over the devices keep: [_channel_links] (the place of a
    channel's group in the entry) and [_channel_metadata]. *)
Record channels := mkchannels {
  channel_links : list (string * list string);
  channel_metadata : list (string * pyval)
}.

(** One turn of [for ch, ch_dat in channel_dict.items()]. *)
Definition channel (dev : string) (acc : group * channels)
    (item : string * pyval) : result (group * channels) :=
  let '(dev_group, kept) := acc in
  let '(ch, ch_dat) := item in
  '(is_output, ch_dat) ← pop_key ch_dat "output";
  ch_dat ← as_dict ch_dat;
  '(name, ch_dat) ← pop_key ch_dat "name";
  name ← last_component name;
  let side := if truthy is_output then "outputs" else "sensors" in
  '(dev_group, metadata) ←
    in_member dev_group side
      (fun side_group =>
         create_group side_group name
           (fun sensor =>
              let sensor :=
                put_attr sensor "NX_class"
                         (if truthy is_output then "NXactuator" else "NXsensor") in
              sensor ← set_native storable sensor "name" (VStr ch);
              '(metadata, ch_dat) ← pop_key ch_dat "metadata";
              sensor ← recourse_entry_dict storable iso8601 sensor metadata;
              sensor ← recourse_entry_dict storable iso8601 sensor ch_dat;
              Ok (sensor, metadata)));
  Ok (dev_group,
      mkchannels
        (set_key ch ["instruments"; dev; side; name] (channel_links kept))
        (set_key ch metadata (channel_metadata kept))).

(** One turn of [for key, val in dat.items()], for the driver files. *)
Definition driver_file (dev_group : group) (item : string * pyval) : result group :=
  let '(key, val) := item in
  if PyStr.startswith key "python_file_" then
    '(dev_group, _) ←
      (if has_key "driver_files" (members dev_group) then Ok (dev_group, tt)
       else create_group dev_group "driver_files" (fun sub => Ok (sub, tt)));
    '(dev_group, _) ←
      in_member dev_group "driver_files"
        (fun driver_files =>
           driver_files ← set_native storable driver_files key val;
           Ok (driver_files, tt));
    Ok dev_group
  else Ok dev_group.

(** [if k in dat and dat[k]] *)
Definition has_truthy (dat : pyval) (k : string) : result bool :=
  has ← contains_key dat k;
  if has : bool then v ← get_item dat k; Ok (truthy v) else Ok false.

(** One turn of [for dev, dat in device_data.items()]. *)
Definition device (acc : group * channels) (item : string * pyval)
  : result (group * channels) :=
  let '(instr, kept) := acc in
  let '(dev, dat) := item in
  '(instr, kept) ←
    create_group instr dev
      (fun dev_group =>
         let dev_group := put_attr dev_group "NX_class" "NXinstrument" in
         has_channels ← contains_key dat "instrument_nano_channels";
         '(dev_group, kept, dat) ←
           (if has_channels : bool then
              '(dev_group, _) ← create_group dev_group "sensors"
                                             (fun sub => Ok (sub, tt));
              '(dev_group, _) ← create_group dev_group "outputs"
                                             (fun sub => Ok (sub, tt));
              '(channel_dict, dat) ← pop_key dat "instrument_nano_channels";
              items ← items_of channel_dict;
              '(dev_group, kept) ← foldM (channel dev) items (dev_group, kept);
              Ok (dev_group, kept, dat)
            else Ok (dev_group, kept, dat));
         '(dev_group, _) ←
           create_group dev_group "fabrication"
             (fun fab_group => Ok (put_attr fab_group "NX_class" "NXfabrication", tt));
         has_idn ← contains_key dat "idn";
         '(dev_group, dat) ←
           (if has_idn : bool then
              '(idn, dat) ← pop_key dat "idn";
              in_member dev_group "fabrication"
                (fun fab_group =>
                   fab_group ← set_native storable fab_group "model" idn;
                   Ok (fab_group, dat))
            else
              class_name ← get_item dat "device_class_name";
              in_member dev_group "fabrication"
                (fun fab_group =>
                   fab_group ← set_native storable fab_group "model" class_name;
                   Ok (fab_group, dat)));
         '(class_name, dat) ← pop_key dat "device_class_name";
         dev_group ← set_native storable dev_group "name" class_name;
         dev_group ← set_native storable dev_group "short_name" (VStr dev);
         has_eln ← has_truthy dat "ELN-instrument-id";
         '(dev_group, dat) ←
           (if has_eln : bool then
              in_member dev_group "fabrication"
                (fun fab_group =>
                   create_group fab_group "identifier"
                     (identifier_group dat "ELN-instrument-id" true))
            else
              has_identifier ← has_truthy dat "identifier";
              if has_identifier : bool then
                in_member dev_group "fabrication"
                  (fun fab_group =>
                     create_group fab_group "identifier"
                       (identifier_group dat "identifier" false))
              else Ok (dev_group, dat));
         has_metadata ← contains_key dat "ELN-metadata";
         '(dev_group, dat) ←
           (if has_metadata : bool then
              '(eln, dat) ← pop_key dat "ELN-metadata";
              in_member dev_group "fabrication"
                (fun fab_group =>
                   fab_group ← recourse_entry_dict storable iso8601 fab_group
                                 (VDict [("ELN-metadata", eln)]);
                   Ok (fab_group, dat))
            else Ok (dev_group, dat));
         items ← items_of dat;
         dev_group ← foldM driver_file items dev_group;
         let used_keys :=
           map fst (List.filter (fun kv => PyStr.startswith (fst kv) "python_file_")
                                items) in
         dat ← foldM (fun dat key => '(_, dat) ← pop_key dat key; Ok dat)
                     used_keys dat;
         dev_group ← recourse_entry_dict storable iso8601 dev_group dat;
         Ok (dev_group, kept));
  Ok (instr, kept).

(** [doc.pop(k) if k in doc else {}] *)
Definition pop_or_empty (k : string) (doc : start_doc) : pyval * start_doc :=
  match get_key k doc with
  | Some v => (v, remove_key k doc)
  | None => (VDict [], doc)
  end.

(** [set(v.keys()) == {"bluesky", "ophyd"}] *)
Definition only_engine_versions (v : pyval) : result bool :=
  d ← match v with
      | VDict d | VRunDoc d => Ok d
      | _ => Raise AttributeError
      end;
  Ok (has_key "bluesky" d && has_key "ophyd" d &&
      forallb (fun kv => String.eqb (fst kv) "bluesky" || String.eqb (fst kv) "ophyd") d).

(** The entry: everything that [start] writes below the group it has made
    for the run, from the document without its [time]. *)
Definition entry_group (start_time : string) (doc : start_doc) (entry : group)
  : result (group * channels) :=
  let entry := put_attr entry "NX_class" "NXentry" in
  doc ←
    match get_key "versions" doc with
    | Some v =>
        only ← only_engine_versions v;
        Ok (if only : bool then remove_key "versions" doc else doc)
    | None => Ok doc
    end;
  '(entry, doc) ←
    create_group entry "measurement_details" (measurement_details start_time doc);
  '(entry, _) ← create_group entry "program" program_group;
  let '(user_data, doc) := pop_or_empty "user" doc in
  '(entry, _) ← create_group entry "user" (user_group user_data);
  let '(sample_data, doc) := pop_or_empty "sample" doc in
  '(entry, _) ← create_group entry "sample" (sample_group sample_data);
  let '(device_data, doc) := pop_or_empty "devices" doc in
  '(entry, kept) ←
    create_group entry "instruments"
      (fun instr =>
         items ← items_of device_data;
         foldM device items (instr, mkchannels [] []));
  entry ← recourse_entry_dict storable iso8601 entry (VDict doc);
  '(entry, _) ←
    create_group entry "data"
      (fun data_entry => Ok (put_attr data_entry "NX_class" "NXdata", tt));
  Ok (entry, kept).

(** The name of the entry: [NANO_] and the label, with a number when the file
    has an entry of that name.  [fuel] bounds the turns of the loop. *)
Fixpoint entry_name_loop (fuel : nat) (root : group) (entry_name : string)
    (i : nat) : option string :=
  if has_key entry_name (members root) then
    match fuel with
    | O => None
    | S fuel' =>
        let old := "_" +:+ PyStr.of_nat (i - 1) in
        let new := "_" +:+ PyStr.of_nat i in
        entry_name_loop fuel' root
          (if PyStr.endswith entry_name old
           then PyStr.replace entry_name old new
           else entry_name +:+ new)
          (i + 1)
    end
  else Some entry_name.

(** [hash(v)] does not raise. *)
Fixpoint hashable (v : pyval) : bool :=
  match v with
  | VList _ | VDict _ | VRunDoc _ => false
  | VTuple l =>
      (fix all (l : list pyval) : bool :=
         match l with
         | [] => true
         | x :: l' => hashable x && all l'
         end) l
  | _ => true
  end.

Variable world : Type.
Variable handle : Type.
Variable resolve : string -> string -> string.
Variable isfile : world -> string -> bool.
Variable makedirs : world -> string -> world * option exn.
Variable h5_file : world -> string -> string -> world * result handle.
Variable root_of : handle -> group.

(** What [start] leaves: the storage and the manager, the open file with its
    root group as [start] has written it, and the fields of the serializer
    that the later calls read. *)
Record started := mkstarted {
  st_world : world;
  st_manager : Files.manager handle;
  st_file : handle;                                  (* [_h5_output_file] *)
  st_root : group;
  st_entry_name : string;                            (* [_entry_name] *)
  st_start_time : pyval;                             (* [_start_time] *)
  st_channels : channels
}.

(** [start(doc)]; [None] when [fuel] turns do not end a loop. *)
Definition start (fuel : nat) (w : world) (m : Files.manager handle)
    (doc : start_doc) : option (result started) :=
  match format_prefix doc with
  | Raise e => Some (Raise e)
  | Ok templated_file_prefix =>
      let relative_path :=
        if PyStr.endswith templated_file_prefix ".nxs"
        then templated_file_prefix
        else templated_file_prefix +:+ ".nxs" in
      let session :=
        match get_key "session_name" doc with
        | Some v => if truthy v then Some v else None
        | None => None
        end in
      match get_key "time" doc with
      | None => Some (Raise KeyError)
      | Some time =>
          let start_time := iso8601 time in
          let doc := remove_key "time" doc in
          let with_label (entry_name : string) :=
            match Files.open resolve isfile makedirs h5_file fuel w m
                             relative_path entry_name "a" with
            | None => None
            | Some (_, _, Raise e) => Some (Raise e)
            | Some (w, m, Ok f) =>
                let root := put_attr (root_of f) "NX_class" "NXroot" in
                match entry_name_loop fuel root ("NANO_" +:+ entry_name) 1 with
                | None => None
                | Some entry_name =>
                    Some ('(root, kept) ←
                            create_group root entry_name
                                         (entry_group start_time doc);
                          Ok (mkstarted w m f root entry_name time kept))
                end
            end in
          match session with
          | None => with_label "entry"
          | Some (VStr entry_name) => with_label entry_name
          | Some v =>
              (* a label that is no [str]: [reserve_name] cleans it when the
                 path is taken, uses it as a key, and [start] adds it to a
                 [str] *)
              if FileManager.is_absolute relative_path
              then Some (Raise SuitcaseUtilsValueError)
              else if FileManager.taken (isfile w) (Files.names m)
                        (FileManager.PPath
                           (resolve (FileManager.directory (Files.names m))
                                    relative_path))
              then Some (Raise AttributeError)
              else if negb (hashable v) then Some (Raise TypeError)
              else
                match Files.open resolve isfile makedirs h5_file fuel w m
                                 relative_path "" "a" with
                | Some (_, _, Raise e) => Some (Raise e)
                | _ => Some (Raise TypeError)
                end
          end
      end
  end.

End start.

Arguments mkstarted {world handle}.
Arguments st_world {world handle} s.
Arguments st_manager {world handle} s.
Arguments st_file {world handle} s.
Arguments st_root {world handle} s.
Arguments st_entry_name {world handle} s.
Arguments st_start_time {world handle} s.
Arguments st_channels {world handle} s.

(** An environment for examples: no run document can be popped, the file
    prefix is [{uid}-] for a uid that is a [str], and two distributions are
    installed; the files are those of [Files.toy_world], all of them new. *)
Definition no_pop (_ : list (string * pyval)) (_ : string)
  : result (pyval * pyval) := Raise TypeError.

Definition uid_prefix (doc : list (string * pyval)) : result string :=
  match get_key "uid" doc with
  | Some (VStr uid) => Ok (uid +:+ "-")
  | _ => Raise KeyError
  end.

Definition toy_distributions : list (string * string) :=
  [("numpy", "2.0"); ("nano_pybridge", "1.0")].

Definition new_file (_ : nat) : group := empty_group.

(** A start document: a session, a user with an identity, a sample without,
    one device with the sensor channel [det], and a field that [start] does
    not know. *)
Definition det_channel : pyval :=
  VDict [("output", VBool false); ("name", VStr "dev.det");
         ("metadata", VDict [("units", VStr "V")])].

Definition demo_doc : list (string * pyval) :=
  [("uid", VStr "abc"); ("time", VNum 100); ("session_name", VStr "s1");
   ("plan_name", VStr "scan");
   ("user", VDict [("user_id", VStr "u1"); ("name", VStr "Ann")]);
   ("sample", VDict [("name", VStr "Si")]);
   ("devices",
    VDict [("dev", VDict [("device_class_name", VStr "Demo");
                          ("instrument_nano_channels", VDict [("det", det_channel)])])]);
   ("note", VStr "x")].

(** [start] in this environment, from a new manager for the directory [/d]. *)
Definition demo_start (doc : list (string * pyval))
  : option (result (@started Files.toy_world nat)) :=
  start plain_storable fixed_iso8601 no_pop uid_prefix "3.11" toy_distributions
        Files.toy_world nat FileManager.join Files.toy_isfile Files.toy_makedirs
        Files.toy_file new_file 4 (Files.mktoy [] 0 [])
        (Files.init nat "/d" true) doc.

End Start.

(** ** Runs used below *)

Module Scenarios.
Import Serializer.

Open Scope Z_scope.

(** The sensor group of the instrument channel [det]. *)
Definition det_link : path := ["instruments"; "dev"; "sensors"; "det"].

Definition started_with_det : state := after_start 100 [("det", (det_link, []))].
Definition started_plain : state := after_start 100 [].

(** The state a run ends in (the initial state when it raises). *)
Definition state_after (s : state) (docs : list document) : state :=
  match run strict_write s docs with
  | Ok s' => s'
  | Raise _ => s
  end.

(** A batch of one row: the scalar [v] of channel [key] at time [t]. *)
Definition one_row (uid key : string) (t v : Z) : document :=
  EventPage (mkpage uid [t] [(key, ColValues (mkarray [[CNum v]] [] DNum))]).

(** A batch of several rows of scalars. *)
Definition batch (uid key : string) (ts vs : list Z) : document :=
  EventPage (mkpage uid ts
               [(key, ColValues (mkarray (map (fun v => [CNum v]) vs) [] DNum))]).

(** Streams [A] (named [primary]) and [B] (named [second]) both declare the
    channel [det]; [A] sends rows 0 to 4, then [B] rows 0 to 2, then [A] rows 5
    to 9, one row a batch.  Row [i] of [A] holds [i], row [i] of [B] holds
    [1000 + i]. *)
Definition interleaved : list document :=
  [Descriptor (mkdescriptor "A" "primary" [("det", [])]);
   Descriptor (mkdescriptor "B" "second" [("det", [])]);
   one_row "A" "det" 100 0; one_row "A" "det" 101 1; one_row "A" "det" 102 2;
   one_row "A" "det" 103 3; one_row "A" "det" 104 4;
   one_row "B" "det" 105 1000; one_row "B" "det" 106 1001;
   one_row "B" "det" 107 1002;
   one_row "A" "det" 108 5; one_row "A" "det" 109 6; one_row "A" "det" 110 7;
   one_row "A" "det" 111 8; one_row "A" "det" 112 9;
   Stop 113].

(** One stream [primary] declares [temp]; two batches of 3 and 2 rows at the
    times 100..102 and 103..104, the run having started at 100. *)
Definition two_batches : list document :=
  [Descriptor (mkdescriptor "P" "primary" [("temp", [("units", AText "degrees")])]);
   batch "P" "temp" [100; 101; 102] [20; 21; 22];
   batch "P" "temp" [103; 104] [23; 24]].

(** Two descriptors of the name [primary]. *)
Definition primary_twice : list document :=
  [Descriptor (mkdescriptor "P" "primary" [("temp", [])]);
   Descriptor (mkdescriptor "Q" "primary" [("temp", [])])].

(** Two descriptors of the name [second]. *)
Definition second_twice : list document :=
  [Descriptor (mkdescriptor "P" "second" [("temp", [])]);
   Descriptor (mkdescriptor "Q" "second" [("temp", [])])].

(** One stream declares [det] and sends one batch of two rows. *)
Definition one_stream_two_rows : list document :=
  [Descriptor (mkdescriptor "P" "primary" [("det", [])]);
   batch "P" "det" [100; 101] [10; 20];
   Stop 102].

(** One stream declares [det] and sends two batches of one row. *)
Definition two_single_rows : list document :=
  [Descriptor (mkdescriptor "P" "primary" [("det", [])]);
   one_row "P" "det" 100 10; one_row "P" "det" 101 20].

(** One batch of two rows, and nothing else. *)
Definition one_batch_of_two : list document :=
  [Descriptor (mkdescriptor "P" "primary" [("det", [])]);
   batch "P" "det" [100; 101] [10; 20]].


(** A batch of one row whose image is empty (shape (1, 0, 3)), before a row of
    [temp]. *)
Definition empty_row_page : event_page_doc :=
  mkpage "P" [100]
    [("img", ColValues (mkarray [[]] [0; 3] DNum));
     ("temp", ColValues (mkarray [[CNum 20]] [] DNum))].

Definition declared_img_temp : descriptor_doc :=
  mkdescriptor "P" "primary" [("img", []); ("temp", [])].

(** The state after that descriptor. *)
Definition declared_state : state :=
  state_after started_plain [Descriptor declared_img_temp].

(** A descriptor of a fit stream, and documents that follow it. *)
Definition fits_descriptor : descriptor_doc :=
  mkdescriptor "F" "gauss_fits_readying_det" [].

Definition after_fits : list document :=
  [one_row "F" "det" 100 1;
   Descriptor (mkdescriptor "P" "primary" [("det", [])]);
   one_row "P" "det" 101 2].


(** The instrument channel [temp] with its unit, and a stream that declares
    [temp] with another unit; two batches of 3 and 2 rows. *)
Definition temp_link : path := ["instruments"; "dev"; "sensors"; "temp"].

Definition started_with_temp : state :=
  after_start 100 [("temp", (temp_link, [("units", AText "K")]))].

Definition temp_keys : list (string * metadata) :=
  [("temp", [("units", AText "degrees"); ("source", AText "sim")])].

Definition temp_declared : state :=
  state_after started_with_temp [Descriptor (mkdescriptor "P" "primary" temp_keys)].

Definition temp_rows (vs : list Z) : ndarray :=
  mkarray (map (fun v => [CNum v]) vs) [] DNum.

Definition temp_page1 : event_page_doc :=
  mkpage "P" [100; 101; 102] [("temp", ColValues (temp_rows [20; 21; 22]))].

Definition temp_page2 : event_page_doc :=
  mkpage "P" [103; 104] [("temp", ColValues (temp_rows [23; 24]))].

Definition temp_written : state := state_after temp_declared [EventPage temp_page1].


(** The live metadata stream and a batch of it. *)
Definition live_declared : state :=
  state_after started_plain
    [Descriptor (mkdescriptor "L" "_live_metadata_reading_" [])].

Definition live_page : event_page_doc :=
  mkpage "L" [100]
    [("live_metadata", ColTuples [[("field_strength", mkvalue [CNum 7] [] DNum)]])].

(** A batch in which the column [img] has no row. *)
Definition no_row_page : event_page_doc :=
  mkpage "P" [100]
    [("img", ColValues (mkarray [] [3] DNum));
     ("temp", ColValues (mkarray [[CNum 20]] [] DNum))].

End Scenarios.

(** * Properties *)

(** ** Results and loops *)

Lemma rbind_ok {A B} (r : result A) (k : A -> result B) (b : B) :
  (r ≫= k) = Ok b -> exists a, r = Ok a /\ k a = Ok b.
Proof. destruct r as [a|e]; cbn; [eauto|discriminate]. Qed.

Lemma returns_with {A} (r : result A) (P : A -> Prop) :
  match r with Ok a => P a | Raise _ => False end ->
  exists a, r = Ok a /\ P a.
Proof. destruct r as [a|e]; [eauto|contradiction]. Qed.

Lemma foldM_cons {A B} (f : B -> A -> result B) (a : A) (l : list A) (b : B) :
  foldM f (a :: l) b = (b' ← f b a; foldM f l b').
Proof. reflexivity. Qed.


(** A relation that every turn of a loop establishes holds across the loop. *)
Lemma foldM_preserves {A B} (R : B -> B -> Prop) (f : B -> A -> result B) :
  (forall b, R b b) ->
  (forall b1 b2 b3, R b1 b2 -> R b2 b3 -> R b1 b3) ->
  (forall b a b', f b a = Ok b' -> R b b') ->
  forall l b b', foldM f l b = Ok b' -> R b b'.
Proof.
  intros Hrefl Htrans Hstep. induction l as [|a l IH]; intros b b'; simpl.
  - intros [= <-]. apply Hrefl.
  - intros H. apply rbind_ok in H as (b1 & H1 & H2). eauto.
Qed.

(** Splits [H : (x ← r; k) = Ok b] into its steps. *)
Ltac ok_inv H :=
  repeat match type of H with
  | (_ ≫= _) = Ok _ =>
      let x := fresh "x" in let Hx := fresh "Hx" in
      apply rbind_ok in H as (x & Hx & H)
  end.

(** Proves [exists a, r = Ok a /\ ...] for closed [r] by running it. *)
Ltac evaluate :=
  apply returns_with; vm_compute;
  repeat match goal with |- _ /\ _ => split end; reflexivity.

(** ** Python strings *)

Example splitext_hidden : PyStr.splitext_root "/d/.hidden" = "/d/.hidden".
Proof. reflexivity. Qed.
Example splitext_dir_dot : PyStr.splitext_root "/d.x/f" = "/d.x/f".
Proof. reflexivity. Qed.
Example splitext_two : PyStr.splitext_root "/d/f.tar.gz" = "/d/f.tar".
Proof. reflexivity. Qed.
Example splitext_dots : PyStr.splitext_root "/d/..a.b" = "/d/..a".
Proof. reflexivity. Qed.
Example replace_overlap : PyStr.replace "aaa" "aa" "b" = "ba".
Proof. reflexivity. Qed.
Example replace_empty : PyStr.replace "abc" "" "-" = "-a-b-c-".
Proof. reflexivity. Qed.
Example clean_filename_ex : clean_filename "my run: a/b.c" = "my_run-_a-b_c".
Proof. reflexivity. Qed.

(** ** The resource allocator *)

Section FileManagerFacts.
Import FileManager.

Variable resolve : string -> string -> string.
Variable isfile : string -> bool.

(** C9.  A call of [reserve_name] with an absolute [relative_file_path] raises
    the usage error [SuitcaseUtilsValueError] at once (before the loop, so for
    every bound on it) and leaves the manager, with its reserved names and its
    artifacts, as it was. *)
Theorem reserve_name_absolute_rejected
    (fuel : nat) (fm : FileManager.t) (entry_name relative_file_path : string) :
  is_absolute relative_file_path = true ->
  reserve_name resolve isfile fuel fm entry_name relative_file_path
  = Some (fm, Raise SuitcaseUtilsValueError).
Proof.
  intros Habs. unfold reserve_name. rewrite Habs. reflexivity.
Qed.

(** The loop ends with a name that is free: not in the set as the object it
    is, and, with "new resource per entry" on, not the name of a file. *)
Lemma disambiguate_free (fuel : nat) (fm : FileManager.t) :
  forall (p q : pathname) (i : nat),
    disambiguate isfile fuel fm p i = Some (Ok q) -> taken isfile fm q = false.
Proof.
  induction fuel as [|fuel IH]; intros p q i; simpl;
    destruct (taken isfile fm p) eqn:Hp; try discriminate.
  - intros [= <-]. exact Hp.
  - destruct p as [s|s]; [discriminate|]. apply IH.
  - intros [= <-]. exact Hp.
Qed.

(** What a call that returns has done: the name was free, and it is now
    reserved and listed under the label. *)
Lemma reserve_name_returns (fuel : nat) (fm fm' : FileManager.t)
    (entry_name relative_file_path : string) (p : pathname) :
  reserve_name resolve isfile fuel fm entry_name relative_file_path
  = Some (fm', Ok p) ->
  taken isfile fm p = false /\
  reserved_names fm' = {[p]} ∪ reserved_names fm /\
  artifacts fm' !! entry_name
  = Some (default [] (artifacts fm !! entry_name) ++ [p]).
Proof.
  unfold reserve_name. destruct (is_absolute relative_file_path); [discriminate|].
  destruct (disambiguate _ _ _ _ _) as [[q|e]|] eqn:Hloop; try discriminate.
  intros [= <- <-]. split; [eapply disambiguate_free, Hloop|].
  split; [reflexivity|]. simpl. unfold artifacts_append. apply lookup_insert_eq.
Qed.

End FileManagerFacts.

Lemma reserve_name_absolute_rejected_witness :
  FileManager.is_absolute "/tmp/run.nxs" = true /\
  FileManager.reserve_name FileManager.join FileManager.no_files 0
    (FileManager.init "/d" true) "entry" "/tmp/run.nxs"
  = Some (FileManager.init "/d" true, Raise SuitcaseUtilsValueError).
Proof.
  split; [reflexivity|].
  apply (reserve_name_absolute_rejected FileManager.join FileManager.no_files 0
           (FileManager.init "/d" true) "entry" "/tmp/run.nxs").
  reflexivity.
Defined.

Section FileManagerRuns.
Import FileManager.

(** The names of four calls for one label and one relative path that does not
    end in the label. *)
Example reserve_four_times :
  forall fm1 fm2 fm3,
    reserve_name join no_files 8 (init "/d" true) "my run" "f.nxs"
      = Some (fm1, Ok (PPath "/d/f.nxs")) ->
    reserve_name join no_files 8 fm1 "my run" "f.nxs"
      = Some (fm2, Ok (PStr "/d/f_my_run.nxs")) ->
    reserve_name join no_files 8 fm2 "my run" "f.nxs"
      = Some (fm3, Ok (PStr "/d/f_my_run_1.nxs")) ->
    snd <$> reserve_name join no_files 8 fm3 "my run" "f.nxs"
      = Some (Ok (PStr "/d/f_my_run_2.nxs")).
Proof.
  intros fm1 fm2 fm3 H1 H2 H3.
  vm_compute in H1. injection H1 as <-.
  vm_compute in H2. injection H2 as <-.
  vm_compute in H3. injection H3 as <-.
  vm_compute. reflexivity.
Qed.

(** C6.  With "new resource per entry" on and no file on the storage, two
    calls of [reserve_name] for the label [entry] and the relative path
    [entry.nxs] both return the file [/d/entry.nxs]: the first call reserves
    the [Path], the second one finds it, turns it into a [str] that already
    ends in the label, and the loop looks the [str] up in a set that holds the
    [Path]. *)
Theorem reserve_name_twice_same_file :
  exists fm1 fm2 p1 p2,
    reserve_name join no_files 4 (init "/d" true) "entry" "entry.nxs"
      = Some (fm1, Ok p1) /\
    reserve_name join no_files 4 fm1 "entry" "entry.nxs" = Some (fm2, Ok p2) /\
    as_posix p1 = "/d/entry.nxs" /\ as_posix p2 = "/d/entry.nxs" /\
    artifacts fm2 !! "entry" = Some [p1; p2].
Proof.
  eexists _, _, _, _.
  split; [vm_compute; reflexivity|].
  split; [vm_compute; reflexivity|].
  split; [reflexivity|]. split; [reflexivity|]. vm_compute. reflexivity.
Qed.

End FileManagerRuns.

(** ** The generic recursive mapper *)

Section MapperFacts.
Import Mapper.

Variable storable : pyval -> bool.
Variable iso8601 : pyval -> string.

Lemma link_ok (entry entry' : group) (k : string) (n : node) :
  link entry k n = Ok entry' ->
  attrs entry' = attrs entry /\ members entry' = members entry ++ [(k, n)].
Proof.
  unfold link. destruct (has_key k (members entry)); [discriminate|].
  intros [= <-]. split; reflexivity.
Qed.

Lemma store_sequence_ok (entry entry' : group) (key : string) (val : list pyval) :
  store_sequence storable entry key val = Ok entry' ->
  attrs entry' = attrs entry /\
  members entry' = members entry ++ [(key, NLeaf (sequence_leaf storable val))].
Proof.
  unfold store_sequence, sequence_leaf.
  destruct (existsb is_str val); [apply link_ok|].
  destruct (storable (VList val)); apply link_ok.
Qed.

(** The loop over the elements: it makes one child per element of the mapping
    prefix, each filled by the mapper, and reports whether it met an element
    that is no mapping. *)
Lemma each_element_ok (rec : bool -> group -> pyval -> result group)
    (key : string) (l : list pyval) :
  forall (entry entry' : group) (i : nat) (no_dict : bool),
    each_element rec key entry l i = Ok (entry', no_dict) ->
    exists subs,
      Forall2 (fun v sub => rec false empty_group v = Ok sub)
              (mapping_prefix l) subs /\
      attrs entry' = attrs entry /\
      members entry' = members entry ++ indexed_children key subs i /\
      no_dict = negb (forallb is_mapping l).
Proof.
  induction l as [|value l IH]; intros entry entry' i no_dict; simpl.
  - intros [= <- <-]. exists []. rewrite app_nil_r. repeat split. constructor.
  - destruct (is_mapping value) eqn:Hmap.
    + destruct (has_key _ (members entry)); [discriminate|].
      intros H. apply rbind_ok in H as (sub & Hsub & H).
      apply rbind_ok in H as (entry1 & Hlink & Hrest).
      destruct (link_ok _ _ _ _ Hlink) as [Ha Hm].
      destruct (IH _ _ _ _ Hrest) as (subs & Hsubs & Ha' & Hm' & Hnd).
      exists (sub :: subs). repeat split.
      * constructor; assumption.
      * congruence.
      * rewrite Hm', Hm, <- app_assoc. reflexivity.
      * assumption.
    + intros [= <- <-]. exists []. rewrite app_nil_r. repeat split. constructor.
Qed.





End MapperFacts.

Section MapperRuns.
Import Mapper.



(** A sequence of mappings only: one child each, no leaf. *)
Example sequence_of_mappings :
  exists entry',
    recourse_entry_dict plain_storable fixed_iso8601 empty_group
      (VDict [("k", VList [VDict [("a", VNum 1)]; VDict []])]) = Ok entry' /\
    members entry' =
      [("k_0", NGroup [] [("a", NLeaf (LNative (VNum 1)))]); ("k_1", NGroup [] [])].
Proof. evaluate. Qed.

(** The name of a child may be taken: the store refuses it. *)
Example sequence_child_name_taken :
  recourse_entry_dict plain_storable fixed_iso8601 empty_group
    (VDict [("k_0", VNum 1); ("k", VList [VDict []])]) = Raise H5Error.
Proof. reflexivity. Qed.

End MapperRuns.

(** ** The router and the stitcher on concrete runs *)

Section SerializerRuns.
Import Serializer Scenarios.

Open Scope Z_scope.

(** C1.  Stream [A] feeds the channel [det] with rows 0 to 4, then [B] with
    rows 0 to 2, then [A] with rows 5 to 9.  [event_page] records the first
    stream only as contributing to [det], so at [stop] the view [value_log]
    has the ten rows of [A] and none of [B], although the ledger holds the
    three visits. *)
Theorem interleaved_view_lacks_second_stream :
  exists s,
    run strict_write started_with_det interleaved = Ok s /\
    stream_counter s = [("A", 5%nat); ("B", 3%nat); ("A", 5%nat)] /\
    channels_in_streams s = [("det", ["A"])] /\
    rows_of s ["data"; "second"] "det"
      = Some [[CNum 1000]; [CNum 1001]; [CNum 1002]] /\
    view s det_link "value_log"
      = Some (map (fun v => Some [CNum v]) [0; 1; 2; 3; 4; 5; 6; 7; 8; 9]).
Proof. evaluate. Qed.

(** C2.  After the two batches of 3 and 2 rows the dataset [temp] has the five
    values in order, but [time] and [ElapsedTime] have one entry a batch, the
    first time stamp of each. *)
Theorem two_batches_time_has_two_rows :
  exists s,
    run strict_write started_plain two_batches = Ok s /\
    rows_of s data_entry "temp"
      = Some [[CNum 20]; [CNum 21]; [CNum 22]; [CNum 23]; [CNum 24]] /\
    rows_of s data_entry "time" = Some [[CNum 100]; [CNum 103]] /\
    rows_of s data_entry "ElapsedTime" = Some [[CNum 0]; [CNum 3]].
Proof. evaluate. Qed.

(** C3.  A second descriptor of the name [primary] is accepted: its uid is
    registered for the data group that the first one uses.  ([descriptor]
    looks the name up among the uids.) *)
Theorem second_primary_accepted :
  exists s,
    run strict_write started_plain primary_twice = Ok s /\
    stream_groups s !! "P" = Some (GroupAt data_entry) /\
    stream_groups s !! "Q" = Some (GroupAt data_entry).
Proof. evaluate. Qed.

(** For another name the store refuses the second group. *)
Example second_other_stream_refused :
  run strict_write started_plain second_twice = Raise H5Error.
Proof. vm_compute. reflexivity. Qed.

(** C4.  One batch of two rows leaves the ledger [[("P", 1)]]: the counts add
    up to the number of batches, 1, not to the number of rows, 2. *)
Theorem ledger_counts_batches_not_rows :
  exists s,
    run strict_write started_plain one_batch_of_two = Ok s /\
    stream_counter s = [("P", 1%nat)] /\
    ledger_total (stream_counter s) = 1%nat /\
    rows_of s data_entry "det" = Some [[CNum 10]; [CNum 20]].
Proof. evaluate. Qed.

(** C5.  The channel [det] gets its rows from one stream, in one batch of two
    rows.  The raw array has the two rows, the view [value_log] the first one
    only; the view [timestamps] is the [time] array. *)
Theorem single_stream_view_is_shorter :
  exists s,
    run strict_write started_with_det one_stream_two_rows = Ok s /\
    rows_of s data_entry "det" = Some [[CNum 10]; [CNum 20]] /\
    view s det_link "value_log" = Some [Some [CNum 10]] /\
    rows_of s data_entry "time" = Some [[CNum 100]] /\
    view s det_link "timestamps" = Some [Some [CNum 100]].
Proof. evaluate. Qed.


(** A batch of one row whose image is empty: the row of [temp] is written,
    [img] is not. *)
Example empty_row_page_skips_image :
  exists s,
    event_page strict_write declared_state empty_row_page = Ok s /\
    printed s = [Skipping "img" [1; 0; 3]] /\
    rows_of s data_entry "temp" = Some [[CNum 20]] /\
    rows_of s data_entry "img" = None.
Proof. evaluate. Qed.

End SerializerRuns.

(** ** The router in general *)

Section SerializerFacts.
Import Serializer.

Variable wm : dataset -> ndarray -> result dataset.

(** *** What each step leaves alone *)

Lemma only_store_printed_refl s : only_store_printed s s.
Proof. destruct s. reflexivity. Qed.

Lemma only_store_printed_trans s1 s2 s3 :
  only_store_printed s1 s2 -> only_store_printed s2 s3 ->
  only_store_printed s1 s3.
Proof.
  unfold only_store_printed. intros H12 H23. rewrite H23, H12.
  destruct s1. reflexivity.
Qed.

Lemma with_store_only s st : only_store_printed s (with_store s st).
Proof. destruct s. reflexivity. Qed.

Lemma with_printed_only s p : only_store_printed s (with_printed s p).
Proof. destruct s. reflexivity. Qed.

Lemma only_store_printed_control s s' :
  only_store_printed s s' -> same_control s s'.
Proof. intros ->. destruct s. repeat split. Qed.

Lemma only_store_printed_channels s s' :
  only_store_printed s s' -> channels_in_streams s' = channels_in_streams s.
Proof. intros ->. destruct s. reflexivity. Qed.

Lemma same_control_refl s : same_control s s.
Proof. repeat split. Qed.

Lemma same_control_trans s1 s2 s3 :
  same_control s1 s2 -> same_control s2 s3 -> same_control s1 s3.
Proof. unfold same_control. intuition congruence. Qed.

Lemma same_control_streams s s' : same_control s s' -> same_streams s s'.
Proof. unfold same_control, same_streams. tauto. Qed.

Lemma same_streams_refl s : same_streams s s.
Proof. repeat split. Qed.

Lemma same_streams_trans s1 s2 s3 :
  same_streams s1 s2 -> same_streams s2 s3 -> same_streams s1 s3.
Proof. unfold same_streams. intuition congruence. Qed.

Lemma add_data_only s md g a k s' :
  add_data_to_stream_group wm s md g a k = Ok s' -> only_store_printed s s'.
Proof.
  unfold add_data_to_stream_group. destruct (negb _).
  - destruct (has_nonpositive_dim a); intros [= <-];
      [apply with_printed_only|apply with_store_only].
  - intros H. ok_inv H. injection H as <-. apply with_store_only.
Qed.

Lemma add_data_sub_only s md g a k s' :
  add_data_to_sub_group wm s md g a k = Ok s' -> only_store_printed s s'.
Proof.
  unfold add_data_to_sub_group. destruct (store s !! g) as [[]|]; try discriminate.
  apply add_data_only.
Qed.

Lemma open_sub_group_only s g k : only_store_printed s (open_sub_group s g k).
Proof.
  unfold open_sub_group.
  destruct (negb _); [apply with_store_only|apply only_store_printed_refl].
Qed.

(** The turn of a channel registers the channel and then touches the store
    and the output only. *)
Lemma channel_step_only uid g s key col s' :
  channel_step wm uid g s (key, col) = Ok s' ->
  only_store_printed
    (with_channels_in_streams s (record_channel (channels_in_streams s) key uid))
    s'.
Proof.
  unfold channel_step. intros H.
  apply rbind_ok in H as (mds & _ & H). apply rbind_ok in H as (md & _ & H).
  set (s1 := with_channels_in_streams s _) in *. clearbody s1.
  destruct col as [a|[|first l]]; try discriminate.
  - destruct (rows a) as [|row0 more]; [discriminate|].
    destruct (_ && _).
    + apply rbind_ok in H as (vars & _ & H).
      apply (only_store_printed_trans _ _ _ (open_sub_group_only s1 g key)).
      revert H. apply (foldM_preserves only_store_printed).
      * apply only_store_printed_refl.
      * apply only_store_printed_trans.
      * intros b [i var] b' Hb. apply rbind_ok in Hb as (v & _ & Hb).
        eapply add_data_sub_only, Hb.
    + eapply add_data_only, H.
  - apply (only_store_printed_trans _ _ _ (open_sub_group_only s1 g key)).
    revert H. apply (foldM_preserves only_store_printed).
    * apply only_store_printed_refl.
    * apply only_store_printed_trans.
    * intros b field b' Hb. eapply add_data_sub_only, Hb.
Qed.

Lemma channel_step_control uid g s item s' :
  channel_step wm uid g s item = Ok s' -> same_control s s'.
Proof.
  destruct item as [key col]. intros H.
  apply channel_step_only, only_store_printed_control in H.
  destruct s. exact H.
Qed.

Lemma channel_steps_control uid g l s s' :
  foldM (channel_step wm uid g) l s = Ok s' -> same_control s s'.
Proof.
  apply (foldM_preserves same_control).
  - apply same_control_refl.
  - apply same_control_trans.
  - intros b item b'. apply channel_step_control.
Qed.

Lemma record_time_only s g t s' :
  record_time wm s g t = Ok s' -> only_store_printed s s'.
Proof.
  unfold record_time. destruct (negb _); intros H; ok_inv H;
    injection H as <-; apply with_store_only.
Qed.

Lemma live_metadata_only s doc s' :
  live_metadata s doc = Ok s' -> only_store_printed s s'.
Proof.
  unfold live_metadata. destruct (store s !! measurement_details); [|discriminate].
  intros H. apply rbind_ok in H as (col & _ & H).
  destruct col as [a|[|first l]]; try discriminate.
  - destruct (rows a); discriminate.
  - revert H. apply (foldM_preserves only_store_printed).
    * apply only_store_printed_refl.
    * apply only_store_printed_trans.
    * intros b field b' Hb. ok_inv Hb. injection Hb as <-. apply with_store_only.
Qed.

Lemma stitch_channel_only s item s' :
  stitch_channel s item = Ok s' -> only_store_printed s s'.
Proof.
  destruct item as [ch stream_docs]. unfold stitch_channel.
  destruct (channel_links s !! ch); [|intros [= <-]; apply only_store_printed_refl].
  intros H. apply rbind_ok in H as (g & _ & H).
  destruct (dataset_of g); [|injection H as <-; apply only_store_printed_refl].
  ok_inv H. injection H as <-. apply with_store_only.
Qed.

Lemma stop_only s t s' : stop s t = Ok s' -> only_store_printed s s'.
Proof.
  unfold stop. destruct (store s !! measurement_details); [|discriminate].
  intros H. apply rbind_ok in H as (st & _ & H).
  apply (only_store_printed_trans _ _ _ (with_store_only s st)).
  revert H. apply (foldM_preserves only_store_printed).
  - apply only_store_printed_refl.
  - apply only_store_printed_trans.
  - intros b item b'. apply stitch_channel_only.
Qed.

(** [count_visit] writes the ledger only. *)
Lemma count_visit_keeps s uid s' :
  count_visit s uid = Ok s' ->
  same_streams s s' /\ store s' = store s /\
  channels_in_streams s' = channels_in_streams s.
Proof.
  unfold count_visit. destruct (bool_decide _).
  - intros [= <-]. repeat split.
  - intros H. ok_inv H. injection H as <-. repeat split.
Qed.

Lemma event_page_streams s doc s' :
  event_page wm s doc = Ok s' -> same_streams s s'.
Proof.
  unfold event_page.
  destruct (stream_groups s !! p_descriptor doc) as [[|g]|].
  - intros H.
    apply same_control_streams, only_store_printed_control, live_metadata_only
      with doc, H.
  - intros H. apply rbind_ok in H as (s1 & H1 & H).
    destruct (p_time doc) as [|t ts]; [discriminate|].
    apply rbind_ok in H as (s2 & H2 & H).
    apply (same_streams_trans _ _ _ (proj1 (count_visit_keeps _ _ _ H1))).
    apply same_control_streams.
    eapply same_control_trans;
      [eapply only_store_printed_control, record_time_only, H2|].
    eapply channel_steps_control, H.
  - intros [= <-]. apply same_streams_refl.
Qed.

Lemma stop_control s t s' : stop s t = Ok s' -> same_control s s'.
Proof. intros H. eapply only_store_printed_control, stop_only, H. Qed.

(** *** The objects a step leaves alone *)

Lemma keeps_refl p s : keeps p s s.
Proof. reflexivity. Qed.

Lemma keeps_trans p s1 s2 s3 : keeps p s1 s2 -> keeps p s2 s3 -> keeps p s1 s3.
Proof. unfold keeps. congruence. Qed.


Lemma sub_path_differs (g : path) (k k' field : string) :
  g ++ [k] <> (g ++ [k']) ++ [field].
Proof.
  intros H. apply (f_equal length) in H. rewrite !length_app in H. simpl in H. lia.
Qed.

Lemma member_path_differs (g : path) (k k' : string) :
  k <> k' -> g ++ [k] <> g ++ [k'].
Proof. intros Hk H. apply app_inv_head in H. congruence. Qed.

Lemma add_data_keeps s md g a k s' p :
  add_data_to_stream_group wm s md g a k = Ok s' -> p <> g ++ [k] -> keeps p s s'.
Proof.
  unfold add_data_to_stream_group, keeps. intros H Hp.
  destruct (negb _).
  - destruct (has_nonpositive_dim a); injection H as <-; simpl; [reflexivity|].
    apply lookup_insert_ne. congruence.
  - ok_inv H. injection H as <-. simpl. apply lookup_insert_ne. congruence.
Qed.

Lemma add_data_sub_keeps s md g a k s' p :
  add_data_to_sub_group wm s md g a k = Ok s' -> p <> g ++ [k] -> keeps p s s'.
Proof.
  unfold add_data_to_sub_group. destruct (store s !! g) as [[]|]; try discriminate.
  apply add_data_keeps.
Qed.

Lemma open_sub_group_keeps s g k p :
  p <> g ++ [k] -> keeps p s (open_sub_group s g k).
Proof.
  intros Hp. unfold open_sub_group, keeps. destruct (negb _); simpl; [|reflexivity].
  apply lookup_insert_ne. congruence.
Qed.

(** The turn of a channel leaves the members of the group under other names
    alone. *)
Lemma channel_step_keeps uid g s k' col s' key :
  channel_step wm uid g s (k', col) = Ok s' -> key <> k' ->
  keeps (g ++ [key]) s s'.
Proof.
  unfold channel_step. intros H Hk.
  apply rbind_ok in H as (mds & _ & H). apply rbind_ok in H as (md & _ & H).
  set (s1 := with_channels_in_streams s _) in H.
  assert (Hs1 : keeps (g ++ [key]) s s1) by reflexivity.
  apply (keeps_trans _ _ _ _ Hs1). clearbody s1. clear Hs1.
  destruct col as [a|[|first l]]; try discriminate.
  - destruct (rows a) as [|row0 more]; [discriminate|].
    destruct (_ && _).
    + apply rbind_ok in H as (vars & _ & H).
      eapply keeps_trans;
        [apply (open_sub_group_keeps s1 g k'), member_path_differs, Hk|].
      revert H. apply (foldM_preserves (keeps (g ++ [key]))).
      * apply keeps_refl.
      * apply keeps_trans.
      * intros b [i var] b' Hb. apply rbind_ok in Hb as (v & _ & Hb).
        eapply add_data_sub_keeps; [eassumption|]. apply sub_path_differs.
    + eapply add_data_keeps; [eassumption|]. apply member_path_differs, Hk.
  - eapply keeps_trans;
      [apply (open_sub_group_keeps s1 g k'), member_path_differs, Hk|].
    revert H. apply (foldM_preserves (keeps (g ++ [key]))).
    * apply keeps_refl.
    * apply keeps_trans.
    * intros b field b' Hb.
      eapply add_data_sub_keeps; [eassumption|]. apply sub_path_differs.
Qed.

Lemma channel_steps_keep uid g key l :
  forall s s',
    foldM (channel_step wm uid g) l s = Ok s' ->
    existsb (String.eqb key) (map fst l) = false ->
    keeps (g ++ [key]) s s'.
Proof.
  induction l as [|[k' col] l IH]; intros s s'; simpl.
  - intros [= <-] _. apply keeps_refl.
  - intros H Hk. apply orb_false_elim in Hk as [Hk Hl].
    apply rbind_ok in H as (s1 & H1 & H).
    eapply keeps_trans; [|eapply IH; eassumption].
    eapply channel_step_keeps; [eassumption|].
    intros ->. rewrite String.eqb_refl in Hk. discriminate.
Qed.



(** *** Two runs in step *)




Section lockstep.

Variable d : diagnostic.






End lockstep.

(** *** Skipping a malformed channel *)




(** A loop raises when the turn of one of its elements raises in every
    state. *)
Lemma foldM_raises {A B} (f : B -> A -> result B) (a : A) (l : list A) :
  (forall b, is_ok (f b a) = false) -> In a l ->
  forall b, is_ok (foldM f l b) = false.
Proof.
  intros Ha. induction l as [|x l IH]; intros Hin b; [contradiction|].
  simpl. destruct Hin as [->|Hin].
  - specialize (Ha b). destruct (f b a); [discriminate|reflexivity].
  - destruct (f b x); cbn; [apply IH, Hin|reflexivity].
Qed.

(** X13.  A batch of a stream that has a group, in which a column comes with
    no row at all, makes [event_page] raise, whatever the other columns
    are. *)
Theorem empty_column_raises s doc g key a :
  stream_groups s !! p_descriptor doc = Some (GroupAt g) ->
  In (key, ColValues a) (p_data doc) ->
  rows a = [] ->
  is_ok (event_page wm s doc) = false.
Proof.
  intros Hg Hin Hrows. unfold event_page. rewrite Hg.
  destruct (count_visit s (p_descriptor doc)) as [s1|]; cbn; [|reflexivity].
  destruct (p_time doc) as [|t ts]; [reflexivity|].
  destruct (record_time wm s1 g t) as [s2|]; cbn; [|reflexivity].
  apply (foldM_raises _ (key, ColValues a)); [|exact Hin].
  intros b. unfold channel_step.
  destruct (getmap _ _) as [mds|]; cbn; [|reflexivity].
  destruct (getitem key mds) as [md|]; cbn; [|reflexivity].
  rewrite Hrows. reflexivity.
Qed.

(** *** Declaring streams *)

(** The test of [descriptor] against streams that exist looks the name up
    among the uids, so it never refuses the name [primary] unless [primary] is
    the uid of a stream: the descriptor is taken and its uid is registered for
    the data group, whether or not a stream of that name was declared. *)
Lemma primary_descriptor_accepted s doc :
  d_name doc = "primary" ->
  stream_groups s !! "primary" = None ->
  exists s',
    descriptor s doc = Ok s' /\
    store s' = store s /\
    stream_groups s' !! d_uid doc = Some (GroupAt data_entry).
Proof.
  intros Hname Hfree. unfold descriptor. rewrite Hname. simpl. rewrite Hfree.
  rewrite bool_decide_eq_false_2 by (intros [x Hx]; discriminate).
  eexists. split; [reflexivity|]. split; [reflexivity|]. simpl.
  apply lookup_insert_eq.
Qed.

(** *** Streams that are not registered *)

Lemma descriptor_other_uid s doc s' u :
  descriptor s doc = Ok s' -> String.eqb (d_uid doc) u = false ->
  stream_groups s' !! u = stream_groups s !! u.
Proof.
  intros H Hu. apply String.eqb_neq in Hu. unfold descriptor in H.
  destruct (PyStr.contains _ _); [injection H as <-; reflexivity|].
  destruct (bool_decide _); [discriminate|].
  destruct (String.eqb (d_name doc) "primary").
  { injection H as <-. simpl. apply lookup_insert_ne. exact Hu. }
  destruct (String.eqb (d_name doc) "_live_metadata_reading_").
  { injection H as <-. simpl. apply lookup_insert_ne. exact Hu. }
  apply rbind_ok in H as (st & _ & H). injection H as <-. simpl.
  apply lookup_insert_ne. exact Hu.
Qed.

Lemma handle_document_other_uid s d s' u :
  handle_document wm s d = Ok s' -> declares u d = false ->
  stream_groups s' !! u = stream_groups s !! u.
Proof.
  destruct d as [doc|doc|t]; simpl; intros H Hu.
  - eapply descriptor_other_uid; eassumption.
  - apply event_page_streams in H as (-> & _). reflexivity.
  - apply stop_control in H as (-> & _). reflexivity.
Qed.

Lemma run_other_uid u docs :
  forall s s',
    run wm s docs = Ok s' ->
    forallb (fun d => negb (declares u d)) docs = true ->
    stream_groups s' !! u = stream_groups s !! u.
Proof.
  unfold run. induction docs as [|d docs IH]; intros s s'; simpl.
  - intros [= <-] _. reflexivity.
  - intros H Hd. apply andb_prop in Hd as [Hd Hdocs].
    apply negb_true_iff in Hd.
    apply rbind_ok in H as (s1 & H1 & H).
    rewrite (IH _ _ H Hdocs). eapply handle_document_other_uid; eassumption.
Qed.

(** C10.  A descriptor whose stream name contains [_fits_readying_] returns
    and leaves the whole state as it was: no group is made, and neither the
    uid nor the name nor the channel metadata is registered.  So, the uid
    being that of no other descriptor, whatever documents follow, a data batch
    that carries the uid is dropped: [event_page] returns and leaves the state,
    with the store and the ledger, as it was. *)
Theorem fits_stream_discarded s doc docs s' page :
  PyStr.contains (d_name doc) "_fits_readying_" = true ->
  stream_groups s !! d_uid doc = None ->
  forallb (fun d => negb (declares (d_uid doc) d)) docs = true ->
  run wm s (Descriptor doc :: docs) = Ok s' ->
  p_descriptor page = d_uid doc ->
  descriptor s doc = Ok s /\
  run wm s docs = Ok s' /\
  event_page wm s' page = Ok s'.
Proof.
  intros Hname Hfresh Hdocs Hrun Hpage.
  assert (Hd : descriptor s doc = Ok s).
  { unfold descriptor. rewrite Hname. reflexivity. }
  assert (Hrest : run wm s docs = Ok s').
  { unfold run in Hrun |- *. rewrite foldM_cons in Hrun. simpl in Hrun.
    rewrite Hd in Hrun. exact Hrun. }
  split; [exact Hd|]. split; [exact Hrest|].
  unfold event_page. rewrite Hpage, (run_other_uid _ _ _ _ Hrest Hdocs), Hfresh.
  reflexivity.
Qed.

(** *** The ledger *)

Lemma last_map {A B} (f : A -> B) (l : list A) : last (map f l) = f <$> last l.
Proof.
  induction l as [|a [|b l] IH]; [reflexivity|reflexivity|].
  change (last (map f (a :: b :: l))) with (last (map f (b :: l))).
  rewrite IH. reflexivity.
Qed.

Lemma distinct_neighbours_snoc (l : list string) (u : string) :
  distinct_neighbours l -> last l <> Some u -> distinct_neighbours (l ++ [u]).
Proof.
  induction l as [|a [|b l] IH]; simpl; intros Hl Hlast.
  - exact I.
  - split; [|exact I]. intros ->. apply Hlast. reflexivity.
  - destruct Hl as [Hab Hl]. split; [exact Hab|]. apply IH; assumption.
Qed.

(** [bump_last] adds one to the count of the last entry. *)
Lemma bump_last_ok (l l' : list (string * nat)) :
  bump_last l = Ok l' ->
  exists pre stream n, l = pre ++ [(stream, n)] /\ l' = pre ++ [(stream, S n)].
Proof.
  revert l'. induction l as [|[u n] [|e l] IH]; intros l'.
  - discriminate.
  - intros [= <-]. exists [], u, n. split; reflexivity.
  - intros H. change (bump_last ((u, n) :: e :: l))
      with (l'' ← bump_last (e :: l); Ok ((u, n) :: l'')) in H.
    apply rbind_ok in H as (l'' & H1 & H). injection H as <-.
    destruct (IH _ H1) as (pre & stream & m & Hl & Hl').
    exists ((u, n) :: pre), stream, m. rewrite Hl, Hl'. split; reflexivity.
Qed.

Lemma ledger_total_app (l1 l2 : list (string * nat)) :
  ledger_total (l1 ++ l2) = (ledger_total l1 + ledger_total l2)%nat.
Proof.
  unfold ledger_total. induction l1 as [|a l1 IH]; simpl; [reflexivity|].
  rewrite IH. lia.
Qed.

Lemma count_visit_ledger s uid s' :
  count_visit s uid = Ok s' -> ledger_wf s ->
  ledger_wf s' /\
  ledger_total (stream_counter s') = S (ledger_total (stream_counter s)).
Proof.
  unfold count_visit, ledger_wf, no_adjacent. intros H [Hadj Hcur].
  destruct (bool_decide _) eqn:Hne.
  - apply bool_decide_eq_true_1 in Hne. injection H as <-. simpl.
    rewrite List.map_app, last_snoc, ledger_total_app. simpl.
    split; [split; [|reflexivity]|unfold ledger_total; simpl; lia].
    apply distinct_neighbours_snoc; [exact Hadj|].
    rewrite last_map, <- Hcur. exact Hne.
  - apply rbind_ok in H as (c & Hc & H). injection H as <-. simpl.
    destruct (bump_last_ok _ _ Hc) as (pre & stream & n & Hl & Hl').
    rewrite Hl in *. rewrite Hl'.
    rewrite !List.map_app, !last_snoc, !ledger_total_app in *. simpl in *.
    split; [split; assumption|unfold ledger_total; simpl; lia].
Qed.

Lemma ledger_wf_control s s' : same_control s s' -> ledger_wf s -> ledger_wf s'.
Proof.
  unfold ledger_wf. intros (_ & _ & _ & _ & _ & _ & -> & ->). tauto.
Qed.

(** A batch that [event_page] takes adds one to the counts of the ledger when
    its stream has a group, and leaves the ledger alone otherwise. *)
Lemma event_page_ledger s doc s' :
  event_page wm s doc = Ok s' -> ledger_wf s ->
  ledger_wf s' /\
  ledger_total (stream_counter s') =
    (ledger_total (stream_counter s) + if counted s doc then 1 else 0)%nat.
Proof.
  unfold event_page, counted.
  destruct (stream_groups s !! p_descriptor doc) as [[|g]|].
  - intros H Hwf. apply live_metadata_only, only_store_printed_control in H.
    split; [eapply ledger_wf_control; eassumption|].
    destruct H as (_ & _ & _ & _ & _ & _ & -> & _). lia.
  - intros H Hwf. apply rbind_ok in H as (s1 & H1 & H).
    destruct (p_time doc) as [|t ts]; [discriminate|].
    apply rbind_ok in H as (s2 & H2 & H).
    destruct (count_visit_ledger _ _ _ H1 Hwf) as [Hwf1 Ht1].
    assert (Hc : same_control s1 s').
    { eapply same_control_trans;
        [eapply only_store_printed_control, record_time_only, H2|].
      eapply channel_steps_control, H. }
    split; [eapply ledger_wf_control; eassumption|].
    destruct Hc as (_ & _ & _ & _ & _ & _ & -> & _). lia.
  - intros [= <-] Hwf. split; [exact Hwf|lia].
Qed.

Lemma descriptor_keeps s doc s' :
  descriptor s doc = Ok s' ->
  stream_counter s' = stream_counter s /\
  current_stream s' = current_stream s /\
  channels_in_streams s' = channels_in_streams s.
Proof.
  unfold descriptor.
  destruct (PyStr.contains _ _); [intros [= <-]; repeat split|].
  destruct (bool_decide _); [discriminate|].
  destruct (String.eqb (d_name doc) "primary"); [intros [= <-]; repeat split|].
  destruct (String.eqb (d_name doc) "_live_metadata_reading_");
    [intros [= <-]; repeat split|].
  intros H. apply rbind_ok in H as (st & _ & H). injection H as <-.
  repeat split.
Qed.

(** In every state a run reaches, no two consecutive entries of the ledger
    name the same stream. *)
Lemma run_ledger_wf docs :
  forall s s', run wm s docs = Ok s' -> ledger_wf s -> ledger_wf s'.
Proof.
  unfold run. induction docs as [|d docs IH]; intros s s'; simpl.
  - intros [= <-]. tauto.
  - intros H Hwf. apply rbind_ok in H as (s1 & H1 & H).
    apply (IH _ _ H). destruct d as [doc|doc|t]; simpl in H1.
    + destruct (descriptor_keeps _ _ _ H1) as (Hc & Hs & _).
      unfold ledger_wf. rewrite Hc, Hs. exact Hwf.
    + apply (event_page_ledger _ _ _ H1 Hwf).
    + eapply ledger_wf_control; [eapply stop_control, H1|exact Hwf].
Qed.

Lemma after_start_ledger_wf time channels : ledger_wf (after_start time channels).
Proof. split; [exact I|reflexivity]. Qed.

(** The counts of the ledger add up to the number of batches taken. *)
Lemma pages_ledger_total pages :
  forall s s',
    run wm s (map EventPage pages) = Ok s' -> ledger_wf s ->
    ledger_total (stream_counter s') =
      (ledger_total (stream_counter s)
       + length (filter (fun p => counted s p = true) pages))%nat.
Proof.
  unfold run. induction pages as [|p pages IH]; intros s s'; simpl.
  - intros [= <-] _. lia.
  - intros H Hwf. apply rbind_ok in H as (s1 & H1 & H).
    destruct (event_page_ledger _ _ _ H1 Hwf) as [Hwf1 Ht].
    rewrite (IH _ _ H Hwf1), Ht.
    assert (Hg : stream_groups s1 = stream_groups s)
      by apply (event_page_streams _ _ _ H1).
    assert (Hf : filter (fun p => counted s1 p = true) pages
                 = filter (fun p => counted s p = true) pages).
    { apply list_filter_iff. intros q. unfold counted. rewrite Hg. tauto. }
    rewrite Hf, filter_cons. destruct (decide (counted s p = true)) as [E|E].
    + rewrite E. simpl. lia.
    + apply not_true_is_false in E. rewrite E. simpl. lia.
Qed.

(** So when every batch has one row, the counts add up to the rows. *)
Lemma pages_ledger_rows pages s s' :
  run wm s (map EventPage pages) = Ok s' -> ledger_wf s ->
  Forall (fun p => batch_rows p = 1%nat) pages ->
  ledger_total (stream_counter s') =
    (ledger_total (stream_counter s)
     + list_sum (map batch_rows (filter (fun p => counted s p = true) pages)))%nat.
Proof.
  intros Hrun Hwf Hone. rewrite (pages_ledger_total _ _ _ Hrun Hwf). f_equal.
  clear Hrun. induction pages as [|p pages IH]; [reflexivity|].
  apply Forall_cons in Hone as [Hp Hone]. rewrite filter_cons.
  destruct (decide (counted s p = true)); simpl; rewrite ?Hp, IH; auto.
Qed.

(** *** The channel registry *)

Lemma record_channel_one c key uid :
  one_stream_each c -> one_stream_each (record_channel c key uid).
Proof.
  unfold record_channel, one_stream_each. intros H.
  destruct (has_key key c); [exact H|].
  apply Forall_app. split; [exact H|]. constructor; [|constructor].
  exists uid. reflexivity.
Qed.

Lemma channel_steps_registry uid g l :
  forall s s',
    foldM (channel_step wm uid g) l s = Ok s' ->
    one_stream_each (channels_in_streams s) ->
    one_stream_each (channels_in_streams s').
Proof.
  induction l as [|[key col] l IH]; intros s s'; simpl.
  - intros [= <-]. tauto.
  - intros H Hone. apply rbind_ok in H as (s1 & H1 & H).
    apply (IH _ _ H). apply channel_step_only, only_store_printed_channels in H1.
    rewrite H1. destruct s. simpl. apply record_channel_one, Hone.
Qed.

Lemma event_page_registry s doc s' :
  event_page wm s doc = Ok s' ->
  one_stream_each (channels_in_streams s) ->
  one_stream_each (channels_in_streams s').
Proof.
  unfold event_page.
  destruct (stream_groups s !! p_descriptor doc) as [[|g]|].
  - intros H. apply live_metadata_only, only_store_printed_channels in H.
    rewrite H. tauto.
  - intros H Hone. apply rbind_ok in H as (s1 & H1 & H).
    destruct (p_time doc) as [|t ts]; [discriminate|].
    apply rbind_ok in H as (s2 & H2 & H).
    apply (channel_steps_registry _ _ _ _ _ H).
    apply record_time_only, only_store_printed_channels in H2. rewrite H2.
    destruct (count_visit_keeps _ _ _ H1) as (_ & _ & ->). exact Hone.
  - intros [= <-]. tauto.
Qed.

(** In every state a run reaches, every channel of the registry has exactly
    one stream: the first one that wrote to it. *)
Lemma run_registry_one_stream docs :
  forall s s',
    run wm s docs = Ok s' ->
    one_stream_each (channels_in_streams s) ->
    one_stream_each (channels_in_streams s').
Proof.
  unfold run. induction docs as [|d docs IH]; intros s s'; simpl.
  - intros [= <-]. tauto.
  - intros H Hone. apply rbind_ok in H as (s1 & H1 & H).
    apply (IH _ _ H). destruct d as [doc|doc|t]; simpl in H1.
    + destruct (descriptor_keeps _ _ _ H1) as (_ & _ & ->). exact Hone.
    + apply (event_page_registry _ _ _ H1 Hone).
    + apply stop_only, only_store_printed_channels in H1. rewrite H1. exact Hone.
Qed.

(** *** The replay of the ledger for a channel of one stream *)

Lemma get_set_key {A} (k : string) (v : A) (l : list (string * A)) :
  get_key k (set_key k v l) = Some v.
Proof.
  induction l as [|[k' v'] l IH]; simpl.
  - rewrite String.eqb_refl. reflexivity.
  - destruct (String.eqb k k') eqn:E; simpl; rewrite ?String.eqb_refl, ?E; auto.
Qed.

Lemma find_app {A} (f : A -> bool) (l1 l2 : list A) :
  List.find f (l1 ++ l2)
  = match List.find f l1 with Some x => Some x | None => List.find f l2 end.
Proof.
  induction l1 as [|a l1 IH]; simpl; [reflexivity|].
  destruct (f a); [reflexivity|exact IH].
Qed.

Lemma maps_identity_nil p : maps_identity [] p 0.
Proof. intros j. simpl. lia. Qed.

(** One more assignment, of the [c] rows from [k] on. *)
Lemma maps_identity_snoc maps p k c :
  maps_identity maps p k ->
  maps_identity (maps ++ [mkvmap k p k c]) p (k + c).
Proof.
  intros H j. specialize (H j). rewrite find_app.
  destruct (List.find (covers j) maps) as [m|].
  - destruct H as (Hj & Hp & Hi). repeat split; [lia|exact Hp|exact Hi].
  - simpl. unfold covers. simpl.
    destruct (Nat.leb_spec k j); destruct (Nat.ltb_spec j (k + c)); simpl;
      [repeat split; lia|lia|lia|lia].
Qed.

Lemma rbind_ret {A B} (a : A) (k : A -> result B) : (Ok a ≫= k) = k a.
Proof. reflexivity. Qed.

Lemma create_free st g name o :
  has_member st g name = false -> create st g name o = Ok (<[g ++ [name] := o]> st).
Proof. unfold create. intros ->. reflexivity. Qed.

Lemma clamp_within lo n len : (lo + n <= len)%nat -> clamp lo (lo + n) len = n.
Proof. unfold clamp. lia. Qed.

Lemma assign_within l k p d c :
  (k + c <= l_len l)%nat -> (k + c <= length (ds_rows d))%nat ->
  ds_rowshape d = l_rowshape l ->
  assign l k (p, d) k c
  = Ok (mklayout (l_len l) (l_rowshape l) (l_maps l ++ [mkvmap k p k c])).
Proof.
  intros Hl Hd Hs. unfold assign. simpl.
  rewrite !clamp_within by assumption.
  rewrite bool_decide_eq_true_2; [reflexivity|]. split; [reflexivity|exact Hs].
Qed.

Section replay.

Variables (stream : string) (pa pt : path) (d dt : dataset) (n : nat).
Variable g : gathered.

Hypothesis Hsources : sources g = [(stream, (pa, d))].
Hypothesis Hsources_time : sources_time g = [(stream, (pt, dt))].
Hypothesis Hd : (n <= length (ds_rows d))%nat.
Hypothesis Hdt : (n <= length (ds_rows dt))%nat.
Hypothesis Hshape_time : ds_rowshape dt = [].

Let replayed := replayed stream pa pt (ds_rowshape d) n.

Lemma replay_step_ok r k entry :
  replayed r k ->
  (k + ledger_rows stream [entry] <= n)%nat ->
  exists r',
    replay_step [stream] g r entry = Ok r' /\
    replayed r' (k + ledger_rows stream [entry]).
Proof.
  intros (Hn & Hc & Hl & Hs & Hlt & Hst & Hm & Hmt) Hk.
  destruct entry as [u c]. unfold replay_step, ledger_rows in *. simpl in *.
  destruct (String.eqb u stream) eqn:Hu.
  - apply String.eqb_eq in Hu. subst u.
    rewrite bool_decide_eq_true_2 by (apply list_elem_of_singleton; reflexivity).
    simpl. rewrite Hsources, Hsources_time. unfold getitem. simpl.
    rewrite String.eqb_refl. cbn. rewrite Hc, Hn.
    rewrite (assign_within (r_layout r) k pa d c) by (rewrite ?Hl, ?Hs; auto; lia).
    cbn.
    rewrite (assign_within (r_layout_time r) k pt dt c)
      by (rewrite ?Hlt, ?Hst; auto; lia).
    cbn. eexists. split; [reflexivity|].
    replace (c + 0)%nat with c by lia.
    unfold replayed, Serializer.replayed. simpl. rewrite get_set_key. simpl.
    repeat split; try assumption; try reflexivity;
      apply maps_identity_snoc; assumption.
  - apply String.eqb_neq in Hu.
    rewrite bool_decide_eq_false_2
      by (intros Hin; apply list_elem_of_singleton in Hin; congruence).
    simpl. exists r. split; [reflexivity|].
    replace (k + 0)%nat with k by lia.
    repeat split; assumption.
Qed.

Lemma ledger_rows_cons entry ledger :
  ledger_rows stream (entry :: ledger)
  = (ledger_rows stream [entry] + ledger_rows stream ledger)%nat.
Proof.
  unfold ledger_rows. simpl. destruct (String.eqb (fst entry) stream); lia.
Qed.

(** The whole ledger: the rows of the stream are replayed in order. *)
Lemma replay_ok ledger :
  forall r k,
    replayed r k ->
    (k + ledger_rows stream ledger <= n)%nat ->
    exists r',
      foldM (replay_step [stream] g) ledger r = Ok r' /\
      replayed r' (k + ledger_rows stream ledger).
Proof.
  induction ledger as [|entry ledger IH]; intros r k Hr Hk.
  - exists r. split; [reflexivity|].
    replace (k + ledger_rows stream [])%nat with k by (unfold ledger_rows; simpl; lia).
    exact Hr.
  - rewrite ledger_rows_cons in Hk |- *.
    destruct (replay_step_ok r k entry Hr) as (r1 & H1 & Hr1); [lia|].
    destruct (IH r1 _ Hr1) as (r' & H' & Hr'); [lia|].
    exists r'. rewrite foldM_cons, H1. cbn. split; [exact H'|].
    rewrite Nat.add_assoc. exact Hr'.
Qed.

End replay.

(** Reading through assignments that are the identity below [n]. *)
Lemma lookups_take {A} (l : list A) :
  forall n, (n <= length l)%nat ->
  map (fun j => l !! j) (seq 0 n) = map Some (take n l).
Proof.
  induction l as [|a l IH]; intros [|n] Hn; simpl in *; try reflexivity; [lia|].
  f_equal. rewrite <- seq_shift, List.map_map. apply IH. lia.
Qed.

Lemma read_virtual_identity st l p d :
  maps_identity (l_maps l) p (l_len l) ->
  st !! p = Some (HDataset d) ->
  (l_len l <= length (ds_rows d))%nat ->
  read_virtual st l = map Some (take (l_len l) (ds_rows d)).
Proof.
  intros Hm Hp Hlen. unfold read_virtual.
  rewrite <- lookups_take by exact Hlen.
  apply List.map_ext_in. intros j Hj. apply in_seq in Hj.
  unfold read_row. specialize (Hm j).
  destruct (List.find (covers j) (l_maps l)) as [m|]; [|lia].
  destruct Hm as (_ & Hsrc & Hrow). cbn. rewrite Hsrc, Hp, Hrow. reflexivity.
Qed.

(** X9.  For a channel with one stream in the registry, [stop] makes the view
    [timestamps] of the rows of the stream's [time] array and the view
    [value_log] of as many rows of the stream's array of the channel, from the
    first on, provided the ledger counts as many rows for the stream as its
    [time] array has and the channel's array has at least as many. *)
Theorem stitch_one_stream s ch stream link ga d dt :
  channel_links s !! ch = Some link ->
  stream_groups s !! stream = Some (GroupAt ga) ->
  store s !! (ga ++ ["time"]) = Some (HDataset dt) ->
  store s !! (ga ++ [ch]) = Some (HDataset d) ->
  ds_rowshape dt = [] ->
  ledger_rows stream (stream_counter s) = length (ds_rows dt) ->
  (length (ds_rows dt) <= length (ds_rows d))%nat ->
  has_member (store s) link "value_log" = false ->
  has_member (store s) link "timestamps" = false ->
  exists s',
    stitch_channel s (ch, [stream]) = Ok s' /\
    view s' link "value_log"
      = Some (map Some (take (length (ds_rows dt)) (ds_rows d))) /\
    view s' link "timestamps" = Some (map Some (ds_rows dt)).
Proof.
  intros Hlink Hgroup Htime Hch Hshape Hledger Hlen Hfree1 Hfree2.
  set (n := length (ds_rows dt)) in *.
  set (g := mkgathered n (Some d) [(stream, (ga ++ [ch], d))]
                       [(stream, (ga ++ ["time"], dt))]).
  assert (Hgather : foldM (gather_stream s ch) [stream] (mkgathered 0 None [] [])
                    = Ok g).
  { simpl. unfold gather_stream, getmap, get_member. rewrite Hgroup. cbn.
    rewrite Htime. cbn. rewrite Hch. cbn. reflexivity. }
  destruct (replay_ok stream (ga ++ [ch]) (ga ++ ["time"]) d dt n g
              eq_refl eq_refl Hlen (Nat.le_refl _) Hshape (stream_counter s)
              (mkreplay (mklayout n (ds_rowshape d) []) (mklayout n [] []) 0 []) 0)
    as (r & Hreplay & Hr).
  { repeat split; apply maps_identity_nil. }
  { rewrite Hledger. simpl. lia. }
  rewrite Hledger in Hr. simpl in Hr.
  destruct Hr as (_ & _ & Hl & Hs & Hlt & Hst & Hm & Hmt).
  assert (Hne : link ++ ["timestamps"] <> link ++ ["value_log"]).
  { intros H. apply app_inv_head in H. discriminate. }
  assert (Hfree2' : has_member (<[link ++ ["value_log"] := HVirtual (r_layout r)]>
                                  (store s)) link "timestamps" = false).
  { unfold has_member in *. rewrite lookup_insert_ne by congruence. exact Hfree2. }
  unfold stitch_channel. rewrite Hlink, Hgather, rbind_ret.
  change (dataset_of g) with (Some d). cbv iota.
  change (total_length g) with n. rewrite Hreplay, rbind_ret.
  rewrite (create_free _ _ _ _ Hfree1), rbind_ret.
  rewrite (create_free _ _ _ _ Hfree2'), rbind_ret.
  assert (Hsrc : forall p o, store s !! p = Some o ->
            (<[link ++ ["timestamps"] := HVirtual (r_layout_time r)]>
               (<[link ++ ["value_log"] := HVirtual (r_layout r)]> (store s)))
            !! p = Some o).
  { intros p o Hp. unfold has_member in Hfree1, Hfree2.
    rewrite !lookup_insert_ne; [exact Hp| |]; intros <-.
    - rewrite Hp in Hfree1. rewrite bool_decide_eq_true_2 in Hfree1 by eauto.
      discriminate.
    - rewrite Hp in Hfree2. rewrite bool_decide_eq_true_2 in Hfree2 by eauto.
      discriminate. }
  eexists. split; [reflexivity|]. unfold view. simpl.
  rewrite lookup_insert_ne by congruence. rewrite !lookup_insert_eq.
  split; f_equal.
  - rewrite (read_virtual_identity _ (r_layout r) (ga ++ [ch]) d);
      rewrite ?Hl; auto.
  - rewrite (read_virtual_identity _ (r_layout_time r) (ga ++ ["time"]) dt);
      rewrite ?Hlt; auto.
    unfold n. rewrite firstn_all. reflexivity.
Qed.

End SerializerFacts.

Section SerializerWitnesses.
Import Serializer Scenarios.


Lemma fits_stream_discarded_witness :
  descriptor started_plain fits_descriptor = Ok started_plain /\
  run strict_write started_plain after_fits
    = Ok (state_after started_plain after_fits) /\
  event_page strict_write (state_after started_plain after_fits)
    (mkpage "F" [102%Z] [])
    = Ok (state_after started_plain after_fits).
Proof.
  apply (fits_stream_discarded strict_write started_plain fits_descriptor
           after_fits (state_after started_plain after_fits)
           (mkpage "F" [102%Z] [])).
  - reflexivity.
  - vm_compute. reflexivity.
  - reflexivity.
  - vm_compute. reflexivity.
  - reflexivity.
Defined.

(** After the fit descriptor and the documents that follow it, the store holds
    the one row of stream [P] and the ledger its one visit. *)
Example after_fits_state :
  exists s,
    run strict_write started_plain (Descriptor fits_descriptor :: after_fits) = Ok s /\
    stream_counter s = [("P", 1%nat)] /\
    stream_groups s !! "F" = None /\
    rows_of s data_entry "det" = Some [[CNum 2]].
Proof. evaluate. Qed.

(** The stitcher on a run of two batches of one row: the views are the two
    arrays. *)
Lemma stitch_two_single_rows :
  exists s',
    stitch_channel (state_after started_with_det two_single_rows) ("det", ["P"])
      = Ok s' /\
    view s' det_link "value_log" = Some [Some [CNum 10]; Some [CNum 20]] /\
    view s' det_link "timestamps" = Some [Some [CNum 100]; Some [CNum 101]].
Proof.
  apply (stitch_one_stream (state_after started_with_det two_single_rows)
           "det" "P" det_link data_entry
           (mkdataset [[CNum 10]; [CNum 20]] [] DNum [])
           (mkdataset [[CNum 100]; [CNum 101]] [] DNum []));
    first [vm_compute; reflexivity | simpl; lia].
Defined.

End SerializerWitnesses.
(** * Further properties *)

(** ** The resource allocator, call by call *)

Section FileManagerCalls.
Import FileManager.

Variable resolve : string -> string -> string.
Variable isfile : string -> bool.

(** The loop hands out [str] names only, and it never raises on a [str]. *)
Lemma disambiguate_str (fuel : nat) (fm : FileManager.t) :
  forall (s : string) (i : nat) (r : result pathname),
    disambiguate isfile fuel fm (PStr s) i = Some r ->
    exists s', r = Ok (PStr s').
Proof.
  induction fuel as [|fuel IH]; intros s i r; simpl;
    destruct (taken isfile fm (PStr s)); try discriminate.
  - intros [= <-]. eauto.
  - apply IH.
  - intros [= <-]. eauto.
Qed.

Lemma disambiguate_not_taken (fuel : nat) (fm : FileManager.t) (p : pathname) (i : nat) :
  taken isfile fm p = false -> disambiguate isfile fuel fm p i = Some (Ok p).
Proof. intros H. destruct fuel; simpl; rewrite H; reflexivity. Qed.



(** X3.  The name that [reserve_name] returns is the resolved path itself, as
    the [Path] object, exactly when that path is free, and this takes no turn
    of the loop.  When the path is taken (reserved, or with "new file each" on
    the name of a file), every name the call returns is a [str]. *)
Theorem reserve_name_path_iff_free (fuel : nat) (fm : FileManager.t)
    (entry_name relative_file_path : string) :
  is_absolute relative_file_path = false ->
  let wanted := PPath (resolve (directory fm) relative_file_path) in
  if taken isfile fm wanted then
    forall fm' p,
      reserve_name resolve isfile fuel fm entry_name relative_file_path
      = Some (fm', Ok p) ->
      exists s, p = PStr s
  else
    exists fm',
      reserve_name resolve isfile fuel fm entry_name relative_file_path
      = Some (fm', Ok wanted).
Proof.
  intros Habs wanted. unfold reserve_name. rewrite Habs. fold wanted.
  destruct (taken isfile fm wanted) eqn:Htaken.
  - intros fm' p.
    destruct (disambiguate _ _ _ _ _) as [[q|e']|] eqn:Hloop; try discriminate.
    intros [= <- <-].
    destruct (negb _); apply disambiguate_str in Hloop as (s' & [= ->]); eauto.
  - rewrite (disambiguate_not_taken _ _ _ _ Htaken). eauto.
Qed.

End FileManagerCalls.

Section FileManagerCallsWitnesses.
Import FileManager.



Lemma reserve_name_path_iff_free_witness :
  exists fm',
    reserve_name join no_files 0 (init "/d" true) "run" "f.nxs"
    = Some (fm', Ok (PPath "/d/f.nxs")).
Proof.
  apply (reserve_name_path_iff_free join no_files 0 (init "/d" true) "run" "f.nxs").
  reflexivity.
Defined.

(** A path that is reserved comes back as a [str]. *)
Example reserved_path_comes_back_as_str :
  forall fm' p,
    reserve_name join no_files 4
      (mk "/d" {[PPath "/d/f.nxs"]} {["run" := [PPath "/d/f.nxs"]]} true)
      "run" "f.nxs" = Some (fm', Ok p) ->
    p = PStr "/d/f_run.nxs".
Proof. intros fm' p H. vm_compute in H. congruence. Qed.

End FileManagerCallsWitnesses.
(** ** Declaring streams *)

Section DescriptorFacts.
Import Serializer.


(** X5.  After a descriptor of a stream that gets a group of its own (its name
    is not [primary], not that of the live metadata and not that of a fit
    stream), a second descriptor of the same name is refused, by the store
    ([H5Error]: the group exists) and not by the test of [descriptor], unless
    the name is also the uid of a stream. *)
Theorem repeated_stream_name_refused_by_store (s s' : state)
    (doc doc' : descriptor_doc) :
  descriptor s doc = Ok s' ->
  d_name doc' = d_name doc ->
  PyStr.contains (d_name doc) "_fits_readying_" = false ->
  String.eqb (d_name doc) "primary" = false ->
  String.eqb (d_name doc) "_live_metadata_reading_" = false ->
  stream_groups s' !! d_name doc = None ->
  descriptor s' doc' = Raise H5Error.
Proof.
  intros H Hname Hfits Hprimary Hlive Hfree. unfold descriptor in *.
  rewrite Hname, Hfits, Hprimary, Hlive in *. rewrite Hfree.
  rewrite bool_decide_eq_false_2 by (intros [x Hx]; discriminate).
  destruct (bool_decide _); [discriminate|].
  apply rbind_ok in H as (st & Hcreate & H). injection H as <-. simpl.
  unfold create in Hcreate. destruct (has_member (store s) _ _); [discriminate|].
  injection Hcreate as <-. unfold create, has_member.
  rewrite lookup_insert_eq, bool_decide_eq_true_2 by eauto. reflexivity.
Qed.

End DescriptorFacts.

Section DescriptorWitnesses.
Import Serializer Scenarios.

Lemma repeated_stream_name_refused_by_store_witness :
  descriptor
    (state_after started_plain [Descriptor (mkdescriptor "P" "second" [("temp", [])])])
    (mkdescriptor "Q" "second" [("temp", [])])
  = Raise H5Error.
Proof.
  apply (repeated_stream_name_refused_by_store started_plain _
           (mkdescriptor "P" "second" [("temp", [])])
           (mkdescriptor "Q" "second" [("temp", [])]));
    vm_compute; reflexivity.
Defined.

End DescriptorWitnesses.
(** ** The ledger and the channel registry over runs *)

Section LedgerRuns.
Import Serializer.

Variable wm : dataset -> ndarray -> result dataset.

Lemma count_visit_counts s uid s' :
  count_visit s uid = Ok s' ->
  ledger_total (stream_counter s') = S (ledger_total (stream_counter s)) /\
  (Forall (fun e => (1 <= snd e)%nat) (stream_counter s) ->
   Forall (fun e => (1 <= snd e)%nat) (stream_counter s')).
Proof.
  unfold count_visit. destruct (bool_decide _).
  - intros [= <-]. simpl. rewrite ledger_total_app. unfold ledger_total. simpl.
    split; [lia|]. intros H. apply Forall_app. split; [exact H|].
    constructor; [simpl; lia|constructor].
  - intros H. apply rbind_ok in H as (c & Hc & H). injection H as <-. simpl.
    destruct (bump_last_ok _ _ Hc) as (pre & stream & n & -> & ->).
    rewrite !ledger_total_app. unfold ledger_total. simpl. split; [lia|].
    intros H. apply Forall_app in H as [Hpre _]. apply Forall_app.
    split; [exact Hpre|]. constructor; [simpl; lia|constructor].
Qed.

(** What a batch does to the ledger: nothing, or one visit. *)
Lemma event_page_counter s doc s' :
  event_page wm s doc = Ok s' ->
  if counted s doc
  then exists s1, count_visit s (p_descriptor doc) = Ok s1 /\
                  stream_counter s' = stream_counter s1
  else stream_counter s' = stream_counter s.
Proof.
  unfold event_page, counted.
  destruct (stream_groups s !! p_descriptor doc) as [[|g]|].
  - intros H. apply live_metadata_only, only_store_printed_control in H.
    apply H.
  - intros H. apply rbind_ok in H as (s1 & H1 & H).
    destruct (p_time doc) as [|t ts]; [discriminate|].
    apply rbind_ok in H as (s2 & H2 & H).
    exists s1. split; [exact H1|].
    apply record_time_only, only_store_printed_control in H2.
    apply channel_steps_control in H.
    destruct H2 as (_ & _ & _ & _ & _ & _ & <- & _).
    apply H.
  - intros [= <-]. reflexivity.
Qed.

Lemma handle_document_positive s d s' :
  handle_document wm s d = Ok s' ->
  Forall (fun e => (1 <= snd e)%nat) (stream_counter s) ->
  Forall (fun e => (1 <= snd e)%nat) (stream_counter s').
Proof.
  destruct d as [doc|doc|t]; simpl; intros H Hpos.
  - destruct (descriptor_keeps _ _ _ H) as (-> & _). exact Hpos.
  - apply event_page_counter in H. destruct (counted s doc).
    + destruct H as (s1 & H1 & ->). apply (count_visit_counts _ _ _ H1), Hpos.
    + rewrite H. exact Hpos.
  - apply stop_control in H as (_ & _ & _ & _ & _ & _ & -> & _). exact Hpos.
Qed.

(** X6.  In the state that a run reaches from the state after [start], the
    ledger is consistent: no two consecutive entries name the same stream,
    [_current_stream] is the stream of the last entry (and [None] when there
    is none), and every entry counts at least one batch. *)
Theorem run_keeps_ledger_consistent (time : Z)
    (channels : list (string * (path * metadata))) (docs : list document)
    (s' : state) :
  run wm (after_start time channels) docs = Ok s' ->
  no_adjacent (stream_counter s') /\
  current_stream s' = fst <$> last (stream_counter s') /\
  Forall (fun e => (1 <= snd e)%nat) (stream_counter s').
Proof.
  intros Hrun.
  destruct (run_ledger_wf wm docs _ _ Hrun (after_start_ledger_wf time channels))
    as [Hadj Hcur].
  split; [exact Hadj|]. split; [exact Hcur|].
  assert (Hpos : Forall (fun e => (1 <= snd e)%nat)
                        (stream_counter (after_start time channels)))
    by constructor.
  revert Hrun Hpos. generalize (after_start time channels). unfold run.
  induction docs as [|d docs IH]; intros s; simpl.
  - intros [= <-]. tauto.
  - intros H Hpos. apply rbind_ok in H as (s1 & H1 & H).
    apply (IH _ H). eapply handle_document_positive; eassumption.
Qed.


(** An entry of the registry stays as it is when a channel is recorded. *)
Lemma get_key_app_some {A} (k : string) (l1 l2 : list (string * A)) (v : A) :
  get_key k l1 = Some v -> get_key k (l1 ++ l2) = Some v.
Proof.
  induction l1 as [|[k' v'] l1 IH]; simpl; [discriminate|].
  destruct (String.eqb k k'); auto.
Qed.

Lemma record_channel_keeps c key uid k l :
  get_key k c = Some l -> get_key k (record_channel c key uid) = Some l.
Proof.
  unfold record_channel. destruct (has_key key c); [auto|apply get_key_app_some].
Qed.

Lemma handle_document_registry s d s' k l :
  handle_document wm s d = Ok s' ->
  get_key k (channels_in_streams s) = Some l ->
  get_key k (channels_in_streams s') = Some l.
Proof.
  destruct d as [doc|doc|t]; simpl; intros H Hk.
  - destruct (descriptor_keeps _ _ _ H) as (_ & _ & ->). exact Hk.
  - revert H. unfold event_page.
    destruct (stream_groups s !! p_descriptor doc) as [[|g]|].
    + intros H. apply live_metadata_only, only_store_printed_channels in H.
      rewrite H. exact Hk.
    + intros H. apply rbind_ok in H as (s1 & H1 & H).
      destruct (p_time doc) as [|t ts]; [discriminate|].
      apply rbind_ok in H as (s2 & H2 & H).
      apply record_time_only, only_store_printed_channels in H2.
      destruct (count_visit_keeps _ _ _ H1) as (_ & _ & E1).
      assert (Hk2 : get_key k (channels_in_streams s2) = Some l) by congruence.
      clear -H Hk2. revert s2 H Hk2.
      induction (p_data doc) as [|[key col] items IH]; intros s2; simpl.
      * intros [= <-]. tauto.
      * intros H Hk2. apply rbind_ok in H as (s3 & H3 & H).
        apply (IH _ H).
        apply channel_step_only, only_store_printed_channels in H3.
        rewrite H3. destruct s2. simpl. apply record_channel_keeps, Hk2.
    + intros [= <-]. exact Hk.
  - apply stop_only, only_store_printed_channels in H. rewrite H. exact Hk.
Qed.

(** X8.  Over a run the registry of channels keeps the first stream of every
    channel and nothing else: an entry, once made, stays as it is, and when
    every entry held one stream before the run, every entry holds one stream
    after it. *)
Theorem registry_first_stream_only (docs : list document) (s s' : state) :
  run wm s docs = Ok s' ->
  (forall key l,
     get_key key (channels_in_streams s) = Some l ->
     get_key key (channels_in_streams s') = Some l) /\
  (one_stream_each (channels_in_streams s) ->
   one_stream_each (channels_in_streams s')).
Proof.
  intros Hrun. split; [|apply (run_registry_one_stream wm docs _ _ Hrun)].
  revert s Hrun. unfold run. induction docs as [|d docs IH]; intros s; simpl.
  - intros [= <-]. tauto.
  - intros H key l Hk. apply rbind_ok in H as (s1 & H1 & H).
    apply (IH _ H). eapply handle_document_registry; eassumption.
Qed.

End LedgerRuns.

Section LedgerRunsWitnesses.
Import Serializer Scenarios.

Lemma run_keeps_ledger_consistent_witness :
  let s' := state_after started_with_det interleaved in
  no_adjacent (stream_counter s') /\
  current_stream s' = fst <$> last (stream_counter s') /\
  Forall (fun e => (1 <= snd e)%nat) (stream_counter s').
Proof.
  apply (run_keeps_ledger_consistent strict_write 100 [("det", (det_link, []))]
           interleaved).
  vm_compute. reflexivity.
Defined.


Lemma registry_first_stream_only_witness :
  let s' := state_after started_with_det interleaved in
  (forall key l,
     get_key key (channels_in_streams started_with_det) = Some l ->
     get_key key (channels_in_streams s') = Some l) /\
  (one_stream_each (channels_in_streams started_with_det) ->
   one_stream_each (channels_in_streams s')).
Proof.
  apply (registry_first_stream_only strict_write interleaved started_with_det).
  vm_compute. reflexivity.
Defined.

End LedgerRunsWitnesses.
(** ** What a batch writes *)

Section BatchFacts.
Import Serializer.

Variable wm : dataset -> ndarray -> result dataset.



(** The first steps of [event_page] for a stream that has a group. *)
Lemma event_page_steps s uid g ts data s' :
  stream_groups s !! uid = Some (GroupAt g) ->
  event_page wm s (mkpage uid ts data) = Ok s' ->
  exists s1 t ts' s2,
    count_visit s uid = Ok s1 /\ ts = t :: ts' /\
    record_time wm s1 g t = Ok s2 /\
    foldM (channel_step wm uid g) data s2 = Ok s'.
Proof.
  intros Hg. unfold event_page. simpl. rewrite Hg. intros H.
  apply rbind_ok in H as (s1 & H1 & H).
  destruct ts as [|t ts']; [discriminate|].
  apply rbind_ok in H as (s2 & H2 & H).
  exists s1, t, ts', s2. repeat split; assumption.
Qed.



Lemma get_set_key_other {A} (k k' : string) (v : A) (l : list (string * A)) :
  k <> k' -> get_key k (set_key k' v l) = get_key k l.
Proof.
  intros Hk. apply String.eqb_neq in Hk.
  induction l as [|[k0 v0] l IH]; simpl.
  - rewrite Hk. reflexivity.
  - destruct (String.eqb k' k0) eqn:E; simpl.
    + apply String.eqb_eq in E. subst k0. rewrite Hk. reflexivity.
    + rewrite IH. reflexivity.
Qed.



(** X12.  A batch of a stream that has a group adds one entry to the arrays
    [time] and [ElapsedTime] of the group, whatever the number of its rows is:
    the first time stamp of the batch, and that time stamp less the start
    time.  (The batch has no column of these names, and the arrays, when the
    group has them, hold scalars.) *)
Theorem event_page_records_first_time (s s' : state) (uid : string) (g : path)
    (ts : list Z) (data : list (string * column)) :
  stream_groups s !! uid = Some (GroupAt g) ->
  event_page wm s (mkpage uid ts data) = Ok s' ->
  existsb (String.eqb "time") (map fst data) = false ->
  existsb (String.eqb "ElapsedTime") (map fst data) = false ->
  (forall o, store s !! (g ++ ["time"]) = Some o ->
     exists dt de,
       o = HDataset dt /\ ds_rowshape dt = [] /\ ds_dtype dt = DNum /\
       store s !! (g ++ ["ElapsedTime"]) = Some (HDataset de) /\
       ds_rowshape de = [] /\ ds_dtype de = DNum) ->
  exists t,
    head ts = Some t /\
    rows_of s' g "time" = Some (default [] (rows_of s g "time") ++ [[CNum t]]) /\
    rows_of s' g "ElapsedTime"
    = Some (default [] (rows_of s g "ElapsedTime")
            ++ [[CNum (t - start_time s)%Z]]).
Proof.
  intros Hg Hrun Htime Helapsed Hscalar.
  destruct (event_page_steps _ _ _ _ _ _ Hg Hrun)
    as (s1 & t & ts' & s2 & H1 & -> & H2 & H).
  exists t. split; [reflexivity|].
  unfold rows_of.
  rewrite (channel_steps_keep _ _ _ _ _ _ _ H Htime),
          (channel_steps_keep _ _ _ _ _ _ _ H Helapsed).
  destruct (count_visit_keeps _ _ _ H1) as ((_ & _ & _ & Est & _) & E1 & _).
  unfold record_time, has_member in H2. rewrite E1, Est in H2.
  destruct (store s !! (g ++ ["time"])) as [o|] eqn:Ho.
  - destruct (Hscalar o eq_refl) as (dt & de & -> & Hs & Hd & He & Hse & Hde).
    rewrite bool_decide_eq_true_2 in H2 by eauto. simpl in H2.
    unfold append_time, get_member in H2. rewrite Ho in H2. cbn in H2.
    unfold append_rows in H2.
    rewrite decide_True in H2
      by (simpl; repeat split; [symmetry; exact Hs|symmetry; exact Hd|discriminate]).
    cbn in H2.
    assert (Hne : g ++ ["ElapsedTime"] <> g ++ ["time"]).
    { intros E. apply app_inv_head in E. discriminate. }
    rewrite lookup_insert_ne in H2 by congruence. rewrite He in H2. cbn in H2.
    unfold append_rows in H2.
    rewrite decide_True in H2
      by (simpl; repeat split; [symmetry; exact Hse|symmetry; exact Hde|discriminate]).
    cbn in H2. injection H2 as <-. simpl.
    rewrite lookup_insert_eq, lookup_insert_ne, lookup_insert_eq by congruence.
    rewrite He. split; reflexivity.
  - rewrite bool_decide_eq_false_2 in H2 by (intros [x Hx]; discriminate).
    simpl in H2. apply rbind_ok in H2 as (st & Hc & H2). injection H2 as <-.
    unfold create, has_member in Hc.
    assert (Hne : g ++ ["ElapsedTime"] <> g ++ ["time"]).
    { intros E. apply app_inv_head in E. discriminate. }
    rewrite lookup_insert_ne in Hc by congruence.
    destruct (store s !! (g ++ ["ElapsedTime"])) as [o|] eqn:He.
    { rewrite bool_decide_eq_true_2 in Hc by eauto. discriminate. }
    rewrite bool_decide_eq_false_2 in Hc by (intros [x Hx]; discriminate).
    injection Hc as <-. simpl.
    rewrite lookup_insert_eq, lookup_insert_ne, lookup_insert_eq by congruence.
    split; reflexivity.
Qed.

End BatchFacts.
(** ** What [stop] and the live metadata add *)

Section StoreGrows.
Import Serializer.

Variable wm : dataset -> ndarray -> result dataset.

Lemma create_adds st g name o st' :
  create st g name o = Ok st' ->
  st' !! (g ++ [name]) = Some o /\
  forall p x, st !! p = Some x -> st' !! p = Some x.
Proof.
  unfold create, has_member.
  destruct (st !! (g ++ [name])) as [y|] eqn:E.
  { rewrite bool_decide_eq_true_2 by eauto. discriminate. }
  rewrite bool_decide_eq_false_2 by (intros [y Hy]; discriminate).
  intros [= <-]. split; [apply lookup_insert_eq|].
  intros p x Hp. rewrite lookup_insert_ne; [exact Hp|]. congruence.
Qed.

Lemma create_taken st g name o x :
  st !! (g ++ [name]) = Some x -> create st g name o = Raise H5Error.
Proof.
  intros H. unfold create, has_member.
  rewrite H, bool_decide_eq_true_2 by eauto. reflexivity.
Qed.



Lemma live_fields_add fields :
  forall s s',
    foldM (fun s field =>
             st ← create (store s) measurement_details (fst field)
                         (HField (snd field));
             Ok (with_store s st)) fields s = Ok s' ->
    forall p x, store s !! p = Some x -> store s' !! p = Some x.
Proof.
  induction fields as [|field fields IH]; intros s s'; simpl.
  - intros [= <-]. tauto.
  - intros H p x Hp. apply rbind_ok in H as (s1 & H1 & H).
    apply (IH _ _ H). apply rbind_ok in H1 as (st & Hc & H1).
    injection H1 as <-. simpl. apply (proj2 (create_adds _ _ _ _ _ Hc)), Hp.
Qed.

(** X15.  The fields of a live metadata record are written once: after a batch
    of the live metadata stream whose first record has a field, the same batch
    makes [event_page] raise, since [measurement_details] has the field. *)
Theorem second_live_batch_raises (s s' : state) (doc : event_page_doc)
    (first : list (string * value)) (more : list (list (string * value))) :
  stream_groups s !! p_descriptor doc = Some Live ->
  get_key "live_metadata" (p_data doc) = Some (ColTuples (first :: more)) ->
  first <> [] ->
  event_page wm s doc = Ok s' ->
  event_page wm s' doc = Raise H5Error.
Proof.
  intros Hlive Hcol Hfirst Hrun.
  assert (Hg : stream_groups s' = stream_groups s)
    by apply (event_page_streams _ _ _ _ Hrun).
  unfold event_page in *. rewrite Hg, Hlive in *.
  unfold live_metadata, getitem in *. rewrite Hcol in *.
  destruct (store s !! measurement_details) as [o|] eqn:Hmd; [|discriminate].
  cbn in Hrun.
  rewrite (live_fields_add _ _ _ Hrun _ _ Hmd). cbn.
  destruct first as [|[f0 v0] rest]; [contradiction|].
  rewrite foldM_cons in Hrun. apply rbind_ok in Hrun as (s1 & H1 & Hrest).
  apply rbind_ok in H1 as (st & Hc & H1). injection H1 as <-.
  pose proof (live_fields_add _ _ _ Hrest _ _ (proj1 (create_adds _ _ _ _ _ Hc)))
    as Hf0.
  rewrite foldM_cons. cbn [fst snd].
  rewrite (create_taken _ _ _ _ _ Hf0). reflexivity.
Qed.

End StoreGrows.
Section BatchWitnesses.
Import Serializer Scenarios.

Open Scope Z_scope.



Lemma event_page_records_first_time_witness :
  exists t,
    head [103; 104] = Some t /\
    rows_of (state_after temp_written [EventPage temp_page2]) data_entry "time"
    = Some (default [] (rows_of temp_written data_entry "time") ++ [[CNum t]]) /\
    rows_of (state_after temp_written [EventPage temp_page2]) data_entry "ElapsedTime"
    = Some (default [] (rows_of temp_written data_entry "ElapsedTime")
            ++ [[CNum (t - start_time temp_written)]]).
Proof.
  apply (event_page_records_first_time strict_write temp_written
           (state_after temp_written [EventPage temp_page2]) "P" data_entry
           [103; 104] (p_data temp_page2));
    try (vm_compute; reflexivity).
  intros o Ho. vm_compute in Ho. injection Ho as <-.
  exists (mkdataset [[CNum 100]] [] DNum []), (mkdataset [[CNum 0]] [] DNum []).
  repeat split; vm_compute; reflexivity.
Defined.

Lemma empty_column_raises_witness :
  is_ok (event_page strict_write declared_state no_row_page) = false.
Proof.
  apply (empty_column_raises strict_write declared_state no_row_page data_entry
           "img" (mkarray [] [3] DNum)).
  - vm_compute. reflexivity.
  - left. reflexivity.
  - reflexivity.
Defined.


Lemma second_live_batch_raises_witness :
  event_page strict_write (state_after live_declared [EventPage live_page]) live_page
  = Raise H5Error.
Proof.
  apply (second_live_batch_raises strict_write live_declared
           (state_after live_declared [EventPage live_page]) live_page
           [("field_strength", mkvalue [CNum 7] [] DNum)] []).
  - vm_compute. reflexivity.
  - reflexivity.
  - discriminate.
  - vm_compute. reflexivity.
Defined.

End BatchWitnesses.
(** ** [sort_by_list] and [get_param_dict] *)

Section SortByList.

Context {A : Type}.

Implicit Types (x : Z * list A) (l rows : list (Z * list A)).

Lemma insert_row_perm x l : insert_row x l ≡ₚ x :: l.
Proof.
  induction l as [|y l IH]; simpl; [reflexivity|].
  destruct (fst x <=? fst y)%Z; [reflexivity|].
  rewrite IH. apply Permutation_swap.
Qed.

Lemma sorted_perm rows : sorted rows ≡ₚ rows.
Proof.
  induction rows as [|x rows IH]; simpl; [reflexivity|].
  rewrite insert_row_perm, IH. reflexivity.
Qed.

Lemma insert_row_sorted x l :
  StronglySorted Z.le (map fst l) -> StronglySorted Z.le (map fst (insert_row x l)).
Proof.
  induction l as [|y l IH]; simpl; intros Hl.
  - constructor; constructor.
  - apply StronglySorted_inv in Hl as [Hl Hy].
    destruct (Z.leb_spec (fst x) (fst y)); simpl.
    + constructor; [constructor; assumption|].
      constructor; [assumption|].
      eapply Forall_impl; [exact Hy|]. simpl. intros z Hz. lia.
    + constructor; [apply IH, Hl|].
      rewrite (insert_row_perm x l). simpl. constructor; [lia|exact Hy].
Qed.

Lemma sorted_sorted rows : StronglySorted Z.le (map fst (sorted rows)).
Proof.
  induction rows as [|x rows IH]; simpl; [constructor|].
  apply insert_row_sorted, IH.
Qed.

(** The sort is stable: rows of one key keep their order. *)
Lemma insert_row_stable (k : Z) x l :
  List.filter (fun r => Z.eqb (fst r) k) (insert_row x l)
  = List.filter (fun r => Z.eqb (fst r) k) (x :: l).
Proof.
  induction l as [|y l IH]; [reflexivity|].
  simpl insert_row. destruct (Z.leb_spec (fst x) (fst y)); [reflexivity|].
  simpl in *. rewrite IH.
  destruct (Z.eqb_spec (fst y) k), (Z.eqb_spec (fst x) k); try reflexivity. lia.
Qed.

Lemma sorted_stable (k : Z) rows :
  List.filter (fun r => Z.eqb (fst r) k) (sorted rows)
  = List.filter (fun r => Z.eqb (fst r) k) rows.
Proof.
  induction rows as [|x rows IH]; [reflexivity|].
  simpl sorted. rewrite insert_row_stable. simpl. rewrite IH. reflexivity.
Qed.

(** Every row of [zip] has an element of each of the other lists. *)
Lemma zip_rows_width (sort_list : list Z) :
  forall other_lists : list (list A),
    Forall (fun r => length (snd r) = length other_lists)
           (zip_rows sort_list other_lists).
Proof.
  induction sort_list as [|k ks IH]; intros ols; simpl; [constructor|].
  destruct (mapM head ols) as [row|] eqn:Hrow; [|constructor].
  constructor.
  - simpl. symmetry. eapply length_mapM, Hrow.
  - specialize (IH (map tail ols)). rewrite length_map in IH. exact IH.
Qed.

(** Turning rows of one width into columns, and back. *)
Lemma heads_of_rows (n : nat) (R : list (list A)) :
  Forall (fun r => length r = S n) R ->
  mapM head R = Some (omap head R) /\
  Forall (fun r => length r = n) (map tail R).
Proof.
  induction 1 as [|r R Hr _ [IH1 IH2]]; [split; [reflexivity|constructor]|].
  destruct r as [|a r]; [discriminate|]. cbn. simpl in IH1. rewrite IH1. cbn.
  split; [reflexivity|]. constructor; [simpl in *; lia|exact IH2].
Qed.

Lemma columns_cons (n : nat) :
  forall (r : list A) (R : list (list A)),
    length r = n -> Forall (fun r => length r = n) R ->
    columns n (r :: R) = zip_with cons r (columns n R).
Proof.
  induction n as [|n IH]; intros r R Hr HR.
  - destruct r; [reflexivity|discriminate].
  - destruct r as [|a r]; [discriminate|].
    destruct (heads_of_rows n R HR) as [Hheads Htails].
    simpl columns. cbn. simpl in Hheads. rewrite Hheads. cbn.
    rewrite (IH r (map tail R)); [reflexivity| |exact Htails].
    simpl in Hr. lia.
Qed.

Lemma columns_length (n : nat) :
  forall R : list (list A),
    Forall (fun r => length r = n) R -> length (columns n R) = n.
Proof.
  induction n as [|n IH]; intros R HR; [reflexivity|].
  destruct (heads_of_rows n R HR) as [Hheads Htails].
  simpl. simpl in Hheads. rewrite Hheads. simpl. rewrite (IH _ Htails). reflexivity.
Qed.

Lemma zip_rows_cons (k : Z) (ks : list Z) (r : list A) :
  forall C : list (list A),
    length C = length r ->
    zip_rows (k :: ks) (zip_with cons r C) = (k, r) :: zip_rows ks C.
Proof.
  intros C HC.
  assert (H : mapM head (zip_with cons r C) = Some r /\
              map tail (zip_with cons r C) = C).
  { revert C HC. induction r as [|a r IH]; intros [|c C] HC; try discriminate.
    - split; reflexivity.
    - destruct (IH C) as [H1 H2]; [simpl in HC; lia|].
      cbn. simpl in H1. rewrite H1. cbn. rewrite H2. split; reflexivity. }
  destruct H as [H1 H2]. simpl. simpl in H1. rewrite H1, H2. reflexivity.
Qed.

Lemma zip_rows_columns (n : nat) rows :
  Forall (fun r => length (snd r) = n) rows ->
  zip_rows (map fst rows) (columns n (map snd rows)) = rows.
Proof.
  induction 1 as [|[k r] rows Hr Hrows IH]; [reflexivity|].
  simpl in Hr. simpl map.
  assert (HR : Forall (fun r => length r = n) (map snd rows)).
  { apply Forall_forall. intros c Hc. apply list_elem_of_fmap in Hc as (y & -> & Hy).
    eapply Forall_forall in Hrows; eassumption. }
  rewrite (columns_cons n r _ Hr HR).
  rewrite zip_rows_cons by (rewrite columns_length; auto).
  rewrite IH. reflexivity.
Qed.

(** X16.  When [sort_by_list] yields columns, the keys come in ascending order
    and every element of the other lists has moved with its key: the rows of
    the result are the rows of the arguments in another order, and rows of
    the same key keep the order they had. *)
Theorem sort_by_list_sorts_rows (sort_list : list Z) (other_lists : list (list A))
    (ks : list Z) (cols : list (list A)) :
  sort_by_list sort_list other_lists = Some (ks, cols) ->
  StronglySorted Z.le ks /\
  length cols = length other_lists /\
  zip_rows ks cols ≡ₚ zip_rows sort_list other_lists /\
  forall k,
    List.filter (fun r => Z.eqb (fst r) k) (zip_rows ks cols)
    = List.filter (fun r => Z.eqb (fst r) k) (zip_rows sort_list other_lists).
Proof.
  unfold sort_by_list.
  pose proof (sorted_perm (zip_rows sort_list other_lists)) as Hperm.
  pose proof (sorted_sorted (zip_rows sort_list other_lists)) as Hsorted.
  pose proof (sorted_stable) as Hstable.
  specialize (fun k => Hstable k (zip_rows sort_list other_lists)).
  pose proof (zip_rows_width sort_list other_lists) as Hwidth.
  rewrite <- Hperm in Hwidth.
  destruct (sorted (zip_rows sort_list other_lists)) as [|[k0 row0] s_list] eqn:E;
    [discriminate|].
  intros [= <- <-].
  assert (Hn : length row0 = length other_lists).
  { apply Forall_cons in Hwidth as [H _]. exact H. }
  change (zip_rows (k0 :: map fst s_list)
            (columns (length row0) (row0 :: map snd s_list)))
    with (zip_rows (map fst ((k0, row0) :: s_list))
            (columns (length row0) (map snd ((k0, row0) :: s_list)))).
  change (row0 :: map snd s_list) with (map snd ((k0, row0) :: s_list)).
  rewrite Hn, (zip_rows_columns _ _ Hwidth).
  split; [exact Hsorted|]. split; [|split; [exact Hperm|exact Hstable]].
  apply columns_length. apply Forall_forall. intros c Hc.
  apply list_elem_of_fmap in Hc as (y & -> & Hy).
  eapply Forall_forall in Hwidth; eassumption.
Qed.

(** X17.  [sort_by_list] yields nothing at all, not even a column of keys,
    exactly when there is no key or one of the other lists is empty. *)
Theorem sort_by_list_nothing_iff (sort_list : list Z) (other_lists : list (list A)) :
  sort_by_list sort_list other_lists = None <->
  sort_list = [] \/ [] ∈ other_lists.
Proof.
  unfold sort_by_list.
  pose proof (sorted_perm (zip_rows sort_list other_lists)) as Hperm.
  assert (Hzip : zip_rows sort_list other_lists = [] <->
                 sort_list = [] \/ [] ∈ other_lists).
  { destruct sort_list as [|k ks]; simpl; [tauto|].
    destruct (mapM head other_lists) as [row|] eqn:Hrow.
    - split; [discriminate|]. intros [|Hin]; [discriminate|].
      apply mapM_Some_1 in Hrow.
      apply list_elem_of_lookup in Hin as [i Hi].
      destruct (Forall2_lookup_l _ _ _ _ _ Hrow Hi) as (y & _ & Hy). discriminate.
    - split; [|reflexivity]. intros _. right.
      apply mapM_None_1, Exists_exists in Hrow as (l & Hin & Hl).
      destruct l; [exact Hin|discriminate]. }
  rewrite <- Hzip.
  destruct (sorted (zip_rows sort_list other_lists)) as [|[k0 row0] s_list].
  - apply Permutation_nil_l in Hperm. rewrite <- Hperm || rewrite Hperm. tauto.
  - split; [discriminate|]. intros Hnil. rewrite Hnil in Hperm.
    apply Permutation_nil_r in Hperm. discriminate.
Qed.

End SortByList.

Lemma sort_by_list_sorts_rows_witness :
  let sort_list := [3; 1; 2; 1]%Z in
  let other_lists := [["c"; "a"; "b"; "d"]; ["w"; "x"; "y"; "z"]] in
  let ks := [1; 1; 2; 3]%Z in
  let cols := [["a"; "d"; "b"; "c"]; ["x"; "z"; "y"; "w"]] in
  StronglySorted Z.le ks /\
  length cols = length other_lists /\
  zip_rows ks cols ≡ₚ zip_rows sort_list other_lists /\
  forall k,
    List.filter (fun r => Z.eqb (fst r) k) (zip_rows ks cols)
    = List.filter (fun r => Z.eqb (fst r) k) (zip_rows sort_list other_lists).
Proof.
  intros sort_list other_lists ks cols.
  apply (sort_by_list_sorts_rows sort_list other_lists ks cols). reflexivity.
Defined.

(** A fit with one result: the columns hold one element each. *)
Example sort_by_list_single :
  sort_by_list [5%Z] [["covar"]; ["params"]] = Some ([5%Z], [["covar"]; ["params"]]).
Proof. reflexivity. Qed.

Section GetParamDict.

Lemma get_key_snoc {V} (k k' : string) (v : V) (l : list (string * V)) :
  get_key k (l ++ [(k', v)])
  = match get_key k l with
    | Some x => Some x
    | None => if String.eqb k k' then Some v else None
    end.
Proof.
  induction l as [|[k0 v0] l IH]; simpl; [reflexivity|].
  destruct (String.eqb k k0); [reflexivity|exact IH].
Qed.

Lemma get_key_set_key {V} (k k' : string) (v : V) (l : list (string * V)) :
  get_key k (set_key k' v l) = if String.eqb k k' then Some v else get_key k l.
Proof.
  destruct (String.eqb_spec k k') as [->|Hne].
  - apply get_set_key.
  - apply get_set_key_other, Hne.
Qed.

(** What the loops of [get_param_dict] have gathered for [k] from a state
    [p_s] on. *)
Lemma get_param_dict_from (k : string) (param_values : list (list (string * Z))) :
  forall p_s : list (string * list Z),
    get_key k
      (fold_left
         (fun p_s vals =>
            fold_left
              (fun p_s kv =>
                 match get_key (fst kv) p_s with
                 | Some l => set_key (fst kv) (l ++ [snd kv]) p_s
                 | None => p_s ++ [(fst kv, [snd kv])]
                 end) vals p_s)
         param_values p_s)
    = match get_key k p_s, values_of k param_values with
      | Some l, vs => Some (l ++ vs)
      | None, [] => None
      | None, vs => Some vs
      end.
Proof.
  induction param_values as [|vals pvs IH]; intros p_s; simpl.
  { destruct (get_key k p_s); [rewrite app_nil_r|]; reflexivity. }
  rewrite IH. clear IH. unfold values_of. simpl. fold (values_of k pvs).
  generalize (values_of k pvs). intros rest. revert p_s.
  induction vals as [|[k' v] vals IHv]; intros p_s; simpl; [reflexivity|].
  rewrite IHv. clear IHv.
  destruct (get_key k' p_s) as [l'|] eqn:Hk'.
  - rewrite get_key_set_key.
    destruct (String.eqb_spec k k') as [->|Hne]; simpl.
    + rewrite Hk', <- app_assoc. reflexivity.
    + reflexivity.
  - rewrite get_key_snoc.
    destruct (String.eqb_spec k k') as [->|Hne]; simpl.
    + rewrite Hk'. reflexivity.
    + destruct (get_key k p_s); reflexivity.
Qed.

(** X18.  [get_param_dict] maps a name to the values that the parameter sets
    hold under it, in the order of the sets; a name that no set holds is not
    a key of the result. *)
Theorem get_param_dict_collects (param_values : list (list (string * Z)))
    (k : string) :
  get_key k (get_param_dict param_values)
  = match values_of k param_values with
    | [] => None
    | vs => Some vs
    end.
Proof. unfold get_param_dict. rewrite get_param_dict_from. reflexivity. Qed.

End GetParamDict.
(** ** The files of the manager *)

Section FilesFacts.
Import FileManager Files.

Variable world : Type.
Variable handle : Type.
Variable resolve : string -> string -> string.
Variable isfile : world -> string -> bool.
Variable makedirs : world -> string -> world * option exn.
Variable h5_file : world -> string -> string -> world * result handle.
Variable h5_close : world -> handle -> world.

Lemma set_file_new (p : pathname) (f : handle) (l : list (pathname * handle)) :
  p ∉ map fst l -> set_file p f l = l ++ [(p, f)].
Proof.
  induction l as [|[q g] l IH]; simpl; intros Hp; [reflexivity|].
  apply not_elem_of_cons in Hp as [Hne Hp].
  rewrite decide_False by exact Hne. rewrite IH by exact Hp. reflexivity.
Qed.

(** What one call of [open] does to [_files], when every name of [_files] is
    reserved: a call that returns adds the file it returns, under a name that
    was free, and a call that raises adds nothing. *)
Lemma open_files (fuel : nat) (w w' : world) (m m' : manager handle)
    (relative_file_path entry_name mode : string) (r : result handle) :
  open resolve isfile makedirs h5_file fuel w m relative_file_path entry_name mode
  = Some (w', m', r) ->
  (forall p, p ∈ map fst (files m) -> p ∈ reserved_names (names m)) ->
  (forall p, p ∈ map fst (files m') -> p ∈ reserved_names (names m')) /\
  map snd (files m') = map snd (files m) ++ returned [r].
Proof.
  unfold open. intros H Hinv.
  destruct (reserve_name _ _ _ _ _ _) as [[fm [p|e]]|] eqn:Hres; [| |discriminate].
  - destruct (reserve_name_returns _ _ _ _ _ _ _ _ Hres) as (Hfree & Hreserved & _).
    assert (Hnew : p ∉ map fst (files m)).
    { intros Hin. apply Hinv in Hin. unfold taken in Hfree.
      apply orb_false_elim in Hfree as [Hfree _].
      apply bool_decide_eq_false_1 in Hfree. contradiction. }
    assert (Hkeep : forall q, q ∈ map fst (files m) -> q ∈ reserved_names fm).
    { intros q Hq. rewrite Hreserved. apply elem_of_union_r, Hinv, Hq. }
    destruct (makedirs w _) as [w1 [e|]].
    { injection H as <- <- <-. simpl. rewrite app_nil_r. split; [exact Hkeep|reflexivity]. }
    destruct (h5_file w1 _ _) as [w2 [f|e]].
    + injection H as <- <- <-. simpl. rewrite (set_file_new _ _ _ Hnew).
      rewrite !List.map_app. simpl. split; [|reflexivity].
      intros q Hq. apply elem_of_app in Hq as [Hq|Hq]; [apply Hkeep, Hq|].
      apply list_elem_of_singleton in Hq as ->. rewrite Hreserved.
      apply elem_of_union_l, elem_of_singleton. reflexivity.
    + injection H as <- <- <-. simpl. rewrite app_nil_r. split; [exact Hkeep|reflexivity].
  - injection H as <- <- <-. simpl. rewrite app_nil_r. split; [|reflexivity].
    unfold reserve_name in Hres.
    destruct (is_absolute relative_file_path); [injection Hres as <- _; exact Hinv|].
    destruct (disambiguate _ _ _ _ _) as [[q|e']|]; [discriminate| |discriminate].
    injection Hres as <- _. exact Hinv.
Qed.

Lemma open_each_files (fuel : nat) (calls : list request) :
  forall (w w' : world) (m m' : manager handle) (outcomes : list (result handle)),
    open_each resolve isfile makedirs h5_file fuel w m calls
    = Some (w', m', outcomes) ->
    (forall p, p ∈ map fst (files m) -> p ∈ reserved_names (names m)) ->
    map snd (files m') = map snd (files m) ++ returned outcomes.
Proof.
  induction calls as [|c calls IH]; intros w w' m m' outcomes; simpl.
  - intros [= <- <- <-] _. rewrite app_nil_r. reflexivity.
  - destruct (open _ _ _ _ _ _ _ _ _ _) as [[[w1 m1] r]|] eqn:Hopen; [|discriminate].
    destruct (open_each _ _ _ _ _ _ _ _) as [[[w2 m2] rs]|] eqn:Hrest; [|discriminate].
    intros [= <- <- <-] Hinv.
    destruct (open_files _ _ _ _ _ _ _ _ _ Hopen Hinv) as [Hinv1 Hfiles1].
    rewrite (IH _ _ _ _ _ Hrest Hinv1), Hfiles1, <- app_assoc.
    unfold returned. destruct r; reflexivity.
Qed.

(** X19.  [close] closes every file that the manager has opened: after calls
    of [open] on a new manager, [_files] holds the files that the calls have
    returned, each once and in the order of the calls, and [close] closes
    these.  (No file is lost in [_files], since no two calls return the same
    name.) *)
Theorem close_closes_every_file_opened (fuel : nat) (directory : string)
    (new_file_each : bool) (calls : list request) (w w' : world)
    (m' : manager handle) (outcomes : list (result handle)) :
  open_each resolve isfile makedirs h5_file fuel w
            (Files.init handle directory new_file_each) calls
  = Some (w', m', outcomes) ->
  map snd (files m') = returned outcomes /\
  close h5_close w' m' = fold_left h5_close (returned outcomes) w'.
Proof.
  intros H. apply open_each_files in H.
  - simpl in H. unfold close. rewrite H. split; reflexivity.
  - simpl. intros p Hp. apply elem_of_nil in Hp. contradiction.
Qed.

(** X20.  A call of [open] that raises for a relative path has failed after
    the name was picked: the name stays reserved and stays in the list of the
    label, although the manager holds no file of that name. *)
Theorem failed_open_keeps_name (fuel : nat) (w w' : world)
    (m m' : manager handle) (relative_file_path entry_name mode : string)
    (e : exn) :
  open resolve isfile makedirs h5_file fuel w m relative_file_path entry_name mode
  = Some (w', m', Raise e) ->
  is_absolute relative_file_path = false ->
  files m' = files m /\
  exists p,
    reserved_names (names m') = {[p]} ∪ reserved_names (names m) /\
    artifacts (names m') !! entry_name
    = Some (default [] (artifacts (names m) !! entry_name) ++ [p]).
Proof.
  unfold open. intros H Habs.
  destruct (reserve_name _ _ _ _ _ _) as [[fm [p|e']]|] eqn:Hres; [| |discriminate].
  - destruct (reserve_name_returns _ _ _ _ _ _ _ _ Hres) as (_ & Hreserved & Hart).
    destruct (makedirs w _) as [w1 [e1|]].
    { injection H as <- <- <-. simpl. split; [reflexivity|]. eauto. }
    destruct (h5_file w1 _ _) as [w2 [f|e2]]; [discriminate|].
    injection H as <- <- <-. simpl. split; [reflexivity|]. eauto.
  - unfold reserve_name in Hres. rewrite Habs in Hres.
    destruct (taken _ _ (PPath _)) eqn:Htaken in Hres.
    + destruct (disambiguate _ _ _ _ _) as [[q|e'']|] eqn:Hloop; try discriminate.
      destruct (negb _); apply disambiguate_str in Hloop as (s' & [=]).
    + rewrite (disambiguate_not_taken _ _ _ _ _ Htaken) in Hres. discriminate.
Qed.

End FilesFacts.

Section FilesWitnesses.
Import FileManager Files.

Lemma close_closes_every_file_opened_witness :
  let calls := [mkrequest "f.nxs" "run" "a"; mkrequest "/abs.nxs" "run" "a";
                mkrequest "f.nxs" "run" "a"] in
  let w' := mktoy ["/d/f.nxs"; "/d/f_run.nxs"] 2 [] in
  let m' := mkmanager
              (mk "/d" {[PPath "/d/f.nxs"; PStr "/d/f_run.nxs"]}
                  {["run" := [PPath "/d/f.nxs"; PStr "/d/f_run.nxs"]]} true)
              [(PPath "/d/f.nxs", 0%nat); (PStr "/d/f_run.nxs", 1%nat)] in
  let outcomes := [Ok 0%nat; Raise SuitcaseUtilsValueError; Ok 1%nat] in
  map snd (files m') = returned outcomes /\
  close toy_close w' m' = fold_left toy_close (returned outcomes) w'.
Proof.
  intros calls w' m' outcomes.
  apply (close_closes_every_file_opened toy_world nat join toy_isfile toy_makedirs
           toy_file toy_close 4 "/d" true calls (mktoy [] 0 []) w' m' outcomes).
  vm_compute. reflexivity.
Defined.

Lemma failed_open_keeps_name_witness :
  let w := mktoy ["/d/f.nxs"] 0 [] in
  let m := Files.init nat "/d" false in
  let m' := mkmanager (mk "/d" {[PPath "/d/f.nxs"]}
                          {["run" := [PPath "/d/f.nxs"]]} false) [] in
  files m' = files m /\
  exists p,
    reserved_names (names m') = {[p]} ∪ reserved_names (names m) /\
    artifacts (names m') !! "run"
    = Some (default [] (artifacts (names m) !! "run") ++ [p]).
Proof.
  intros w m m'.
  apply (failed_open_keeps_name toy_world nat join toy_isfile toy_makedirs toy_file
           4 w w m m' "f.nxs" "run" "x" H5Error).
  - vm_compute. reflexivity.
  - reflexivity.
Defined.

End FilesWitnesses.
(** ** The axes and the signals of the plots *)

Section PlotsFacts.
Import Serializer Plots.

Lemma add_new_NoDup (l : list string) (x : string) :
  NoDup l -> NoDup (add_new l x).
Proof.
  unfold add_new. intros Hl. destruct (bool_decide (x ∈ l)) eqn:E; [exact Hl|].
  apply bool_decide_eq_false_1 in E. apply NoDup_app. split; [exact Hl|].
  split; [|apply NoDup_singleton].
  intros y Hy Hin. apply list_elem_of_singleton in Hin as ->. contradiction.
Qed.

Lemma add_new_not_nil (l : list string) (x : string) : add_new l x <> [].
Proof.
  unfold add_new. destruct (bool_decide (x ∈ l)) eqn:E.
  - apply bool_decide_eq_true_1 in E. intros ->. apply elem_of_nil in E. exact E.
  - destruct l; discriminate.
Qed.

Lemma add_new_grows (l : list string) (x : string) : l <> [] -> add_new l x <> [].
Proof. intros _. apply add_new_not_nil. Qed.

Lemma add_all_NoDup (ys l : list string) :
  NoDup l -> NoDup (fold_left add_new ys l).
Proof.
  revert l. induction ys as [|y ys IH]; intros l Hl; simpl; [exact Hl|].
  apply IH, add_new_NoDup, Hl.
Qed.

Variable s : state.

(** The tables are in order: the streams with axes are streams of the run and
    have signals (maybe none), and nothing is listed twice. *)
Let in_order (acc : tables) : Prop :=
  (forall stream axes,
     get_key stream (stream_axes acc) = Some axes ->
     is_Some (stream_names s !! stream) /\ axes <> [] /\ NoDup axes /\
     is_Some (get_key stream (stream_signals acc))) /\
  (forall stream signals,
     get_key stream (stream_signals acc) = Some signals -> NoDup signals).

Lemma plot_step_in_order (acc acc' : tables) (p : plot) :
  plot_step s acc p = Ok acc' -> in_order acc -> in_order acc'.
Proof.
  unfold plot_step. intros Hstep [Haxes Hsignals].
  destruct (stream_names s !! stream_name p) as [uid|] eqn:Hname;
    [|injection Hstep as <-; split; assumption].
  destruct (x_name p) as [x|]; [|injection Hstep as <-; split; assumption].
  apply rbind_ok in Hstep as (h & _ & Hstep).
  apply rbind_ok in Hstep as ([axes1 signals1] & Hnew & Hstep).
  injection Hstep as <-.
  set (axes0 := default [] (get_key (stream_name p) (stream_axes acc))) in *.
  set (signals0 := default [] (get_key (stream_name p) (stream_signals acc))) in *.
  assert (Hax0 : NoDup axes0).
  { subst axes0. destruct (get_key _ (stream_axes acc)) as [a|] eqn:E;
      simpl; [apply (Haxes _ _ E)|constructor]. }
  assert (Hsg0 : NoDup signals0).
  { subst signals0. destruct (get_key _ (stream_signals acc)) as [sg|] eqn:E;
      simpl; [apply (Hsignals _ _ E)|constructor]. }
  assert (Hnew1 : axes1 <> [] /\ NoDup axes1 /\ NoDup signals1).
  { destruct (z_name p) as [z|].
    - destruct (y_name p) as [y|]; [|discriminate]. injection Hnew as <- <-.
      split; [apply add_new_grows, add_new_not_nil|].
      split; [apply add_new_NoDup, add_new_NoDup, Hax0|apply add_new_NoDup, Hsg0].
    - destruct (y_names p) as [ys|]; [|discriminate]. injection Hnew as <- <-.
      split; [apply add_new_not_nil|].
      split; [apply add_new_NoDup, Hax0|apply add_all_NoDup, Hsg0]. }
  destruct Hnew1 as (Hne & Hnd & Hnds).
  split; simpl.
  - intros stream axes. rewrite !get_key_set_key.
    destruct (String.eqb_spec stream (stream_name p)) as [->|Hother].
    + intros [= <-]. rewrite Hname. eauto.
    + apply Haxes.
  - intros stream signals. rewrite get_key_set_key.
    destruct (String.eqb_spec stream (stream_name p)) as [->|Hother].
    + intros [= <-]. exact Hnds.
    + apply Hsignals.
Qed.

(** X21.  The tables that [stop] makes of the plots: a stream has axes only
    if it is a stream of the run, and then at least one; no axis and no
    signal of a stream is listed twice, so that the signal of a stream is not
    among its auxiliary signals. *)
Theorem plot_tables_distinct (plot_data : list plot) (acc : tables) :
  foldM (plot_step s) plot_data (mktables [] []) = Ok acc ->
  forall stream axes,
    get_key stream (stream_axes acc) = Some axes ->
    is_Some (stream_names s !! stream) /\
    axes <> [] /\ NoDup axes /\
    exists signals,
      get_key stream (stream_signals acc) = Some signals /\ NoDup signals.
Proof.
  intros Hloop.
  assert (Hacc : in_order acc).
  { assert (Hstart : in_order (mktables [] []))
      by (split; intros stream l; discriminate).
    revert Hloop Hstart. generalize (mktables [] []).
    induction plot_data as [|p plots IH]; intros acc0; simpl.
    - intros [= <-]. tauto.
    - intros H Hgood. apply rbind_ok in H as (acc1 & Hstep & H).
      apply (IH _ H). eapply plot_step_in_order; eassumption. }
  destruct Hacc as [Haxes Hsignals]. intros stream axes Hget.
  destruct (Haxes _ _ Hget) as (Hname & Hne & Hnd & signals & Hsg).
  repeat split; try assumption. exists signals. split; [exact Hsg|].
  apply (Hsignals _ _ Hsg).
Qed.

End PlotsFacts.

Section PlotsStore.
Import Serializer Plots.

Lemma plot_attrs_keys (axes signals : list string) (k : string) :
  k <> "axes" -> k <> "signal" -> k <> "auxiliary_signals" ->
  forall a : list (string * attr),
    get_key k (fold_left (fun a kv => set_key (fst kv) (snd kv) a)
                         (plot_attrs axes signals) a)
    = get_key k a.
Proof.
  intros H1 H2 H3 a. unfold plot_attrs.
  destruct signals as [|first [|second rest]]; simpl;
    rewrite ?get_set_key_other by assumption; reflexivity.
Qed.

(** X22.  The plots change attributes of groups only, and of these only
    [axes], [signal] and [auxiliary_signals]: the arrays, the views and the
    fields of the store are as they were, no object is added or removed, and
    nothing but the store changes. *)
Theorem plots_change_group_attrs_only (s s' : state) (plot_data : list plot) :
  plots s plot_data = Ok s' ->
  s' = with_store s (store s') /\
  forall p,
    match store s !! p with
    | Some (HGroup a) =>
        exists a',
          store s' !! p = Some (HGroup a') /\
          forall k, k <> "axes" -> k <> "signal" -> k <> "auxiliary_signals" ->
                    get_key k a' = get_key k a
    | o => store s' !! p = o
    end.
Proof.
  unfold plots. intros H. apply rbind_ok in H as (acc & _ & H). revert H.
  apply (foldM_preserves
           (fun s1 s2 =>
              s2 = with_store s1 (store s2) /\
              forall p,
                match store s1 !! p with
                | Some (HGroup a) =>
                    exists a',
                      store s2 !! p = Some (HGroup a') /\
                      forall k, k <> "axes" -> k <> "signal" ->
                                k <> "auxiliary_signals" ->
                                get_key k a' = get_key k a
                | o => store s2 !! p = o
                end)).
  - intros b. split; [destruct b; reflexivity|]. intros p.
    destruct (store b !! p) as [[a| | | |]|]; eauto.
  - intros b1 b2 b3 [E12 K12] [E23 K23]. split.
    { rewrite E23 at 1. rewrite E12 at 1. destruct b1. reflexivity. }
    intros p. specialize (K12 p). specialize (K23 p).
    destruct (store b1 !! p) as [[a| | | |]|]; try (rewrite K12 in K23; exact K23).
    destruct K12 as (a' & Ha' & Hk). rewrite Ha' in K23.
    destruct K23 as (a'' & Ha'' & Hk'). exists a''. split; [exact Ha''|].
    intros k H1 H2 H3. rewrite Hk', Hk by assumption. reflexivity.
  - intros b [stream axes] b'. unfold annotate. intros H.
    apply rbind_ok in H as (signals & _ & H). apply rbind_ok in H as (uid & _ & H).
    apply rbind_ok in H as (h & _ & H). destruct h as [|g]; [discriminate|].
    apply rbind_ok in H as (st & Hset & H). injection H as <-.
    split; [destruct b; reflexivity|]. intros p. simpl.
    unfold set_group_attrs in Hset.
    destruct (store b !! g) as [[a| | | |]|] eqn:Hg; try discriminate.
    injection Hset as <-.
    destruct (decide (p = g)) as [->|Hp].
    + rewrite Hg, lookup_insert_eq. eexists. split; [reflexivity|].
      intros k H1 H2 H3. apply plot_attrs_keys; assumption.
    + rewrite lookup_insert_ne by congruence.
      destruct (store b !! p) as [[a0| | | |]|]; eauto.
Qed.

End PlotsStore.

Section PlotsWitnesses.
Import Serializer Scenarios Plots.

Lemma plot_tables_distinct_witness :
  let plot_data := [mkplot "primary" (Some "time") None None (Some ["temp"; "det"]);
                    mkplot "primary" (Some "time") None None (Some ["det"])] in
  is_Some (stream_names temp_written !! "primary") /\
  ["time"] <> [] /\ NoDup ["time"] /\
  exists signals,
    get_key "primary" [("primary", ["temp"; "det"])] = Some signals /\
    NoDup signals.
Proof.
  intros plot_data.
  apply (plot_tables_distinct temp_written plot_data
           (mktables [("primary", ["time"])] [("primary", ["temp"; "det"])])
           eq_refl "primary" ["time"] eq_refl).
Defined.

Lemma plots_change_group_attrs_only_witness :
  let plot_data := [mkplot "primary" (Some "time") None None (Some ["temp"; "det"])] in
  let s' := match plots temp_written plot_data with
            | Ok s' => s'
            | Raise _ => temp_written
            end in
  s' = with_store temp_written (store s') /\
  forall p,
    match store temp_written !! p with
    | Some (HGroup a) =>
        exists a',
          store s' !! p = Some (HGroup a') /\
          forall k, k <> "axes" -> k <> "signal" -> k <> "auxiliary_signals" ->
                    get_key k a' = get_key k a
    | o => store s' !! p = o
    end.
Proof.
  intros plot_data s'.
  apply (plots_change_group_attrs_only temp_written s' plot_data).
  vm_compute. reflexivity.
Defined.

(** The attributes of the data group after these plots. *)
Example plots_of_primary :
  exists s',
    plots temp_written
      [mkplot "primary" (Some "time") None None (Some ["temp"; "det"]);
       mkplot "primary" (Some "temp") (Some "time") (Some "det") None;
       mkplot "other" (Some "x") None None (Some ["y"])] = Ok s' /\
    store s' !! data_entry
    = Some (HGroup [("NX_class", AText "NXdata");
                    ("axes", ANames ["time"; "temp"]);
                    ("signal", AText "temp");
                    ("auxiliary_signals", ANames ["det"])]).
Proof. evaluate. Qed.

End PlotsWitnesses.
(** ** [clean_filename] *)

Section CleanFilename.

(** Replacing one character goes character by character. *)
Lemma replace_char_cons (c d : ascii) (new r : string) :
  PyStr.replace (String d r) (String c EmptyString) new
  = (if Ascii.eqb c d then new else String d EmptyString)
    +:+ PyStr.replace r (String c EmptyString) new.
Proof.
  unfold PyStr.replace. simpl.
  destruct (ascii_dec c d) as [->|Hne].
  - rewrite Ascii.eqb_refl. destruct r; reflexivity.
  - apply Ascii.eqb_neq in Hne. rewrite Hne. reflexivity.
Qed.

Lemma string_app_assoc (a b c : string) : (a +:+ b) +:+ c = a +:+ (b +:+ c).
Proof.
  induction a as [|x a IH]; [reflexivity|].
  change ((String x a +:+ b) +:+ c) with (String x ((a +:+ b) +:+ c)).
  rewrite IH. reflexivity.
Qed.

Lemma replace_char_app (c : ascii) (new a b : string) :
  PyStr.replace (a +:+ b) (String c EmptyString) new
  = PyStr.replace a (String c EmptyString) new
    +:+ PyStr.replace b (String c EmptyString) new.
Proof.
  induction a as [|d a IH]; [reflexivity|].
  change (String d a +:+ b) with (String d (a +:+ b)).
  rewrite !replace_char_cons, IH, string_app_assoc. reflexivity.
Qed.

(** [clean_filename] cleans a name piece by piece. *)
Lemma clean_filename_app (a b : string) :
  clean_filename (a +:+ b) = clean_filename a +:+ clean_filename b.
Proof. unfold clean_filename. rewrite !replace_char_app. reflexivity. Qed.

Lemma clean_filename_cons (c : ascii) (r : string) :
  clean_filename (String c r)
  = clean_filename (String c EmptyString) +:+ clean_filename r.
Proof. apply (clean_filename_app (String c EmptyString) r). Qed.

Lemma list_ascii_app (a b : string) :
  list_ascii_of_string (a +:+ b) = list_ascii_of_string a ++ list_ascii_of_string b.
Proof.
  induction a as [|x a IH]; [reflexivity|].
  change (String x a +:+ b) with (String x (a +:+ b)). simpl.
  rewrite IH. reflexivity.
Qed.

(** What becomes of one character. *)
Lemma clean_char (c : ascii) :
  forallb (fun x => negb (forbidden x))
          (list_ascii_of_string (clean_filename (String c EmptyString))) = true /\
  (forbidden c = false -> clean_filename (String c EmptyString) = String c EmptyString).
Proof.
  destruct c as [[] [] [] [] [] [] [] []]; vm_compute;
    (split; [reflexivity|first [reflexivity|discriminate]]).
Qed.

(** X23.  A name that [clean_filename] returns holds none of the characters
    that it replaces: blank, dot, colon, slash, backslash, question mark,
    star, the angle brackets, bar and double quote. *)
Theorem clean_filename_removes_forbidden (filename : string) :
  forallb (fun c => negb (forbidden c))
          (list_ascii_of_string (clean_filename filename)) = true.
Proof.
  induction filename as [|c r IH]; [reflexivity|].
  rewrite clean_filename_cons, list_ascii_app, forallb_app, IH.
  rewrite (proj1 (clean_char c)). reflexivity.
Qed.

Lemma clean_filename_fixes (t : string) :
  forallb (fun c => negb (forbidden c)) (list_ascii_of_string t) = true ->
  clean_filename t = t.
Proof.
  induction t as [|c r IH]; [reflexivity|]. simpl. intros H.
  apply andb_prop in H as [Hc Hr]. apply negb_true_iff in Hc.
  rewrite clean_filename_cons, (IH Hr), (proj2 (clean_char c) Hc). reflexivity.
Qed.

(** X24.  [clean_filename] works character by character, so the clean name of
    a name in two parts is made of the clean names of the parts; and a clean
    name is left as it is, so cleaning twice is cleaning once. *)
Theorem clean_filename_idempotent (a b : string) :
  clean_filename (a +:+ b) = clean_filename a +:+ clean_filename b /\
  clean_filename (clean_filename a) = clean_filename a.
Proof.
  split; [apply clean_filename_app|].
  apply clean_filename_fixes. induction a as [|c r IH]; [reflexivity|].
  rewrite clean_filename_cons, list_ascii_app, forallb_app, IH.
  rewrite (proj1 (clean_char c)). reflexivity.
Qed.

End CleanFilename.
(** ** The mapper only adds *)

Section MapperGrows.
Import Mapper.

Variable storable : pyval -> bool.
Variable iso8601 : pyval -> string.

(** Induction on metadata values, through the values they hold. *)
Lemma pyval_nested_ind (P : pyval -> Prop) :
  P VNone -> (forall b, P (VBool b)) -> (forall z, P (VNum z)) ->
  (forall t, P (VStr t)) ->
  (forall l, Forall P l -> P (VList l)) ->
  (forall l, Forall P l -> P (VTuple l)) ->
  (forall d, Forall (fun kv => P (snd kv)) d -> P (VDict d)) ->
  (forall d, Forall (fun kv => P (snd kv)) d -> P (VRunDoc d)) ->
  forall v, P v.
Proof.
  intros HNone HBool HNum HStr HList HTuple HDict HRun.
  fix IH 1. intros [ |b|z|t|l|l|d|d].
  - exact HNone.
  - apply HBool.
  - apply HNum.
  - apply HStr.
  - apply HList. induction l as [|v l IHl]; constructor; [apply IH|exact IHl].
  - apply HTuple. induction l as [|v l IHl]; constructor; [apply IH|exact IHl].
  - apply HDict. induction d as [|[k v] d IHd]; constructor; [apply IH|exact IHd].
  - apply HRun. induction d as [|[k v] d IHd]; constructor; [apply IH|exact IHd].
Qed.

(** The members of [entry'] are those of [entry] and then new ones, and the
    attributes are the same. *)
Let grows (entry entry' : group) : Prop :=
  attrs entry' = attrs entry /\
  exists new, members entry' = members entry ++ new.

Lemma grows_refl entry : grows entry entry.
Proof. split; [reflexivity|]. exists []. rewrite app_nil_r. reflexivity. Qed.

Lemma grows_trans e1 e2 e3 : grows e1 e2 -> grows e2 e3 -> grows e1 e3.
Proof.
  intros [A12 [n12 M12]] [A23 [n23 M23]]. split; [congruence|].
  exists (n12 ++ n23). rewrite M23, M12, <- app_assoc. reflexivity.
Qed.

Lemma link_grows entry k n entry' : link entry k n = Ok entry' -> grows entry entry'.
Proof. intros H. apply link_ok in H as [Ha Hm]. split; [exact Ha|eauto]. Qed.

Lemma set_native_grows entry k v entry' :
  set_native storable entry k v = Ok entry' -> grows entry entry'.
Proof. unfold set_native. destruct (storable v); [apply link_grows|discriminate]. Qed.

Lemma item_grows (rec : bool -> group -> pyval -> result group)
    (tconv : bool) (entry entry' : group) (key : string) (val : pyval) :
  (has_items val = true ->
   forall conv e e', rec conv e val = Ok e' -> grows e e') ->
  item storable iso8601 rec tconv entry key val = Ok entry' ->
  grows entry entry'.
Proof.
  intros Hrec. unfold item.
  destruct (tconv && String.eqb key "time"); [apply set_native_grows|].
  assert (Hsub : has_items val = true ->
                 into_sub_entry entry key (fun sub => rec true sub val) = Ok entry' ->
                 grows entry entry').
  { intros Hmap. unfold into_sub_entry.
    destruct (String.eqb key "start"); [apply Hrec, Hmap|].
    destruct (has_key key (members entry)); [discriminate|].
    intros H. apply rbind_ok in H as (sub & _ & H). eapply link_grows, H. }
  destruct val as [ |b|z|t|l|l|d|d]; try apply set_native_grows.
  - intros [= <-]. apply grows_refl.
  - intros H. apply rbind_ok in H as ([entry1 no_dict] & Hloop & H).
    destruct (each_element_ok _ _ _ _ _ _ _ Hloop) as (subs & _ & Ha & Hm & _).
    assert (H1 : grows entry entry1) by (split; [exact Ha|eauto]).
    destruct no_dict.
    + apply (grows_trans _ _ _ H1).
      apply store_sequence_ok in H as [Ha2 Hm2]. split; [exact Ha2|eauto].
    + injection H as <-. exact H1.
  - apply Hsub. reflexivity.
  - destruct (has_key "time" d); [apply Hsub; reflexivity|discriminate].
Qed.

Lemma each_item_grows (rec : bool -> group -> pyval -> result group)
    (tconv : bool) (items : list (string * pyval)) :
  Forall (fun kv => has_items (snd kv) = true ->
                    forall conv e e', rec conv e (snd kv) = Ok e' -> grows e e')
         items ->
  forall entry entry',
    each_item storable iso8601 rec tconv entry items = Ok entry' ->
    grows entry entry'.
Proof.
  induction 1 as [|[key val] items Hval _ IH]; intros entry entry'; simpl.
  - intros [= <-]. apply grows_refl.
  - intros H. apply rbind_ok in H as (entry1 & H1 & H).
    eapply grows_trans; [eapply item_grows; [exact Hval|exact H1]|].
    apply IH, H.
Qed.

Lemma recourse_mapping_grows (metadata : pyval) :
  has_items metadata = true ->
  forall conv entry entry',
    recourse storable iso8601 conv entry metadata = Ok entry' ->
    grows entry entry'.
Proof.
  induction metadata as [ |b|z|t|l IHl|l IHl|d IHd|d IHd] using pyval_nested_ind;
    try discriminate; intros _ conv entry entry'; simpl;
    apply each_item_grows, IHd.
Qed.


End MapperGrows.

Section MapperGrowsWitnesses.
Import Mapper.


End MapperGrowsWitnesses.
(** ** The loop of [reserve_name] ends *)

Section Strings.

Lemma str_app_cons (c : ascii) (a b : string) : String c a +:+ b = String c (a +:+ b).
Proof. reflexivity. Qed.









Lemma str_prefix_app (t b : string) : String.prefix t (t +:+ b) = true.
Proof.
  induction t as [|c t IH]; [destruct b; reflexivity|].
  rewrite str_app_cons. simpl. destruct (ascii_dec c c); [exact IH|contradiction].
Qed.

Lemma str_prefix_inv (t s : string) :
  String.prefix t s = true -> exists b, s = t +:+ b.
Proof.
  revert s. induction t as [|c t IH]; intros s H; [exists s; reflexivity|].
  destruct s as [|d s]; [discriminate|]. simpl in H.
  destruct (ascii_dec c d) as [->|]; [|discriminate].
  destruct (IH _ H) as [b ->]. exists b. reflexivity.
Qed.










End Strings.

Section LoopEnds.
Import FileManager.

Variable resolve : string -> string -> string.
Variable isfile : string -> bool.






End LoopEnds.

Section LoopEndsWitnesses.
Import FileManager.


End LoopEndsWitnesses.
(** ** The hierarchy builder *)

Section StartFacts.
Import Mapper Start.

Variable storable : pyval -> bool.
Variable iso8601 : pyval -> string.
Variable pop_rundoc : list (string * pyval) -> string -> result (pyval * pyval).
Variable sys_version : string.
Variable distributions : list (string * string).

Lemma create_group_ok {S} (g g' : group) (name : string)
    (fill : group -> result (group * S)) (s : S) :
  create_group g name fill = Ok (g', s) ->
  has_key name (members g) = false /\
  exists sub,
    fill empty_group = Ok (sub, s) /\
    attrs g' = attrs g /\
    members g' = members g ++ [(name, node_of_group sub)].
Proof.
  unfold create_group. destruct (has_key name (members g)); [discriminate|].
  intros H. apply rbind_ok in H as ([sub s'] & Hfill & H).
  apply rbind_ok in H as (g1 & Hlink & H). injection H as <- <-.
  apply link_ok in Hlink as [Ha Hm]. split; [reflexivity|]. eauto.
Qed.

Lemma in_member_ok {S} (g g' : group) (name : string)
    (f : group -> result (group * S)) (s : S) :
  in_member g name f = Ok (g', s) ->
  exists a m sub,
    get_key name (members g) = Some (NGroup a m) /\
    f (mkgroup a m) = Ok (sub, s) /\
    attrs g' = attrs g /\
    members g' = set_key name (node_of_group sub) (members g).
Proof.
  unfold in_member. destruct (get_key name (members g)) as [[a m|l]|];
    try discriminate.
  intros H. apply rbind_ok in H as ([sub s'] & Hf & H). injection H as <- <-.
  exists a, m, sub. repeat split; assumption.
Qed.

(** The members of [g'] are those of [g] and then new ones, and the
    attributes are the same. *)
Let grows (g g' : group) : Prop :=
  attrs g' = attrs g /\ exists new, members g' = members g ++ new.

Lemma move_field_grows (key target : string)
    (acc acc' : group * list (string * pyval)) :
  move_field storable key target acc = Ok acc' -> grows (fst acc) (fst acc').
Proof.
  destruct acc as [g d]. unfold move_field. destruct (get_key key d).
  - intros H. apply rbind_ok in H as (g' & Hg' & H). injection H as <-.
    eapply set_native_grows, Hg'.
  - intros [= <-]. apply grows_refl.
Qed.

Lemma create_group_grows {S} (g g' : group) (name : string)
    (fill : group -> result (group * S)) (s : S) :
  create_group g name fill = Ok (g', s) -> grows g g'.
Proof.
  intros H. apply create_group_ok in H as (_ & sub & _ & Ha & Hm).
  split; [exact Ha|eauto].
Qed.

(** [measurement_details] holds the start time first. *)
Lemma measurement_details_first (start_time : string)
    (doc doc' : list (string * pyval)) (g g' : group) :
  measurement_details storable iso8601 start_time doc g = Ok (g', doc') ->
  attrs g' = attrs g /\
  exists details,
    members g'
    = members g ++ ("start_time", NLeaf (LNative (VStr start_time))) :: details.
Proof.
  unfold measurement_details. intros H.
  apply rbind_ok in H as (g0 & H0 & H).
  unfold set_native in H0. destruct (storable _); [|discriminate].
  apply link_ok in H0 as [A0 M0].
  assert (Hrest : grows g0 g').
  { repeat (let acc := fresh "acc" in
            let Hacc := fresh "Hacc" in
            apply rbind_ok in H as (acc & Hacc & H)).
    repeat match goal with
           | Hm : move_field _ _ _ _ = Ok _ |- _ => apply move_field_grows in Hm
           end.
    assert (Hvars : grows (fst acc8) (fst acc9)).
    { destruct acc8 as [m8 d8]. destruct (get_key "variables" d8).
      - destruct acc9 as [m9 d9]. eapply create_group_grows, Hacc9.
      - injection Hacc9 as <-. apply grows_refl. }
    clear Hacc9. simpl in *.
    repeat (eapply grows_trans; [eassumption|]). apply grows_refl. }
  destruct Hrest as [A [new M]]. split; [congruence|].
  exists new. rewrite M, M0, <- app_assoc. reflexivity.
Qed.

(** X27.  The entry that [start] writes has the class [NXentry] and, in this
    order, the groups [measurement_details] (with the start time first),
    [program], [user], [sample] and [instruments], then what the mapper makes
    of the fields of the document that [start] has not used, and last the
    empty group [data] of the class [NXdata]. *)
Theorem entry_has_fixed_groups (start_time : string)
    (doc : list (string * pyval)) (entry : group) (kept : channels) :
  entry_group storable iso8601 pop_rundoc sys_version distributions
              start_time doc empty_group = Ok (entry, kept) ->
  attrs entry = [("NX_class", VStr "NXentry")] /\
  exists details program user sample instruments rest,
    members entry
    = [("measurement_details",
        NGroup [] (("start_time", NLeaf (LNative (VStr start_time))) :: details));
       ("program", program); ("user", user); ("sample", sample);
       ("instruments", instruments)]
      ++ rest ++ [("data", NGroup [("NX_class", VStr "NXdata")] [])].
Proof.
  unfold entry_group. intros H.
  apply rbind_ok in H as (doc1 & _ & H).
  apply rbind_ok in H as ([e1 doc2] & H1 & H).
  apply rbind_ok in H as ([e2 u2] & H2 & H).
  destruct (pop_or_empty "user" doc2) as [user_data doc3].
  apply rbind_ok in H as ([e3 u3] & H3 & H).
  destruct (pop_or_empty "sample" doc3) as [sample_data doc4].
  apply rbind_ok in H as ([e4 u4] & H4 & H).
  destruct (pop_or_empty "devices" doc4) as [device_data doc5].
  apply rbind_ok in H as ([e5 kept5] & H5 & H).
  apply rbind_ok in H as (e6 & H6 & H).
  apply rbind_ok in H as ([e7 u7] & H7 & H). injection H as <- <-.
  apply create_group_ok in H1 as (_ & md & Hmd & A1 & M1).
  apply create_group_ok in H2 as (_ & prog & _ & A2 & M2).
  apply create_group_ok in H3 as (_ & user & _ & A3 & M3).
  apply create_group_ok in H4 as (_ & sample & _ & A4 & M4).
  apply create_group_ok in H5 as (_ & instr & _ & A5 & M5).
  apply (recourse_mapping_grows storable iso8601 (VDict doc5) eq_refl false) in H6
    as [A6 [rest M6]].
  apply create_group_ok in H7 as (_ & data & Hdata & A7 & M7).
  injection Hdata as <-.
  apply measurement_details_first in Hmd as (Amd & details & Mmd).
  split; [simpl in *; congruence|].
  exists details, (node_of_group prog), (node_of_group user),
         (node_of_group sample), (node_of_group instr), rest.
  rewrite M7, M6, M5, M4, M3, M2, M1. simpl.
  unfold node_of_group at 1. rewrite Amd, Mmd. simpl.
  reflexivity.
Qed.

Variable format_prefix : list (string * pyval) -> result string.
Variable world : Type.
Variable handle : Type.
Variable resolve : string -> string -> string.
Variable isfile : world -> string -> bool.
Variable makedirs : world -> string -> world * option exn.
Variable h5_file : world -> string -> string -> world * result handle.
Variable root_of : handle -> group.

(** The loop over the names ends with a name that the file does not have, and
    that starts as the name it began with. *)
Lemma entry_name_loop_free (fuel : nat) (root : group) :
  forall (name : string) (i : nat) (entry_name : string),
    entry_name_loop fuel root name i = Some entry_name ->
    has_key entry_name (members root) = false.
Proof.
  induction fuel as [|fuel IH]; intros name i entry_name; simpl;
    destruct (has_key name (members root)) eqn:E; try discriminate.
  - intros [= <-]. exact E.
  - apply IH.
  - intros [= <-]. exact E.
Qed.

Lemma replace_keeps_nano (old_digits new_digits rest : string) :
  exists rest',
    PyStr.replace ("NANO_" +:+ rest) ("_" +:+ old_digits) ("_" +:+ new_digits)
    = "NANO_" +:+ rest'.
Proof.
  unfold PyStr.replace.
  change ("_" +:+ old_digits) with (String "_" old_digits).
  change ("NANO_" +:+ rest)
    with (String "N" (String "A" (String "N" (String "O" (String "_" rest))))).
  cbn. destruct (String.prefix old_digits rest); eexists; reflexivity.
Qed.

Lemma entry_name_loop_step (fuel : nat) (root : group) (name : string) (i : nat) :
  entry_name_loop fuel root name i
  = if has_key name (members root) then
      match fuel with
      | O => None
      | S fuel' =>
          entry_name_loop fuel' root
            (if PyStr.endswith name ("_" +:+ PyStr.of_nat (i - 1))
             then PyStr.replace name ("_" +:+ PyStr.of_nat (i - 1))
                                ("_" +:+ PyStr.of_nat i)
             else name +:+ ("_" +:+ PyStr.of_nat i))
            (i + 1)
      end
    else Some name.
Proof. destruct fuel; reflexivity. Qed.

Lemma entry_name_loop_nano (fuel : nat) (root : group) :
  forall (rest : string) (i : nat) (entry_name : string),
    entry_name_loop fuel root ("NANO_" +:+ rest) i = Some entry_name ->
    PyStr.startswith entry_name "NANO_" = true.
Proof.
  induction fuel as [|fuel IH]; intros rest i entry_name;
    rewrite entry_name_loop_step;
    destruct (has_key _ (members root)); try discriminate.
  - intros [= <-]. apply (str_prefix_app "NANO_" rest).
  - destruct (PyStr.endswith _ _).
    + destruct (replace_keeps_nano (PyStr.of_nat (i - 1)) (PyStr.of_nat i) rest)
        as [rest' ->]. apply IH.
    + rewrite string_app_assoc. apply IH.
  - intros [= <-]. apply (str_prefix_app "NANO_" rest).
Qed.

(** X28.  [start] adds one group to the file it has opened and leaves the
    groups that the file had: the entry comes last, under a name that the
    file did not have and that starts with [NANO_]; and the start time that
    [start] keeps is the [time] of the document. *)
Theorem start_adds_one_entry (fuel : nat) (w : world)
    (m : Files.manager handle) (doc : list (string * pyval))
    (st : @started world handle) :
  start storable iso8601 pop_rundoc format_prefix sys_version distributions
        world handle resolve isfile makedirs h5_file root_of fuel w m doc
  = Some (Ok st) ->
  get_key "time" doc = Some (st_start_time st) /\
  PyStr.startswith (st_entry_name st) "NANO_" = true /\
  has_key (st_entry_name st) (members (root_of (st_file st))) = false /\
  exists entry,
    members (st_root st)
    = members (root_of (st_file st)) ++ [(st_entry_name st, entry)].
Proof.
  unfold start. destruct (format_prefix doc) as [prefix|]; [|discriminate].
  destruct (get_key "time" doc) as [time|]; [|discriminate]. cbv zeta.
  assert (Hlabel : forall label,
             match Files.open resolve isfile makedirs h5_file fuel w m
                     (if PyStr.endswith prefix ".nxs" then prefix
                      else prefix +:+ ".nxs") label "a" with
             | None => None
             | Some (_, _, Raise e) => Some (Raise e)
             | Some (w, m, Ok f) =>
                 let root := put_attr (root_of f) "NX_class" "NXroot" in
                 match entry_name_loop fuel root ("NANO_" +:+ label) 1 with
                 | None => None
                 | Some entry_name =>
                     Some ('(root, kept) ←
                             create_group root entry_name
                               (entry_group storable iso8601 pop_rundoc sys_version
                                  distributions (iso8601 time)
                                  (remove_key "time" doc));
                           Ok (mkstarted w m f root entry_name time kept))
                 end
             end = Some (Ok st) ->
             Some time = Some (st_start_time st) /\
             PyStr.startswith (st_entry_name st) "NANO_" = true /\
             has_key (st_entry_name st) (members (root_of (st_file st))) = false /\
             exists entry,
               members (st_root st)
               = members (root_of (st_file st)) ++ [(st_entry_name st, entry)]).
  { intros label.
    destruct (Files.open _ _ _ _ _ _ _ _ _ _) as [[[w1 m1] [f|e]]|];
      try discriminate.
    cbv zeta.
    destruct (entry_name_loop _ _ _ _) as [entry_name|] eqn:Hloop;
      [|discriminate].
    intros [= H]. apply rbind_ok in H as ([root kept] & Hcreate & H).
    injection H as <-. simpl.
    apply create_group_ok in Hcreate as (_ & entry & _ & _ & Hm).
    split; [reflexivity|].
    split; [eapply entry_name_loop_nano, Hloop|].
    split; [eapply (entry_name_loop_free _ _ _ _ _ Hloop)|].
    exists (node_of_group entry). exact Hm. }
  destruct (get_key "session_name" doc) as [v|]; [|apply Hlabel].
  destruct (truthy v); [|apply Hlabel].
  destruct v; try apply Hlabel;
    repeat match goal with
           | |- context [if ?b then _ else _] => destruct b
           end;
    try discriminate;
    destruct (Files.open _ _ _ _ _ _ _ _ _ _) as [[[w1 m1] [f|e]]|];
    discriminate.
Qed.

Lemma get_key_remove_other {V} (k k' : string) (l : list (string * V)) :
  k <> k' -> get_key k (remove_key k' l) = get_key k l.
Proof.
  intros Hk. induction l as [|[k0 v0] l IH]; simpl; [reflexivity|].
  destruct (String.eqb_spec k' k0) as [->|Hne]; simpl.
  - apply String.eqb_neq in Hk. rewrite Hk. reflexivity.
  - rewrite IH. reflexivity.
Qed.

Lemma has_key_grows (k : string) (g g' : group) :
  grows g g' -> has_key k (members g) = true -> has_key k (members g') = true.
Proof.
  intros [_ [new ->]]. unfold has_key.
  destruct (get_key k (members g)) as [n|] eqn:E; [|discriminate].
  rewrite (get_key_app_some _ _ _ _ E). reflexivity.
Qed.

(** A value that the mapper writes under the key it comes with. *)
Let writes_under_key (v : pyval) : Prop :=
  match v with
  | VNone => False
  | VList l => forallb is_mapping l = false
  | _ => True
  end.

(** The turn of a key that the group has as a member raises. *)
Lemma item_clash (entry : group) (key : string) (val : pyval) :
  writes_under_key val -> key <> "start" ->
  has_key key (members entry) = true ->
  is_ok (item storable iso8601 (recourse storable iso8601) false entry key val)
  = false.
Proof.
  intros Hval Hstart Hkey. apply String.eqb_neq in Hstart.
  unfold item, set_native, into_sub_entry, link. simpl.
  rewrite Hstart, Hkey.
  destruct val as [ |b|z|t|l|l|d|d]; simpl in *;
    try contradiction;
    try (destruct (storable _); reflexivity); try reflexivity.
  - destruct (each_element _ _ _ _ _) as [[entry1 no_dict]|] eqn:Hloop;
      [|reflexivity].
    destruct (each_element_ok _ _ _ _ _ _ _ Hloop) as (subs & _ & Ha & Hm & Hnd).
    rewrite Hval in Hnd. subst no_dict. cbn.
    assert (Hkey1 : has_key key (members entry1) = true).
    { apply (has_key_grows key entry); [split; [exact Ha|eauto]|exact Hkey]. }
    unfold store_sequence, link. rewrite Hkey1.
    destruct (existsb is_str l); [reflexivity|].
    destruct (storable _); reflexivity.
  - destruct (has_key "time" d); reflexivity.
Qed.

Lemma each_item_clash (key : string) (val : pyval)
    (items : list (string * pyval)) :
  writes_under_key val -> key <> "start" ->
  get_key key items = Some val ->
  forall entry,
    has_key key (members entry) = true ->
    is_ok (each_item storable iso8601 (recourse storable iso8601) false entry items)
    = false.
Proof.
  intros Hval Hstart. induction items as [|[k v] items IH]; [discriminate|].
  simpl. intros Hget entry Hkey.
  destruct (String.eqb_spec key k) as [<-|Hne].
  - injection Hget as ->.
    pose proof (item_clash entry key val Hval Hstart Hkey) as Hraise.
    destruct (item _ _ _ _ _ _ _); [discriminate|reflexivity].
  - destruct (item _ _ _ _ _ _ _) as [entry1|] eqn:Hitem; [|reflexivity].
    cbn. apply (IH Hget).
    apply (has_key_grows key entry); [|exact Hkey].
    apply (item_grows storable iso8601 _ _ _ _ _ _
             (recourse_mapping_grows storable iso8601 v) Hitem).
Qed.

(** X29.  A user record that has a [user_id] and also an [identifier] makes
    [start] fail: the group [identifier] is made for the [user_id], and the
    mapper then finds the name taken when it comes to the field
    [identifier].  (The field holds a value that the mapper writes under its
    key: not [None], and not a list of mappings only.) *)
Theorem user_id_and_identifier_clash (d : list (string * pyval))
    (user : group) (uid v : pyval) :
  get_key "user_id" d = Some uid ->
  get_key "identifier" d = Some v ->
  match v with
  | VNone => False
  | VList l => forallb is_mapping l = false
  | _ => True
  end ->
  is_ok (user_group storable iso8601 pop_rundoc (VDict d) user) = false.
Proof.
  intros Huid Hid Hv. unfold user_group. simpl. unfold has_key. rewrite Huid.
  cbn.
  destruct (create_group _ "identifier" _) as [[user1 user_data]|] eqn:Hcreate;
    [|reflexivity].
  cbn. apply create_group_ok in Hcreate as (_ & idg & Hfill & Ha & Hm).
  assert (Hdata : exists d', user_data = VDict d' /\ get_key "identifier" d' = Some v).
  { unfold identifier_group in Hfill. simpl in Hfill. rewrite Huid in Hfill.
    cbn in Hfill. apply rbind_ok in Hfill as (g1 & _ & Hfill). cbn in Hfill.
    destruct (has_key "ELN-service" (remove_key "user_id" d)) eqn:Hservice.
    - unfold has_key in Hservice.
      destruct (get_key "ELN-service" (remove_key "user_id" d)) as [sv|] eqn:Esv;
        [|discriminate].
      cbn in Hfill. apply rbind_ok in Hfill as (g2 & _ & Hfill).
      injection Hfill as _ <-. eexists. split; [reflexivity|].
      rewrite !get_key_remove_other by discriminate. exact Hid.
    - apply rbind_ok in Hfill as (g2 & _ & Hfill). injection Hfill as _ <-.
      eexists. split; [reflexivity|].
      rewrite get_key_remove_other by discriminate. exact Hid. }
  destruct Hdata as (d' & -> & Hid').
  unfold recourse_entry_dict. simpl.
  assert (Hraise : is_ok (each_item storable iso8601 (recourse storable iso8601)
                                    false user1 d') = false).
  { apply (each_item_clash "identifier" v); try assumption; [discriminate|].
    unfold has_key. rewrite Hm.
    rewrite get_key_snoc. cbn.
    destruct (get_key "identifier" (members user)); reflexivity. }
  destruct (each_item _ _ _ _ _ _); [discriminate|reflexivity].
Qed.

Lemma recourse_keeps_class (entry entry' : group) (metadata : pyval) :
  recourse_entry_dict storable iso8601 entry metadata = Ok entry' ->
  get_key "NX_class" (attrs entry') = get_key "NX_class" (attrs entry) /\
  exists new, members entry' = members entry ++ new.
Proof.
  unfold recourse_entry_dict. destruct (has_items metadata) eqn:Hmap.
  - intros H. apply (recourse_mapping_grows _ _ _ Hmap) in H as [-> Hm].
    split; [reflexivity|exact Hm].
  - destruct metadata; try discriminate; simpl; unfold set_attr;
      (destruct (storable _); [|discriminate]); intros [= <-]; simpl;
      (split; [apply get_set_key_other; discriminate|]);
      exists []; rewrite app_nil_r; reflexivity.
Qed.

(** X30.  The place that [start] keeps for a channel is the place of the
    channel's group: a turn of the loop over the channels of a device puts
    the group under [outputs] when the channel's [output] is true and under
    [sensors] when it is not, with the class [NXactuator] or [NXsensor] and
    the channel's key as its first field [name], and keeps as the channel's
    link the path of that group. *)
Theorem channel_link_is_place (dev ch : string) (dev_group dev_group' : group)
    (kept kept' : channels) (ch_dat : pyval) :
  channel storable iso8601 pop_rundoc dev (dev_group, kept) (ch, ch_dat)
  = Ok (dev_group', kept') ->
  exists is_output ch_dat1 leaf side_attrs side_members sensor_attrs fields,
    pop_key pop_rundoc ch_dat "output" = Ok (is_output, ch_dat1) /\
    let side := if truthy is_output then "outputs" else "sensors" in
    get_key ch (channel_links kept') = Some ["instruments"; dev; side; leaf] /\
    get_key side (members dev_group') = Some (NGroup side_attrs side_members) /\
    get_key leaf side_members
    = Some (NGroup sensor_attrs
                   (("name", NLeaf (LNative (VStr ch))) :: fields)) /\
    get_key "NX_class" sensor_attrs
    = Some (VStr (if truthy is_output then "NXactuator" else "NXsensor")) /\
    is_Some (get_key ch (channel_metadata kept')).
Proof.
  unfold channel. intros H.
  apply rbind_ok in H as ([is_output ch_dat1] & Hout & H).
  apply rbind_ok in H as (ch_dat2 & _ & H).
  apply rbind_ok in H as ([name ch_dat3] & _ & H).
  apply rbind_ok in H as (leaf & _ & H).
  apply rbind_ok in H as ([dev1 metadata] & Hin & H). injection H as <- <-.
  apply in_member_ok in Hin as (a & m & side_group & Hside & Hcreate & Ha & Hm).
  apply create_group_ok in Hcreate as (Hfree & sensor & Hfill & Hsa & Hsm).
  apply rbind_ok in Hfill as (s1 & Hname & Hfill).
  apply rbind_ok in Hfill as ([metadata' ch_dat4] & _ & Hfill).
  apply rbind_ok in Hfill as (s2 & Hmd & Hfill).
  apply rbind_ok in Hfill as (s3 & Hrest & Hfill). injection Hfill as <- <-.
  unfold set_native in Hname. destruct (storable _); [|discriminate].
  apply link_ok in Hname as [A1 M1]. simpl in A1, M1.
  apply recourse_keeps_class in Hmd as [A2 [new2 M2]].
  apply recourse_keeps_class in Hrest as [A3 [new3 M3]].
  exists is_output, ch_dat1, leaf, (attrs side_group), (members side_group),
         (attrs s3), (new2 ++ new3).
  split; [exact Hout|]. cbv zeta. simpl.
  split; [apply get_set_key|].
  split; [rewrite Hm; apply get_set_key|].
  split.
  { rewrite Hsm, get_key_snoc. cbn [members] in Hfree |- *.
    unfold has_key in Hfree.
    destruct (get_key leaf m); [discriminate|].
    rewrite ?String.eqb_refl. unfold node_of_group.
    rewrite M3, M2, M1, <- app_assoc. reflexivity. }
  split; [|rewrite get_set_key; eauto].
  rewrite A3, A2, A1. destruct (truthy is_output); reflexivity.
Qed.

End StartFacts.

Section StartWitnesses.
Import Mapper Start.

Lemma entry_has_fixed_groups_witness :
  exists entry kept,
    entry_group plain_storable fixed_iso8601 no_pop "3.11" toy_distributions
                "1970-01-01T00:00:00+00:00" (remove_key "time" demo_doc)
                empty_group = Ok (entry, kept) /\
    attrs entry = [("NX_class", VStr "NXentry")] /\
    exists details program user sample instruments rest,
      members entry
      = [("measurement_details",
          NGroup [] (("start_time",
                      NLeaf (LNative (VStr "1970-01-01T00:00:00+00:00")))
                     :: details));
         ("program", program); ("user", user); ("sample", sample);
         ("instruments", instruments)]
        ++ rest ++ [("data", NGroup [("NX_class", VStr "NXdata")] [])].
Proof.
  destruct (entry_group plain_storable fixed_iso8601 no_pop "3.11"
              toy_distributions "1970-01-01T00:00:00+00:00"
              (remove_key "time" demo_doc) empty_group) as [[entry kept]|e] eqn:E.
  - exists entry, kept. split; [reflexivity|].
    apply (entry_has_fixed_groups plain_storable fixed_iso8601 no_pop "3.11"
             toy_distributions _ _ entry kept E).
  - vm_compute in E. discriminate.
Defined.

Lemma start_adds_one_entry_witness :
  exists st,
    demo_start demo_doc = Some (Ok st) /\
    get_key "time" demo_doc = Some (st_start_time st) /\
    PyStr.startswith (st_entry_name st) "NANO_" = true /\
    has_key (st_entry_name st) (members (new_file (st_file st))) = false /\
    exists entry,
      members (st_root st)
      = members (new_file (st_file st)) ++ [(st_entry_name st, entry)].
Proof.
  destruct (demo_start demo_doc) as [[st|e]|] eqn:E.
  - exists st. split; [reflexivity|].
    apply (start_adds_one_entry plain_storable fixed_iso8601 no_pop "3.11"
             toy_distributions uid_prefix Files.toy_world nat FileManager.join
             Files.toy_isfile Files.toy_makedirs Files.toy_file new_file 4
             (Files.mktoy [] 0 []) (Files.init nat "/d" true) demo_doc st E).
  - vm_compute in E. discriminate.
  - vm_compute in E. discriminate.
Defined.

Lemma user_id_and_identifier_clash_witness :
  is_ok (user_group plain_storable fixed_iso8601 no_pop
           (VDict [("user_id", VStr "u1"); ("identifier", VStr "ann")])
           empty_group) = false.
Proof.
  apply (user_id_and_identifier_clash plain_storable fixed_iso8601 no_pop
           [("user_id", VStr "u1"); ("identifier", VStr "ann")] empty_group
           (VStr "u1") (VStr "ann")).
  - reflexivity.
  - reflexivity.
  - exact I.
Defined.

Lemma channel_link_is_place_witness :
  let dev_group := mkgroup [] [("sensors", NGroup [] []); ("outputs", NGroup [] [])] in
  let dev_group' :=
    mkgroup [] [("sensors",
                 NGroup [] [("det", NGroup [("NX_class", VStr "NXsensor")]
                                      [("name", NLeaf (LNative (VStr "det")));
                                       ("units", NLeaf (LNative (VStr "V")))])]);
                ("outputs", NGroup [] [])] in
  let kept' := mkchannels [("det", ["instruments"; "dev"; "sensors"; "det"])]
                          [("det", VDict [("units", VStr "V")])] in
  exists is_output ch_dat1 leaf side_attrs side_members sensor_attrs fields,
    pop_key no_pop det_channel "output" = Ok (is_output, ch_dat1) /\
    let side := if truthy is_output then "outputs" else "sensors" in
    get_key "det" (channel_links kept') = Some ["instruments"; "dev"; side; leaf] /\
    get_key side (members dev_group') = Some (NGroup side_attrs side_members) /\
    get_key leaf side_members
    = Some (NGroup sensor_attrs
                   (("name", NLeaf (LNative (VStr "det"))) :: fields)) /\
    get_key "NX_class" sensor_attrs
    = Some (VStr (if truthy is_output then "NXactuator" else "NXsensor")) /\
    is_Some (get_key "det" (channel_metadata kept')).
Proof.
  intros dev_group dev_group' kept'.
  apply (channel_link_is_place plain_storable fixed_iso8601 no_pop "dev" "det"
           dev_group dev_group' (mkchannels [] []) kept' det_channel).
  vm_compute. reflexivity.
Defined.

(** A second run into a file that has the entry of the first gets a number. *)
Example entry_name_numbered :
  entry_name_loop 4 (mkgroup [] [("NANO_s1", NGroup [] []); ("NANO_s1_1", NGroup [] [])])
                  "NANO_s1" 1 = Some "NANO_s1_2".
Proof. reflexivity. Qed.

End StartWitnesses.
